(** * A verification model of the UPI fraud-detection service

    The Python sources are embedded function by function.  Conventions:

    - a Python [str] is a Rocq [string]; its characters are taken in the
      ASCII range, where [str.lower], the regular-expression classes and the
      byte-wise operations of [String] coincide with Python's;
    - a Python [float] is an exact rational [Q]: the code adds scores,
      multiplies them by constants, rounds them to two decimals, compares
      them with thresholds and takes their [min] and [max];
    - a [dict] with a fixed layout that never leaves its module is a record;
      the result dictionaries that travel through the orchestrator are
      values of [pyval], with Python's truthiness, [dict.get] and key tests;
    - an exception is the [Raise] result of the monad [Exc], carrying the
      text of [str(e)];
    - the surroundings of the program (standard-library functions, model
      files, the network) are the fields of one record [World]. *)

From Stdlib Require Import ZArith QArith Qround Lqa String Ascii List Bool Lia DecimalString.
From stdpp Require Import gmap strings.
Import ListNotations.
Open Scope string_scope.
Open Scope list_scope.

(** ** Python string methods *)

Module PyStr.

Definition is_upper (c : ascii) : bool :=
  let n := nat_of_ascii c in (65 <=? n)%nat && (n <=? 90)%nat.

Definition is_lower (c : ascii) : bool :=
  let n := nat_of_ascii c in (97 <=? n)%nat && (n <=? 122)%nat.

Definition is_digit (c : ascii) : bool :=
  let n := nat_of_ascii c in (48 <=? n)%nat && (n <=? 57)%nat.

Definition is_alpha (c : ascii) : bool := is_upper c || is_lower c.

Definition is_alnum (c : ascii) : bool := is_alpha c || is_digit c.

(** [\s] of the [re] module, on ASCII: space, \t \n \v \f \r and the
    separators 0x1c..0x1f. *)
Definition is_space (c : ascii) : bool :=
  let n := nat_of_ascii c in
  (n =? 32)%nat || ((9 <=? n)%nat && (n <=? 13)%nat) || ((28 <=? n)%nat && (n <=? 31)%nat).

(** [\w] of the [re] module, on ASCII. *)
Definition is_word (c : ascii) : bool := is_alnum c || Ascii.eqb c "_".

Definition lower_char (c : ascii) : ascii :=
  if is_upper c then ascii_of_nat (nat_of_ascii c + 32) else c.

(** [s.lower()] *)
Fixpoint lower (s : string) : string :=
  match s with
  | EmptyString => EmptyString
  | String c s' => String (lower_char c) (lower s')
  end.

(** [s.startswith(p)] *)
Definition startswith (s p : string) : bool := String.prefix p s.

(** [s.endswith(p)]: some tail of [s] is [p]. *)
Fixpoint endswith (s p : string) : bool :=
  String.eqb s p ||
  match s with
  | EmptyString => false
  | String _ s' => endswith s' p
  end.

(** [s[len(p):]] when [s.startswith(p)] *)
Fixpoint drop_prefix (p s : string) : option string :=
  match p, s with
  | EmptyString, _ => Some s
  | String a p', String b s' => if Ascii.eqb a b then drop_prefix p' s' else None
  | String _ _, EmptyString => None
  end.

(** [p in s] for strings *)
Fixpoint contains (s p : string) : bool :=
  String.prefix p s ||
  match s with
  | EmptyString => false
  | String _ s' => contains s' p
  end.

(** [c in s] for one character *)
Fixpoint has_char (s : string) (c : ascii) : bool :=
  match s with
  | EmptyString => false
  | String a s' => Ascii.eqb a c || has_char s' c
  end.

(** [s.replace(old, new)] for a non-empty [old]: every occurrence, taken
    from the left and not overlapping.  [skip] counts the characters of an
    occurrence that are still to be dropped. *)
Fixpoint replace_from (old new : string) (skip : nat) (s : string) : string :=
  match s with
  | EmptyString => EmptyString
  | String c s' =>
      match skip with
      | S k => replace_from old new k s'
      | O =>
          if String.prefix old s
          then new +:+ replace_from old new (String.length old - 1) s'
          else String c (replace_from old new 0 s')
      end
  end.

Definition replace (s old new : string) : string := replace_from old new 0 s.

(** The text after the last [c], when there is one. *)
Fixpoint after_last (c : ascii) (s : string) : option string :=
  match s with
  | EmptyString => None
  | String a s' =>
      match after_last c s' with
      | Some r => Some r
      | None => if Ascii.eqb a c then Some s' else None
      end
  end.

(** [s.split(c)[-1]] *)
Definition split_last (c : ascii) (s : string) : string :=
  match after_last c s with
  | Some r => r
  | None => s
  end.

(** [s.split(c)[0]] *)
Fixpoint split_first (c : ascii) (s : string) : string :=
  match s with
  | EmptyString => EmptyString
  | String a s' => if Ascii.eqb a c then EmptyString else String a (split_first c s')
  end.

(** The text after the first [c], when there is one: [s.split(c, 1)[1]]. *)
Fixpoint after_first (c : ascii) (s : string) : option string :=
  match s with
  | EmptyString => None
  | String a s' => if Ascii.eqb a c then Some s' else after_first c s'
  end.

(** [s.rstrip(chars)] *)
Fixpoint rstrip (chars : string) (s : string) : string :=
  match s with
  | EmptyString => EmptyString
  | String a s' =>
      match rstrip chars s' with
      | EmptyString => if has_char chars a then EmptyString else String a EmptyString
      | r => String a r
      end
  end.

(** [s[:n]] *)
Definition take (n : nat) (s : string) : string := substring 0 n s.

(** [sep.join(l)] *)
Fixpoint join (sep : string) (l : list string) : string :=
  match l with
  | [] => EmptyString
  | [x] => x
  | x :: l' => x +:+ sep +:+ join sep l'
  end.

(** [str(n)] for an integer *)
Definition of_Z (z : Z) : string := NilZero.string_of_int (Z.to_int z).

(** [x in l] for a list of strings *)
Definition mem (x : string) (l : list string) : bool := existsb (String.eqb x) l.

End PyStr.

(** ** Exceptions *)

Inductive Exc (A : Type) : Type :=
| Ok (a : A)
| Raise (msg : string).
Arguments Ok {A} a.
Arguments Raise {A} msg.

Definition exc_bind {A B : Type} (m : Exc A) (k : A -> Exc B) : Exc B :=
  match m with
  | Ok a => k a
  | Raise msg => Raise msg
  end.

Notation "x <- m ;; k" := (exc_bind m (fun x => k))
  (at level 100, m at next level, right associativity).

(** [try: body  except Exception as e: handler(str(e))] *)
Definition try_except {A : Type} (body : Exc A) (handler : string -> A) : A :=
  match body with
  | Ok a => a
  | Raise msg => handler msg
  end.

(** ** Python's [min] and [max] on two numbers: on a tie the first argument
    is returned. *)

Definition Qlt_bool (a b : Q) : bool := negb (Qle_bool b a).

Definition py_min (a b : Q) : Q := if Qlt_bool b a then b else a.
Definition py_max (a b : Q) : Q := if Qlt_bool a b then b else a.

(** ** stage2_dynamic/fallback_engine.py *)

Module FallbackEngine.

Local Open Scope Q_scope.

Record RiskReport := {
  level : string;
  score : Q;
  action : string;
  reasons : list string
}.

Definition whois_step (risk : Q) (reasons : list string) (whois_age_days : option Z)
  : Q * list string :=
  match whois_age_days with
  | None => (risk, reasons)
  | Some d =>
      if (d <? 7)%Z then (risk + 30, reasons ++ ["whois<7d"])
      else if (d <? 30)%Z then (risk + 15, reasons ++ ["whois<30d"])
      else if (d <? 180)%Z then (risk + 5, reasons ++ ["whois<180d"])
      else (risk, reasons)
  end.

Definition fallback_risk (static_score : Q) (hard_rule_hits : Z) (tls_ok upi_in_url : bool)
    (whois_age_days : option Z) (in_blacklist : bool) : RiskReport :=
  let reasons := [] in
  let risk := static_score * 100.0 in
  let '(risk, reasons) :=
    if (hard_rule_hits =? 0)%Z then (risk, reasons)
    else (risk + 20 * inject_Z (Z.min hard_rule_hits 3),
          reasons ++ ["hard_rules:" +:+ PyStr.of_Z hard_rule_hits]) in
  if in_blacklist then
    {| level := "HIGH"; score := 100; action := "BLOCK";
       reasons := reasons ++ ["in_blacklist"] |}
  else
    let '(risk, reasons) :=
      if negb tls_ok then (risk + 25, reasons ++ ["tls_bad"]) else (risk, reasons) in
    let '(risk, reasons) :=
      if upi_in_url then (risk + 30, reasons ++ ["upi_in_url"]) else (risk, reasons) in
    let '(risk, reasons) := whois_step risk reasons whois_age_days in
    let score := py_max 0 (py_min 100 risk) in
    if Qle_bool 70 score then
      {| level := "HIGH"; score := score; action := "BLOCK"; reasons := reasons |}
    else if Qle_bool 40 score then
      {| level := "MEDIUM"; score := score; action := "CHALLENGE"; reasons := reasons |}
    else
      {| level := "LOW"; score := score; action := "ALLOW_WITH_LOG"; reasons := reasons |}.

End FallbackEngine.

(** ** vpa_validation/vpa_reputation.py

    The module-level dictionary [VPA_REPUTATION] is the state; each function
    takes the store and gives back the store it leaves behind. *)

Module VpaReputation.

Local Open Scope Q_scope.

Record Reputation := { reports : Z; trust : Q }.

Definition fresh : Reputation := {| reports := 0; trust := 0.50 |}.

(** [VPA_REPUTATION.get(vpa, {...})]: [dict.get] reads and never writes. *)
Definition get_reputation (store : gmap string Reputation) (vpa : string)
  : Reputation * gmap string Reputation :=
  let vpa := PyStr.lower vpa in
  (default fresh (store !! vpa), store).

Definition report_scam (r : Reputation) : Reputation :=
  {| reports := (reports r + 1)%Z; trust := trust r |}.

Definition scale_trust (r : Reputation) : Reputation :=
  {| reports := reports r; trust := trust r * 0.75 |}.

Definition raise_trust (r : Reputation) : Reputation :=
  {| reports := reports r; trust := py_min 1.0 (trust r + 0.05) |}.

Definition update_reputation (store : gmap string Reputation) (vpa : string) (is_scam : bool)
  : gmap string Reputation :=
  let vpa := PyStr.lower vpa in
  let store :=
    match store !! vpa with
    | None => <[vpa := {| reports := 0; trust := 0.5 |}]> store
    | Some _ => store
    end in
  if is_scam then alter scale_trust vpa (alter report_scam vpa store)
  else alter raise_trust vpa store.

End VpaReputation.

(** ** Regular expressions

    The patterns of the program are sequences of literals, one-character
    classes with a repetition count, the anchor [$], word boundaries and a
    negative look-ahead over literal alternatives.  [run] is the backtracking
    matcher of Python's [re]: repetitions are greedy, and the answer is what
    is left of the text after the first match in priority order. *)

Module Regex.

Inductive item : Type :=
| Lit (s : string)
| Rep (cls : ascii -> bool) (lo : nat) (hi : option nat)
| EndAnchor
| WordBoundary
| NotAhead (alts : list string).

Definition pattern : Type := list item.

Definition newline : ascii := ascii_of_nat 10.

(** [.] without DOTALL *)
Definition dot (c : ascii) : bool := negb (Ascii.eqb c newline).

Definition any_star : item := Rep dot 0 None.

Definition room (hi : option nat) : bool :=
  match hi with
  | Some O => false
  | _ => true
  end.

Definition less (hi : option nat) : option nat := option_map Nat.pred hi.

Fixpoint last_char (prev : option ascii) (s : string) : option ascii :=
  match s with
  | EmptyString => prev
  | String c s' => last_char (Some c) s'
  end.

Definition wordy (c : option ascii) : bool :=
  match c with
  | Some a => PyStr.is_word a
  | None => false
  end.

Definition head (s : string) : option ascii :=
  match s with
  | EmptyString => None
  | String c _ => Some c
  end.

(** [cls{lo,hi}] followed by the continuation [k]; [prev] is the character
    before the current position. *)
Fixpoint rep {A : Type} (cls : ascii -> bool) (lo : nat) (hi : option nat)
    (k : option ascii -> string -> option A) (prev : option ascii) (s : string) : option A :=
  let stop := match lo with O => k prev s | S _ => None end in
  match s with
  | EmptyString => stop
  | String c s' =>
      if cls c && room hi then
        match rep cls (Nat.pred lo) (less hi) k (Some c) s' with
        | Some r => Some r
        | None => stop
        end
      else stop
  end.

Fixpoint run (p : pattern) (prev : option ascii) (s : string) : option string :=
  match p with
  | [] => Some s
  | Lit l :: p' =>
      match PyStr.drop_prefix l s with
      | Some rest => run p' (last_char prev l) rest
      | None => None
      end
  | Rep cls lo hi :: p' => rep cls lo hi (run p') prev s
  | EndAnchor :: p' =>
      if String.eqb s EmptyString || String.eqb s (String newline EmptyString)
      then run p' prev s else None
  | WordBoundary :: p' =>
      if xorb (wordy prev) (wordy (head s)) then run p' prev s else None
  | NotAhead alts :: p' =>
      if existsb (fun a => String.prefix a s) alts then None else run p' prev s
  end.

(** [re.match(p, s)] as a truth value *)
Definition matches (p : pattern) (s : string) : bool :=
  match run p None s with
  | Some _ => true
  | None => false
  end.

(** The matched text at the current position. *)
Definition match_at (p : pattern) (prev : option ascii) (s : string) : option string :=
  match run p prev s with
  | Some rest => Some (substring 0 (String.length s - String.length rest) s)
  | None => None
  end.

(** [re.findall(p, s)] for a pattern without groups; [skip] counts the
    characters of the last match that are still to be passed. *)
Fixpoint findall_from (p : pattern) (skip : nat) (prev : option ascii) (s : string)
  : list string :=
  match s with
  | EmptyString => []
  | String c s' =>
      match skip with
      | S k => findall_from p k (Some c) s'
      | O =>
          match match_at p prev s with
          | Some m => m :: findall_from p (String.length m - 1) (Some c) s'
          | None => findall_from p 0 (Some c) s'
          end
      end
  end.

Definition findall (p : pattern) (s : string) : list string := findall_from p 0 None s.

(** [re.search(p, s)]: the leftmost match. *)
Fixpoint search_from (p : pattern) (prev : option ascii) (s : string) : option string :=
  match match_at p prev s with
  | Some m => Some m
  | None =>
      match s with
      | EmptyString => None
      | String c s' => search_from p (Some c) s'
      end
  end.

Definition search (p : pattern) (s : string) : option string := search_from p None s.

End Regex.

(** ** Python values *)

#[warnings="-register-all"]
Inductive pyval : Type :=
| PNone
| PBool (b : bool)
| PInt (z : Z)
| PFloat (q : Q)
| PStr (s : string)
| PList (l : list pyval)
| PDict (d : list (string * pyval)).

Module Py.

Fixpoint assoc_get (k : string) (d : list (string * pyval)) : option pyval :=
  match d with
  | [] => None
  | (k', v) :: d' => if String.eqb k k' then Some v else assoc_get k d'
  end.

(** [d[k] = v]: an existing key keeps its place, a new one goes last. *)
Fixpoint assoc_set (k : string) (v : pyval) (d : list (string * pyval))
  : list (string * pyval) :=
  match d with
  | [] => [(k, v)]
  | (k', v') :: d' => if String.eqb k k' then (k, v) :: d' else (k', v') :: assoc_set k v d'
  end.

Definition has_key (k : string) (d : list (string * pyval)) : bool :=
  match assoc_get k d with
  | Some _ => true
  | None => false
  end.

(** [bool(v)] *)
Definition truthy (v : pyval) : bool :=
  match v with
  | PNone => false
  | PBool b => b
  | PInt z => negb (z =? 0)%Z
  | PFloat q => negb (Qeq_bool q 0)
  | PStr s => negb (String.eqb s EmptyString)
  | PList l => match l with [] => false | _ => true end
  | PDict d => match d with [] => false | _ => true end
  end.

Definition type_name (v : pyval) : string :=
  match v with
  | PNone => "NoneType"
  | PBool _ => "bool"
  | PInt _ => "int"
  | PFloat _ => "float"
  | PStr _ => "str"
  | PList _ => "list"
  | PDict _ => "dict"
  end.

(** [v.get(k, dflt)]; only a dict has the method. *)
Definition get (v : pyval) (k : string) (dflt : pyval) : Exc pyval :=
  match v with
  | PDict d =>
      Ok match assoc_get k d with
         | Some x => x
         | None => dflt
         end
  | _ => Raise ("'" +:+ type_name v +:+ "' object has no attribute 'get'")
  end.

(** [v == s] for a string constant [s] *)
Definition is_str (v : pyval) (s : string) : bool :=
  match v with
  | PStr s' => String.eqb s' s
  | _ => false
  end.

(** The number a value stands for in a comparison ([True] is 1). *)
Definition number (v : pyval) : option Q :=
  match v with
  | PInt z => Some (inject_Z z)
  | PFloat q => Some q
  | PBool b => Some (if b then 1 else 0)%Q
  | _ => None
  end.

(** [a >= q] for a float constant [q] *)
Definition ge (a : pyval) (q : Q) : Exc bool :=
  match number a with
  | Some x => Ok (Qle_bool q x)
  | None => Raise ("'>=' not supported between instances of '" +:+ type_name a
                   +:+ "' and 'float'")
  end.

(** [max(a, b)] of two numbers: [b] only when it is strictly larger. *)
Definition max (a b : pyval) : Exc pyval :=
  match number a, number b with
  | Some x, Some y => Ok (if Qlt_bool x y then b else a)
  | _, _ => Raise ("'>' not supported between instances of '" +:+ type_name b
                   +:+ "' and '" +:+ type_name a +:+ "'")
  end.

Definition strs (l : list string) : pyval := PList (map PStr l).

(** [v[k]] *)
Definition item (v : pyval) (k : string) : Exc pyval :=
  match v with
  | PDict d =>
      match assoc_get k d with
      | Some x => Ok x
      | None => Raise ("'" +:+ k +:+ "'")
      end
  | _ => Raise ("'" +:+ type_name v +:+ "' object is not subscriptable")
  end.

(** [v[k] = x] *)
Definition set_item (v : pyval) (k : string) (x : pyval) : Exc pyval :=
  match v with
  | PDict d => Ok (PDict (assoc_set k x d))
  | _ => Raise ("'" +:+ type_name v +:+ "' object does not support item assignment")
  end.

(** [k in v] for a dict [v] *)
Definition contains_key (v : pyval) (k : string) : Exc bool :=
  match v with
  | PDict d => Ok (has_key k d)
  | _ => Raise ("argument of type '" +:+ type_name v +:+ "' is not iterable")
  end.

Fixpoint chars (s : string) : list pyval :=
  match s with
  | EmptyString => []
  | String c s' => PStr (String c EmptyString) :: chars s'
  end.

(** [list(v[:n])] for a list or a string *)
Definition slice_to (n : nat) (v : pyval) : Exc (list pyval) :=
  match v with
  | PList l => Ok (firstn n l)
  | PStr s => Ok (chars (PyStr.take n s))
  | _ => Raise ("'" +:+ type_name v +:+ "' object is not subscriptable")
  end.

(** Rounding to the nearest integer, ties to the even one. *)
Definition round_half_even (q : Q) : Z :=
  let f := Qfloor q in
  let r := (q - inject_Z f)%Q in
  if Qlt_bool r (1 # 2) then f
  else if Qlt_bool (1 # 2) r then (f + 1)%Z
  else if Z.even f then f else (f + 1)%Z.

(** [round(q, 2)] *)
Definition round2 (q : Q) : Q := (inject_Z (round_half_even (q * 100)) / 100)%Q.

(** [f"{q:.2f}"] *)
Definition format_2f (q : Q) : string :=
  let n := round_half_even (q * 100)%Q in
  let a := Z.abs n in
  let frac := (a mod 100)%Z in
  (if (n <? 0)%Z then "-" else "") +:+ PyStr.of_Z (a / 100)%Z +:+ "." +:+
  (if (frac <? 10)%Z then "0" else "") +:+ PyStr.of_Z frac.

End Py.

(** ** qr_validation/vpa_validator.py *)

Module QrVpaValidator.

(** [[a-zA-Z0-9.\-_]] *)
Definition vpa_char (c : ascii) : bool :=
  PyStr.is_alnum c || Ascii.eqb c "." || Ascii.eqb c "-" || Ascii.eqb c "_".

(** [^[a-zA-Z0-9.\-_]{2,256}@[a-zA-Z0-9.\-_]{2,128}$] *)
Definition VPA_FORMAT : Regex.pattern :=
  [Regex.Rep vpa_char 2 (Some 256); Regex.Lit "@"; Regex.Rep vpa_char 2 (Some 128);
   Regex.EndAnchor].

Definition KNOWN_PROVIDERS : list (string * string) :=
  [ ("oksbi", "State Bank of India");
    ("sbi", "State Bank of India");
    ("okhdfcbank", "HDFC Bank");
    ("hdfcbank", "HDFC Bank");
    ("okaxis", "Axis Bank");
    ("axisbank", "Axis Bank");
    ("okicici", "ICICI Bank");
    ("icici", "ICICI Bank");
    ("federal", "Federal Bank");
    ("pnb", "Punjab National Bank");
    ("boi", "Bank of India");
    ("citi", "Citibank");
    ("sc", "Standard Chartered");
    ("rbl", "RBL Bank");
    ("kotak", "Kotak Mahindra Bank");
    ("indusind", "IndusInd Bank");
    ("yesbank", "Yes Bank");
    ("idbi", "IDBI Bank");
    ("unionbank", "Union Bank");
    ("canara", "Canara Bank");
    ("bob", "Bank of Baroda");
    ("paytm", "Paytm");
    ("paytmqr", "Paytm QR");
    ("pthdfc", "Paytm (HDFC)");
    ("ptaxis", "Paytm (Axis)");
    ("ptsbi", "Paytm (SBI)");
    ("ybl", "PhonePe");
    ("phonepe", "PhonePe");
    ("apl", "Amazon Pay");
    ("amazonpay", "Amazon Pay");
    ("ibl", "BHIM (Axis)");
    ("bim", "BHIM");
    ("gpay", "Google Pay");
    ("googlepay", "Google Pay");
    ("okgpay", "Google Pay");
    ("fbl", "Freecharge");
    ("freecharge", "Freecharge");
    ("mobikwik", "MobiKwik");
    ("ola", "Ola Money");
    ("jio", "Jio Money");
    ("airtel", "Airtel Payments Bank");
    ("airtelbank", "Airtel Payments Bank");
    ("postbank", "India Post Payments Bank");
    ("payzapp", "PayZapp (HDFC)");
    ("pockets", "Pockets (ICICI)");
    ("imobile", "iMobile (ICICI)");
    ("razorpay", "Razorpay");
    ("instamojo", "Instamojo");
    ("cashfree", "Cashfree");
    ("ccavenue", "CCAvenue");
    ("billdesk", "BillDesk");
    ("bharatpe", "BharatPe");
    ("phonepeqr", "PhonePe QR");
    ("superyes", "SuperMoney");
    ("supermoney", "SuperMoney");
    ("saraswat", "Saraswat Bank");
    ("kvb", "Karur Vysya Bank");
    ("dcb", "DCB Bank");
    ("tamilnadmercantile", "Tamilnad Mercantile Bank");
    ("jkb", "Jammu & Kashmir Bank");
    ("iob", "Indian Overseas Bank");
    ("indianbank", "Indian Bank");
    ("corpbank", "Corporation Bank");
    ("equitas", "Equitas Small Finance Bank");
    ("ujjivan", "Ujjivan Small Finance Bank");
    ("au", "AU Small Finance Bank");
    ("fino", "Fino Payments Bank");
    ("janabank", "Jana Small Finance Bank");
    ("sbicard", "SBI Card");
    ("axiscard", "Axis Bank Credit Card");
    ("hdfccard", "HDFC Credit Card");
    ("icicicard", "ICICI Credit Card") ].

(** [KNOWN_PROVIDERS[provider]], when [provider in KNOWN_PROVIDERS] *)
Fixpoint known_provider (provider : string) (table : list (string * string))
  : option string :=
  match table with
  | [] => None
  | (k, name) :: table' =>
      if String.eqb provider k then Some name else known_provider provider table'
  end.

Definition validate_vpa_format (vpa : string) : pyval :=
  if negb (Regex.matches VPA_FORMAT vpa) then
    PDict [ ("verdict", PStr "BLOCK");
            ("risk_score", PFloat 0.9);
            ("reasons", Py.strs ["❌ Invalid VPA format"]);
            ("provider", PNone) ]
  else
    let provider := PyStr.lower (PyStr.split_last "@" vpa) in
    match known_provider provider KNOWN_PROVIDERS with
    | Some name =>
        PDict [ ("verdict", PStr "OK");
                ("risk_score", PFloat 0.1);
                ("reasons", Py.strs ["✓ Valid VPA format";
                                     "✓ Verified provider: " +:+ name]);
                ("provider", PStr name) ]
    | None =>
        PDict [ ("verdict", PStr "WARN");
                ("risk_score", PFloat 0.5);
                ("reasons", Py.strs ["✓ Valid VPA format";
                                     "⚠️ Unrecognized payment provider: " +:+ provider;
                                     "This might be a new or regional provider";
                                     "⚠️ Verify merchant authenticity before paying"]);
                ("provider", PStr provider) ]
    end.

Definition is_vpa_format (data : string) : bool := Regex.matches VPA_FORMAT data.

End QrVpaValidator.

(** ** The surroundings of the program

    What the sources take from outside: functions of the standard library
    whose text is not part of the repository, the model files on disk, the
    network and the QR decoder.  Every theorem below holds for all worlds. *)

(** What [validate_url] meets once the allowlist and the blacklist are
    passed: [import numpy], [load_models()], the feature extraction and the
    two predictions. *)
Inductive Stage1Probe : Type :=
| ModelsMissing
    (** [load_models()] gave nothing usable *)
| ModelFailure (msg : string)
    (** an import, the feature extraction or XGBoost raised *)
| ModelScores (xgb_prob if_score : Q)
    (** class-0 probability, and the normalised Isolation Forest score
        (0.5 when that model or its scaler is missing or fails) *).

Record ScanFlags := {
  redirects_to_different_domain : bool;
  has_password_field : bool;
  has_otp_field : bool;
  mimics_banking_ui : bool;
  requests_sensitive_info : bool;
  suspicious_domain : bool;
  connection_failed : bool
}.

(** What [scan_url_headless] finds for a host outside its allowlist: the
    three ways in which the rest of its body ends. *)
Inductive ScanObservation : Type :=
| RedirectsToTrusted (redirect_domain : string)
| Scanned (verdict : string) (score : Q) (flags : ScanFlags) (ml_score : option Q)
| ScanFailed (msg : string).

Record World := {
  (** [urllib.parse.urlparse(url).netloc]; [Raise] for its [ValueError] *)
  urlparse_netloc : string -> Exc string;
  (** [urllib.parse.unquote] *)
  unquote : string -> string;
  (** [hashlib.md5(data).hexdigest()] *)
  md5_hex : string -> string;
  (** [str(v)] for the values that are not handled by [Py] *)
  py_str : pyval -> string;
  stage1_probe : string -> Stage1Probe;
  scan_probe : string -> ScanObservation;
  (** [decode_qr]: the text of the first QR code of an image, if any *)
  decode_qr : string -> option string;
  (** [validate_link(None)]: the standard library, not the repository,
      decides what becomes of a missing URL *)
  link_without_url : pyval
}.

(** ** link_validation/validator.py *)

Module LinkValidator.

Import Regex.

Definition PHISHING_PATTERNS : list (string * pattern) :=
  [ (".*-verify.*\.com$", [any_star; Lit "-verify"; any_star; Lit ".com"; EndAnchor]);
    (".*-kyc.*\.com$", [any_star; Lit "-kyc"; any_star; Lit ".com"; EndAnchor]);
    (".*-update.*\.com$", [any_star; Lit "-update"; any_star; Lit ".com"; EndAnchor]);
    (".*-secure.*\.com$", [any_star; Lit "-secure"; any_star; Lit ".com"; EndAnchor]);
    (".*-block.*\.com$", [any_star; Lit "-block"; any_star; Lit ".com"; EndAnchor]);
    (".*-suspended.*\.com$", [any_star; Lit "-suspended"; any_star; Lit ".com"; EndAnchor]);
    (".*-reactivate.*\.com$", [any_star; Lit "-reactivate"; any_star; Lit ".com"; EndAnchor]);
    (".*-confirm.*\.com$", [any_star; Lit "-confirm"; any_star; Lit ".com"; EndAnchor]);
    ("upi-.*\.com$", [Lit "upi-"; any_star; Lit ".com"; EndAnchor]);
    (".*-upi\.com$", [any_star; Lit "-upi.com"; EndAnchor]);
    ("sbi-.*\.com$", [Lit "sbi-"; any_star; Lit ".com"; EndAnchor]);
    ("hdfc-.*\.com$", [Lit "hdfc-"; any_star; Lit ".com"; EndAnchor]);
    ("icici-.*\.com$", [Lit "icici-"; any_star; Lit ".com"; EndAnchor]);
    ("paytm-.*\.com$", [Lit "paytm-"; any_star; Lit ".com"; EndAnchor]);
    (".*-bank.*\.com$", [any_star; Lit "-bank"; any_star; Lit ".com"; EndAnchor]);
    (".*bank-.*\.com$", [any_star; Lit "bank-"; any_star; Lit ".com"; EndAnchor]);
    (".*netbanking.*\.(?!hdfcbank\.com|icicibank\.com)",
     [any_star; Lit "netbanking"; any_star; Lit ".";
      NotAhead ["hdfcbank.com"; "icicibank.com"]]) ].

Definition DOMAIN_KEYWORDS : list string :=
  [ "verify"; "kyc"; "update"; "secure"; "block"; "suspended";
    "reactivate"; "confirm"; "urgent"; "expire"; "bank-login";
    "net-banking"; "account-verify"; "customer-care" ].

Definition LEGITIMATE : list string :=
  [ "hdfcbank.com"; "icicibank.com"; "sbi.co.in"; "onlinesbi.sbi" ].

Definition check_domain_blacklist (W : World) (url : string) : Exc pyval :=
  netloc <- urlparse_netloc W url ;;
  let domain := PyStr.lower netloc in
  match find (fun p => matches (snd p) domain) PHISHING_PATTERNS with
  | Some (src, _) =>
      Ok (PDict [ ("is_blacklisted", PBool true);
                  ("reason", PStr ("Phishing pattern detected: " +:+ src));
                  ("pattern", PStr src) ])
  | None =>
      match find (fun kw => PyStr.contains domain kw && negb (PyStr.mem domain LEGITIMATE))
                 DOMAIN_KEYWORDS with
      | Some kw =>
          Ok (PDict [ ("is_blacklisted", PBool true);
                      ("reason", PStr ("Suspicious keyword in domain: " +:+ kw));
                      ("keyword", PStr kw) ])
      | None => Ok (PDict [ ("is_blacklisted", PBool false) ])
      end
  end.

Definition TRUSTED_DOMAINS : list string :=
  [ "google.com"; "gmail.com"; "youtube.com"; "facebook.com"; "meta.com";
    "amazon.com"; "amazonpay.in"; "apple.com"; "microsoft.com"; "netflix.com";
    "twitter.com"; "x.com"; "instagram.com"; "linkedin.com"; "whatsapp.com";
    "wikipedia.org"; "reddit.com"; "github.com"; "stackoverflow.com";
    "hdfcbank.com"; "icicibank.com"; "sbi.co.in"; "onlinesbi.sbi";
    "axisbank.com"; "kotakbank.com"; "yesbank.in"; "pnbindia.in";
    "bankofbaroda.in"; "canarabank.com"; "unionbankofindia.co.in";
    "paytm.com"; "phonepe.com"; "googlepay.com";
    "bhimupi.org.in"; "npci.org.in"; "upi.com";
    "gov.in"; "nic.in"; "uidai.gov.in"; "epfindia.gov.in" ].

(** The test of [is_trusted_domain] on the normalised host. *)
Definition trusted (domain : string) : bool :=
  PyStr.mem domain TRUSTED_DOMAINS ||
  existsb (fun t => PyStr.endswith domain ("." +:+ t) || String.eqb domain t) TRUSTED_DOMAINS.

Definition is_trusted_domain (W : World) (url : string) : bool :=
  try_except
    (netloc <- urlparse_netloc W url ;;
     let domain := PyStr.replace (PyStr.lower netloc) "www." "" in
     Ok (trusted domain))
    (fun _ => false).

Definition xgb_reasons (xgb_prob : Q) : list string :=
  if Qle_bool 0.7 xgb_prob then
    ["⛔ High fraud probability: " +:+ Py.format_2f xgb_prob]
  else if Qle_bool 0.5 xgb_prob then
    ["⚠️ Suspicious patterns detected: " +:+ Py.format_2f xgb_prob]
  else if Qle_bool xgb_prob 0.3 then
    ["✓ Low fraud probability: " +:+ Py.format_2f xgb_prob]
  else [].

Definition or_else (reasons : list string) (fallback : string) : list string :=
  match reasons with
  | [] => [fallback]
  | _ => reasons
  end.

Definition validate_url (W : World) (url : string) : pyval :=
  try_except
    (if is_trusted_domain W url then
       Ok (PDict [ ("verdict", PStr "OK");
                   ("score", PFloat 0.0);
                   ("xgb_prob", PFloat 0.0);
                   ("if_score", PFloat 0.0);
                   ("reasons", Py.strs ["✅ Trusted domain (whitelisted)"]);
                   ("url", PStr url) ])
     else
       blacklist_result <- check_domain_blacklist W url ;;
       is_blacklisted <- Py.item blacklist_result "is_blacklisted" ;;
       if Py.truthy is_blacklisted then
         reason <- Py.item blacklist_result "reason" ;;
         Ok (PDict [ ("verdict", PStr "BLOCK");
                     ("score", PFloat 1.0);
                     ("xgb_prob", PFloat 1.0);
                     ("if_score", PFloat 1.0);
                     ("reasons",
                      Py.strs [ "⛔ BLOCKED: " +:+
                                  match reason with PStr r => r | v => py_str W v end;
                                "🚨 Domain matches known phishing pattern" ]);
                     ("url", PStr url);
                     ("blacklist_match", blacklist_result) ])
       else
         match stage1_probe W url with
         | ModelsMissing =>
             Ok (PDict [ ("verdict", PStr "WARN");
                         ("score", PFloat 0.5);
                         ("reasons",
                          Py.strs ["⚠️ ML models not available - manual review recommended"]);
                         ("url", PStr url) ])
         | ModelFailure msg => Raise msg
         | ModelScores xgb_prob if_score =>
             let risk_score := (xgb_prob * 0.8 + if_score * 0.2)%Q in
             let reasons := xgb_reasons xgb_prob in
             let '(verdict, reasons) :=
               if Qle_bool 0.7 risk_score then
                 ("BLOCK", or_else reasons "⛔ ML analysis indicates high fraud risk")
               else if Qle_bool 0.4 risk_score then
                 ("WARN", or_else reasons "⚠️ Suspicious - requires additional verification")
               else
                 ("OK", or_else reasons ("✓ URL appears legitimate (risk: " +:+
                                         Py.format_2f risk_score +:+ ")")) in
             Ok (PDict [ ("verdict", PStr verdict);
                         ("score", PFloat (Py.round2 risk_score));
                         ("xgb_prob", PFloat (Py.round2 xgb_prob));
                         ("if_score", PFloat (Py.round2 if_score));
                         ("reasons", Py.strs reasons);
                         ("url", PStr url) ])
         end)
    (fun e =>
       PDict [ ("verdict", PStr "WARN");
               ("score", PFloat 0.5);
               ("reasons", Py.strs ["⚠️ Validation error: " +:+ e]);
               ("url", PStr url) ]).

End LinkValidator.

(** ** stage2_dynamic/headless_browser.py *)

Module HeadlessBrowser.

Definition TRUSTED_DOMAINS : list string :=
  [ "google.com"; "gmail.com"; "youtube.com"; "facebook.com"; "meta.com";
    "amazon.com"; "amazonpay.in"; "apple.com"; "microsoft.com"; "netflix.com";
    "twitter.com"; "x.com"; "instagram.com"; "linkedin.com"; "whatsapp.com";
    "wikipedia.org"; "reddit.com"; "github.com"; "stackoverflow.com";
    "hdfcbank.com"; "icicibank.com"; "sbi.co.in"; "onlinesbi.sbi";
    "axisbank.com"; "kotakbank.com"; "yesbank.in"; "pnbindia.in";
    "bankofbaroda.in"; "canarabank.com"; "unionbankofindia.co.in";
    "paytm.com"; "phonepe.com"; "googlepay.com";
    "bhimupi.org.in"; "npci.org.in"; "upi.com";
    "gov.in"; "nic.in"; "uidai.gov.in"; "epfindia.gov.in" ].

Definition is_trusted_domain (domain : string) : bool :=
  let domain := PyStr.lower domain in
  let domain :=
    match PyStr.drop_prefix "www." domain with
    | Some rest => rest
    | None => domain
    end in
  PyStr.mem domain TRUSTED_DOMAINS ||
  existsb (fun t => PyStr.endswith domain ("." +:+ t) || String.eqb domain t) TRUSTED_DOMAINS.

Definition flags_dict (f : ScanFlags) : pyval :=
  PDict [ ("redirects_to_different_domain", PBool (redirects_to_different_domain f));
          ("has_password_field", PBool (has_password_field f));
          ("has_otp_field", PBool (has_otp_field f));
          ("mimics_banking_ui", PBool (mimics_banking_ui f));
          ("requests_sensitive_info", PBool (requests_sensitive_info f));
          ("suspicious_javascript", PBool false);
          ("suspicious_domain", PBool (suspicious_domain f));
          ("connection_failed", PBool (connection_failed f));
          ("trusted_domain", PBool false) ].

(** The allowlist test is the source's; the scoring of the other hosts
    from the fetched page and the Stage 2 model is read from the world,
    which fixes the verdict, the score and the flags of the result but not
    the keys of the dictionary that carries them. *)
Definition scan_url_headless (W : World) (url : string) : pyval :=
  try_except
    (netloc <- urlparse_netloc W url ;;
     let domain := PyStr.replace (PyStr.lower netloc) "www." "" in
     if is_trusted_domain domain then
       Ok (PDict [ ("url", PStr url);
                   ("risk_score", PFloat 0.0);
                   ("verdict", PStr "OK");
                   ("behavioral_flags", PDict [("trusted_domain", PBool true)]);
                   ("features", PDict []);
                   ("reason", PStr "Trusted domain - bypassed scanning") ])
     else
       match scan_probe W url with
       | RedirectsToTrusted redirect_domain =>
           Ok (PDict [ ("success", PBool true);
                       ("verdict", PStr "OK");
                       ("score", PFloat 0.1);
                       ("behavioral_flags",
                        PDict [("redirects_to_trusted_domain", PBool true)]);
                       ("url", PStr url);
                       ("reason",
                        PStr ("Redirects to trusted domain: " +:+ redirect_domain)) ])
       | Scanned verdict score flags ml_score =>
           Ok (PDict ([ ("success", PBool true);
                        ("verdict", PStr verdict);
                        ("score", PFloat score);
                        ("behavioral_flags", flags_dict flags);
                        ("url", PStr url) ]
                      ++ match ml_score with
                         | Some m => [("ml_score", PFloat m)]
                         | None => []
                         end))
       | ScanFailed msg => Raise msg
       end)
    (fun e =>
       PDict [ ("success", PBool false);
               ("error", PStr e);
               ("url", PStr url);
               ("verdict", PStr "WARN");
               ("score", PFloat 0.5) ]).

End HeadlessBrowser.

(** ** stage2_dynamic/stage2_validator.py *)

Module Stage2Validator.

Definition is_dict (v : pyval) : bool :=
  match v with
  | PDict _ => true
  | _ => false
  end.

Definition text (W : World) (v : pyval) : string :=
  match v with
  | PStr s => s
  | _ => py_str W v
  end.

Definition validate_url_stage2 (W : World) (url : string) : pyval :=
  try_except
    (let result := HeadlessBrowser.scan_url_headless W url in
     if negb (Py.truthy result) || negb (is_dict result) then
       Ok (PDict [ ("success", PBool false);
                   ("verdict", PStr "WARN");
                   ("score", PFloat 0.5);
                   ("reason", PStr "Headless browser validation returned no data") ])
     else
       score <- Py.get result "risk_score" (PFloat 0.5) ;;
       flags <- Py.get result "behavioral_flags" (PDict []) ;;
       is_trusted <- Py.get flags "trusted_domain" PNone ;;
       if Py.truthy is_trusted then
         features <- Py.get result "features" (PDict []) ;;
         Ok (PDict [ ("success", PBool true);
                     ("verdict", PStr "OK");
                     ("score", PFloat 0.0);
                     ("features", features);
                     ("behavioral", flags);
                     ("reason", PStr "Trusted domain - whitelisted") ])
       else
         error <- Py.get result "error" PNone ;;
         if Py.truthy error then
           Ok (PDict [ ("success", PBool false);
                       ("verdict", PStr "WARN");
                       ("score", PFloat 0.5);
                       ("reason", PStr ("Browser scan error: " +:+ text W error)) ])
         else
           is_block <- Py.ge score 0.7 ;;
           verdict_reason <-
             (if is_block : bool then
                Ok ("BLOCK", "High-risk patterns detected by headless browser")
              else
                is_warn <- Py.ge score 0.4 ;;
                if is_warn : bool then
                  Ok ("WARN", "Suspicious behavior detected, manual review recommended")
                else Ok ("OK", "No significant threats detected")) ;;
           features <- Py.get result "features" (PDict []) ;;
           Ok (PDict [ ("success", PBool true);
                       ("verdict", PStr (fst verdict_reason));
                       ("score", score);
                       ("features", features);
                       ("behavioral", flags);
                       ("reason", PStr (snd verdict_reason)) ]))
    (fun e =>
       PDict [ ("success", PBool false);
               ("verdict", PStr "WARN");
               ("score", PFloat 0.5);
               ("reason", PStr ("Stage 2 error: " +:+ e)) ]).

End Stage2Validator.

(** ** qr_validation/qr_parser.py *)

Module QrParser.

Definition starts_any (data : string) (prefixes : list string) : bool :=
  existsb (PyStr.startswith data) prefixes.

(** [^[a-zA-Z0-9.\-_]{2,}@[a-zA-Z0-9.\-_]{2,}$] *)
Definition PLAIN_VPA : Regex.pattern :=
  [Regex.Rep QrVpaValidator.vpa_char 2 None; Regex.Lit "@";
   Regex.Rep QrVpaValidator.vpa_char 2 None; Regex.EndAnchor].

(** [s.isalnum()] *)
Fixpoint all_alnum (s : string) : bool :=
  match s with
  | EmptyString => true
  | String c s' => PyStr.is_alnum c && all_alnum s'
  end.

Definition isalnum (s : string) : bool :=
  negb (String.eqb s EmptyString) && all_alnum s.

Definition identify_qr_content_type (data : string) : string :=
  let data_lower := PyStr.lower data in
  if starts_any data ["00020101"; "00020201"] then "protected_payment"
  else if negb (PyStr.startswith data "http") &&
          existsb (PyStr.contains data_lower)
                  ["bhim"; "phonepe"; "paytmmp"; "paytmqr"; "bharatpe"; "gpay"]
  then "protected_payment"
  else if starts_any data ["upi://"; "upi://pay"] then "upi"
  else if starts_any data ["http://"; "https://"] then "url"
  else if PyStr.has_char data "@" && negb (starts_any data ["http"; "upi"; "mailto"]) &&
          Regex.matches PLAIN_VPA data
  then "vpa"
  else if PyStr.startswith data "geo:" || PyStr.contains data "google.navigation:" then "geo"
  else if PyStr.startswith data "tel:" then "tel"
  else if PyStr.startswith data "mailto:" then "mailto"
  else if PyStr.startswith data "sms:" then "sms"
  else if PyStr.startswith data "WIFI:" then "wifi"
  else if PyStr.startswith data "BEGIN:VCARD" then "vcard"
  else if PyStr.startswith data "intent://" then "intent"
  else if (String.length data <? 200)%nat &&
          isalnum (PyStr.replace
                     (PyStr.replace (PyStr.replace (PyStr.replace data " " "") "-" "") "_" "")
                     (String Regex.newline EmptyString) "")
  then "text"
  else "unknown".

(** [pa=([^&]+)] *)
Definition PA_PARAM : Regex.pattern :=
  [Regex.Lit "pa="; Regex.Rep (fun c => negb (Ascii.eqb c "&")) 1 None].

(** [file_data] is [None] when the caller passed no image; the decoder
    then fails and [decode_qr] answers [None]. *)
Definition parse_qr_image (W : World) (file_data : option string) : pyval :=
  match file_data ≫= decode_qr W with
  | None => PDict [("error", PStr "No QR code found in image")]
  | Some decoded_data =>
      if String.eqb decoded_data EmptyString then
        PDict [("error", PStr "No QR code found in image")]
      else
        let qr_type := identify_qr_content_type decoded_data in
        let result := [("type", PStr qr_type); ("data", PStr decoded_data)] in
        if String.eqb qr_type "upi" then
          match Regex.search PA_PARAM decoded_data with
          | Some m =>
              PDict (Py.assoc_set "vpa" (PStr (substring 3 (String.length m - 3) m)) result)
          | None => PDict result
          end
        else PDict result
  end.

End QrParser.

(** ** qr_validation/qr_utils.py *)

Module QrUtils.

Definition descriptions : list (string * (string * Q * list string)) :=
  [ ("protected_payment",
     ("OK", 0.05%Q, [ "🔒 Encrypted payment QR code";
                      "Can only be processed within official payment app";
                      "Protected against tampering - Safe to scan" ]));
    ("upi", ("OK", 0.2%Q, ["Standard UPI payment QR"; "VPA will be validated"]));
    ("geo", ("OK", 0.1%Q, ["📍 Location/Navigation QR"; "Safe - Opens in maps app"]));
    ("vpa", ("OK", 0.2%Q, ["Plain VPA address"; "Payment provider will be validated"]));
    ("tel", ("OK", 0.1%Q, ["📞 Phone number"; "Safe - Opens dialer"]));
    ("mailto", ("OK", 0.1%Q, ["📧 Email address"; "Safe - Opens email client"]));
    ("sms", ("OK", 0.1%Q, ["💬 SMS/Message"; "Safe - Opens messaging app"]));
    ("wifi", ("OK", 0.1%Q, ["📶 WiFi credentials"; "Safe - For network connection"]));
    ("vcard", ("OK", 0.1%Q, ["👤 Contact card"; "Safe - Adds contact"]));
    ("intent", ("OK", 0.15%Q, ["📲 App intent"; "Opens specific application"]));
    ("text", ("OK", 0.15%Q, ["Plain text/code"; "No fraud indicators"]));
    ("url",
     ("WARN", 0.5%Q, [ "🔗 URL detected - Running ML analysis...";
                       "All URLs are validated through 2-stage detection";
                       "No domain is whitelisted by default" ]));
    ("unknown", ("WARN", 0.4%Q, ["⚠️ Unknown QR format"; "Scan with caution"])) ].

Fixpoint lookup {A : Type} (k : string) (table : list (string * A)) : option A :=
  match table with
  | [] => None
  | (k', v) :: table' => if String.eqb k k' then Some v else lookup k table'
  end.

Definition get_qr_description (qr_type data : string) : string * Q * list string :=
  default ("WARN", 0.5%Q, ["Unknown QR type"]) (lookup qr_type descriptions).

End QrUtils.

(** ** backend/orchestrator.py *)

Module Orchestrator.

Local Open Scope Q_scope.

(** *** The result cache *)

(** A [datetime] is a number of microseconds. *)
Record CacheEntry := { result : pyval; timestamp : Z }.

Definition CACHE_EXPIRY_HOURS : Z := 24.

Definition hours (h : Z) : Z := (h * 3600 * 1000000)%Z.

(** [f"{value}"] for a string or [None] *)
Definition show (value : option string) : string :=
  match value with
  | Some s => s
  | None => "None"
  end.

Definition get_cache_key (W : World) (input_type : string) (value file_data : option string)
  : string :=
  match file_data with
  | Some data =>
      if String.eqb data EmptyString
      then md5_hex W (input_type +:+ ":" +:+ show value)
      else "qr:" +:+ md5_hex W data
  | None => md5_hex W (input_type +:+ ":" +:+ show value)
  end.

Definition get_from_cache (now : Z) (cache : gmap string CacheEntry) (cache_key : string)
  : option pyval * gmap string CacheEntry :=
  match cache !! cache_key with
  | Some cached =>
      if (now - timestamp cached <? hours CACHE_EXPIRY_HOURS)%Z
      then (Some (result cached), cache)
      else (None, delete cache_key cache)
  | None => (None, cache)
  end.

Definition save_to_cache (now : Z) (cache : gmap string CacheEntry) (cache_key : string)
    (result : pyval) : gmap string CacheEntry :=
  <[cache_key := {| result := result; timestamp := now |}]> cache.

(** *** The link path *)

Definition flag (behavioral : list (string * pyval)) (k : string) : bool :=
  Py.truthy (default PNone (Py.assoc_get k behavioral)).

Definition when (b : bool) (reason : string) : list string := if b then [reason] else [].

(** The reasons built from [stage2_result.get("behavioral", {})] *)
Definition stage2_reasons_of (behavioral : pyval) : Exc (list string) :=
  match behavioral with
  | PDict b =>
      Ok ([ if flag b "trusted_domain" then "✅ Verified safe by headless browser scan"
            else if flag b "connection_failed" then "🔍 Headless browser: Site unreachable"
            else "🔍 Analyzed by headless browser" ]
          ++ when (flag b "suspicious_domain") "⚠️ Browser detected: Suspicious domain pattern"
          ++ when (flag b "has_password_field") "⚠️ Browser detected: Password input field"
          ++ when (flag b "has_otp_field") "⚠️ Browser detected: OTP input field"
          ++ when (flag b "mimics_banking_ui") "⚠️ Browser detected: Fake banking interface"
          ++ when (flag b "redirects_to_different_domain")
                  "⚠️ Browser detected: Suspicious redirect"
          ++ when (flag b "suspicious_javascript") "⚠️ Browser detected: Malicious JavaScript")
  | v => Raise ("'" +:+ Py.type_name v +:+ "' object has no attribute 'get'")
  end.

(** [stage2_result and stage2_result.get("success")] as a truth value *)
Definition succeeded (stage2_result : pyval) : Exc bool :=
  if Py.truthy stage2_result then
    success <- Py.get stage2_result "success" PNone ;;
    Ok (Py.truthy success)
  else Ok false.

(** The inner [try] of [validate_link]: the Stage 2 call and the reasons
    drawn from it.  The answer is [(stage2_result, stage2_reasons)]. *)
Definition run_stage2 (stage2 : string -> Exc pyval) (url : string) : pyval * list string :=
  try_except
    (stage2_result <- stage2 url ;;
     ok <- succeeded stage2_result ;;
     if ok : bool then
       behavioral <- Py.get stage2_result "behavioral" (PDict []) ;;
       stage2_reasons <- stage2_reasons_of behavioral ;;
       stage2_result <- Py.set_item stage2_result "reasons" (Py.strs stage2_reasons) ;;
       Ok (stage2_result, stage2_reasons)
     else Ok (stage2_result, []))
    (fun e => (PNone, ["⚠️ Browser scan failed: " +:+ e])).

(** [validate_link], over the two functions it imports when it is called:
    [ml_validate] is [link_validation.validator.validate_url] and [stage2]
    is [stage2_dynamic.stage2_validator.validate_url_stage2]. *)
Definition validate_link_with (ml_validate : string -> pyval) (stage2 : string -> Exc pyval)
    (url : string) : pyval :=
  try_except
    (let ml_result := ml_validate url in
     stage1_verdict <- Py.get ml_result "verdict" (PStr "WARN") ;;
     stage1_score <- Py.get ml_result "score" (PFloat 0.5) ;;
     stage1_reasons <- Py.get ml_result "reasons" (PList []) ;;
     let '(stage2_result, stage2_reasons) :=
       if Py.is_str stage1_verdict "WARN" || Py.is_str stage1_verdict "BLOCK"
       then run_stage2 stage2 url
       else (PNone, []) in
     first_two <- Py.slice_to 2 stage1_reasons ;;
     let all_reasons := first_two ++ map PStr stage2_reasons in
     ok <- succeeded stage2_result ;;
     final <-
       (if ok : bool then
          stage2_verdict <- Py.get stage2_result "verdict" (PStr "WARN") ;;
          stage2_score <- Py.get stage2_result "score" (PFloat 0.5) ;;
          final_score <- Py.max stage1_score stage2_score ;;
          let final_verdict :=
            if Py.is_str stage1_verdict "BLOCK" || Py.is_str stage2_verdict "BLOCK"
            then PStr "BLOCK"
            else if Py.is_str stage1_verdict "WARN" || Py.is_str stage2_verdict "WARN"
            then PStr "WARN"
            else PStr "OK" in
          Ok (final_verdict, final_score)
        else Ok (stage1_verdict, stage1_score)) ;;
     Ok (PDict [ ("input", PDict [("type", PStr "link"); ("value", PStr url)]);
                 ("stage1", PDict [ ("verdict", stage1_verdict);
                                    ("score", stage1_score);
                                    ("reasons", stage1_reasons) ]);
                 ("stage2", stage2_result);
                 ("final_verdict", fst final);
                 ("risk_score", snd final);
                 ("reasons",
                  PList (match all_reasons with
                         | [] => [PStr "Analysis completed"]
                         | _ => all_reasons
                         end)) ]))
    (fun e =>
       PDict [ ("input", PDict [("type", PStr "link"); ("value", PStr url)]);
               ("error", PStr e);
               ("final_verdict", PStr "WARN");
               ("risk_score", PFloat 0.5);
               ("reasons", Py.strs ["Validation error: " +:+ e]) ]).

Definition validate_link (W : World) (url : string) : pyval :=
  validate_link_with (LinkValidator.validate_url W)
                     (fun u => Ok (Stage2Validator.validate_url_stage2 W u)) url.

(** *** The VPA path *)

(** [{**base, **d}] *)
Definition spread (base d : list (string * pyval)) : list (string * pyval) :=
  fold_left (fun acc kv => Py.assoc_set (fst kv) (snd kv) acc) d base.

Definition mapping (v : pyval) : Exc (list (string * pyval)) :=
  match v with
  | PDict d => Ok d
  | _ => Raise ("'" +:+ Py.type_name v +:+ "' object is not a mapping")
  end.

(** [^[a-zA-Z0-9.\-_]{2,}@[a-zA-Z0-9.\-_]{2,}$] *)
Definition FALLBACK_VPA : Regex.pattern := QrParser.PLAIN_VPA.

Definition fallback_providers : list string :=
  ["oksbi"; "okhdfcbank"; "okaxis"; "okicici"; "apl"; "ybl"; "ibl"; "paytm"; "paytmqr";
   "superyes"].

(** The [except] branch of [validate_vpa]. *)
Definition validate_vpa_fallback (vpa : string) : pyval :=
  let input := ("input", PDict [("type", PStr "vpa"); ("value", PStr vpa)]) in
  if negb (Regex.matches FALLBACK_VPA vpa) then
    PDict [ input; ("verdict", PStr "BLOCK"); ("risk_score", PFloat 0.9);
            ("reasons", Py.strs ["Invalid VPA format"]) ]
  else
    let provider := PyStr.lower (PyStr.split_last "@" vpa) in
    if negb (PyStr.mem provider fallback_providers) then
      PDict [ input; ("verdict", PStr "WARN"); ("risk_score", PFloat 0.6);
              ("reasons", Py.strs ["Unknown payment provider: " +:+ provider]) ]
    else
      PDict [ input; ("verdict", PStr "OK"); ("risk_score", PFloat 0.1);
              ("reasons", Py.strs ["Valid VPA format"; "Known provider: " +:+ provider]) ].

(** [unquote(None)] fails on its test ['%' not in string]. *)
Definition none_not_iterable : string := "argument of type 'NoneType' is not iterable".

Definition validate_vpa (W : World) (vpa : option string) : Exc pyval :=
  match vpa with
  | None => Raise none_not_iterable
  | Some vpa =>
      let vpa := unquote W vpa in
      Ok (try_except
            (result <- mapping (QrVpaValidator.validate_vpa_format vpa) ;;
             Ok (PDict (spread [("input", PDict [("type", PStr "vpa"); ("value", PStr vpa)])]
                               result)))
            (fun _ => validate_vpa_fallback vpa))
  end.

(** *** The message path *)

Definition suspicious_keywords : list string :=
  [ "kyc"; "verify"; "suspended"; "blocked"; "expire"; "update";
    "urgent"; "immediately"; "click here"; "limited time";
    "congratulations"; "winner"; "prize"; "lottery"; "cashback";
    "refund"; "reward"; "claim"; "account"; "bank" ].

(** [https?://[^\s]+] *)
Definition URL_IN_TEXT : Regex.pattern :=
  [Regex.Lit "http"; Regex.Rep (Ascii.eqb "s") 0 (Some 1%nat); Regex.Lit "://";
   Regex.Rep (fun c => negb (PyStr.is_space c)) 1 None].

(** [\b\d{10}\b] *)
Definition PHONE : Regex.pattern :=
  [Regex.WordBoundary; Regex.Rep PyStr.is_digit 10 (Some 10%nat); Regex.WordBoundary].

(** The URLs the loop validates: each match, stripped on the right. *)
Definition extracted_urls (message : string) : list string :=
  map (PyStr.rstrip ".,;:)]}") (Regex.findall URL_IN_TEXT message).

(** The state of the loop over the URLs of a message. *)
Record Tally := { risk : Q; notes : list string; url_results : list pyval }.

(** One turn of the loop, for the already stripped [url]. *)
Definition tally_url (link : string -> pyval) (t : Tally) (url : string) : Exc Tally :=
  let link_result := link url in
  url_verdict <- Py.get link_result "final_verdict" (PStr "WARN") ;;
  stage1 <- Py.get link_result "stage1" PNone ;;
  stage2 <- Py.get link_result "stage2" PNone ;;
  let entry := PDict [ ("url", PStr url); ("verdict", url_verdict);
                       ("stage1", stage1); ("stage2", stage2) ] in
  let seen := url_results t ++ [entry] in
  if Py.is_str url_verdict "BLOCK" then
    Ok {| risk := risk t + 0.5;
          notes := notes t ++ ["⛔ Blocked URL detected: " +:+ PyStr.take 50 url];
          url_results := seen |}
  else if Py.is_str url_verdict "WARN" then
    Ok {| risk := risk t + 0.3;
          notes := notes t ++ ["⚠️ Suspicious URL: " +:+ PyStr.take 50 url];
          url_results := seen |}
  else Ok {| risk := risk t; notes := notes t; url_results := seen |}.

Fixpoint tally_urls (link : string -> pyval) (t : Tally) (urls : list string) : Exc Tally :=
  match urls with
  | [] => Ok t
  | url :: urls' =>
      t' <- tally_url link t url ;;
      tally_urls link t' urls'
  end.

Definition verdict_of_risk (risk_score : Q) : string :=
  if Qle_bool 0.7 risk_score then "BLOCK"
  else if Qle_bool 0.3 risk_score then "WARN"
  else "OK".

(** [validate_message], over the link path it calls for every URL. *)
Definition validate_message_with (link : string -> pyval) (message : option string)
  : Exc pyval :=
  match message with
  | None => Raise "'NoneType' object is not subscriptable"
  | Some message =>
      let message_lower := PyStr.lower message in
      let found_keywords := filter (PyStr.contains message_lower) suspicious_keywords in
      let start :=
        match found_keywords with
        | [] => {| risk := 0.0; notes := []; url_results := [] |}
        | _ =>
            {| risk := 0.0 + 0.15 * inject_Z (Z.of_nat (length found_keywords));
               notes := ["Suspicious keywords: " +:+ PyStr.join ", " (firstn 3 found_keywords)];
               url_results := [] |}
        end in
      t <- tally_urls link start (extracted_urls message) ;;
      let phones := Regex.findall PHONE message in
      let '(risk_score, reasons) :=
        match phones with
        | [] => (risk t, notes t)
        | _ =>
            (risk t + 0.1,
             notes t ++ ["Contains " +:+ PyStr.of_Z (Z.of_nat (length phones))
                         +:+ " phone number(s)"])
        end in
      let result :=
        [ ("input", PDict [("type", PStr "message"); ("value", PStr message)]);
          ("verdict", PStr (verdict_of_risk risk_score));
          ("risk_score", PFloat (py_min risk_score 1.0));
          ("reasons",
           Py.strs (match reasons with
                    | [] => ["No immediate threats detected"]
                    | _ => reasons
                    end)) ] in
      Ok (PDict (match url_results t with
                 | [] => result
                 | found => result ++ [("extracted_urls", PList found)]
                 end))
  end.

Definition validate_message (W : World) (message : option string) : Exc pyval :=
  validate_message_with (validate_link W) message.

(** *** The QR path *)

(** The parser stores strings under ["type"], ["data"] and ["vpa"]. *)
Definition as_str (v : pyval) : Exc string :=
  match v with
  | PStr s => Ok s
  | _ => Raise ("'" +:+ Py.type_name v +:+ "' object is not subscriptable")
  end.

(** [a or b], with [b] evaluated only when [a] is false *)
Definition or_lazy (a : pyval) (b : Exc pyval) : Exc pyval :=
  if Py.truthy a then Ok a else b.

Definition type_names : list (string * string) :=
  [ ("protected_payment", "Protected Payment QR");
    ("geo", "Location/Maps QR");
    ("social_media", "Social Media Link QR");
    ("tel", "Phone Number QR");
    ("mailto", "Email Address QR");
    ("sms", "SMS QR");
    ("wifi", "WiFi Credentials QR");
    ("vcard", "Contact Card QR");
    ("intent", "App Intent QR");
    ("text", "Plain Text QR");
    ("unknown", "Unknown Format QR") ].

(** The branch [qr_type == "url"] of [validate_qr], given the result of
    the link path on the decoded text. *)
Definition qr_url_result (qr_data : string) (link_result : pyval) : Exc pyval :=
  stage1 <- Py.get link_result "stage1" (PDict []) ;;
  stage2 <- Py.get link_result "stage2" (PDict []) ;;
  stage2_score <- (if Py.truthy stage2 then Py.get stage2 "score" PNone else Ok PNone) ;;
  risk_score <- or_lazy stage2_score (Py.get stage1 "score" (PInt 0)) ;;
  verdict <- Py.get link_result "final_verdict" (PStr "UNKNOWN") ;;
  reasons <- Py.get link_result "reasons" (PList []) ;;
  Ok (PDict [ ("input", PDict [("type", PStr "qr"); ("value", PStr qr_data)]);
              ("decoded_url", PStr qr_data);
              ("qr_type", PStr "URL QR Code");
              ("verdict", verdict);
              ("risk_score", risk_score);
              ("stage1", stage1);
              ("stage2", stage2);
              ("reasons", reasons) ]).

Definition qr_vpa_result (input_value qr_type : string) (with_vpa : list (string * pyval))
    (vpa_result : pyval) : Exc pyval :=
  verdict <- Py.get vpa_result "verdict" (PStr "UNKNOWN") ;;
  risk_score <- Py.get vpa_result "risk_score" (PInt 0) ;;
  reasons <- Py.get vpa_result "reasons" (PList []) ;;
  Ok (PDict ([ ("input", PDict [("type", PStr "qr"); ("value", PStr input_value)]);
               ("qr_type", PStr qr_type) ]
             ++ with_vpa
             ++ [ ("verdict", verdict); ("risk_score", risk_score); ("reasons", reasons) ])).

Definition validate_qr (W : World) (file_data : option string) : pyval :=
  try_except
    (let qr_result := QrParser.parse_qr_image W file_data in
     failed <- (if negb (Py.truthy qr_result) then Ok true
                else Py.contains_key qr_result "error") ;;
     if failed : bool then
       Ok (if Py.truthy qr_result then qr_result
           else PDict [("error", PStr "Failed to parse QR code")])
     else
       qr_type <- Py.get qr_result "type" (PStr "unknown") ;;
       qr_type <- as_str qr_type ;;
       qr_data <- Py.get qr_result "data" (PStr "") ;;
       qr_data <- as_str qr_data ;;
       let '(default_verdict, default_risk, default_reasons) :=
         QrUtils.get_qr_description qr_type qr_data in
       if String.eqb qr_type "url" then
         qr_url_result qr_data (validate_link W qr_data)
       else if String.eqb qr_type "upi" then
         vpa <- Py.get qr_result "vpa" PNone ;;
         if Py.truthy vpa then
           vpa <- as_str vpa ;;
           let vpa := unquote W vpa in
           vpa_result <- validate_vpa W (Some vpa) ;;
           qr_vpa_result "[UPI Payment QR]" "UPI Payment QR" [("vpa", PStr vpa)] vpa_result
         else
           Ok (PDict [ ("input", PDict [("type", PStr "qr");
                                        ("value", PStr (PyStr.take 50 qr_data))]);
                       ("qr_type", PStr "Malformed UPI QR");
                       ("verdict", PStr "WARN");
                       ("risk_score", PFloat 0.5);
                       ("reasons", Py.strs ["Could not extract VPA from UPI QR"]) ])
       else if String.eqb qr_type "vpa" then
         vpa_result <- validate_vpa W (Some qr_data) ;;
         qr_vpa_result qr_data "Plain VPA QR" [] vpa_result
       else
         Ok (PDict [ ("input",
                      PDict [("type", PStr "qr");
                             ("value",
                              PStr (if (100 <? String.length qr_data)%nat
                                    then PyStr.take 100 qr_data else qr_data))]);
                     ("qr_type",
                      PStr (default "Unknown QR" (QrUtils.lookup qr_type type_names)));
                     ("decoded",
                      PStr (if String.eqb qr_type "protected_payment"
                            then "[Encrypted Data]" else qr_data));
                     ("verdict", PStr default_verdict);
                     ("risk_score", PFloat default_risk);
                     ("reasons", Py.strs default_reasons) ]))
    (fun e => PDict [("error", PStr ("Failed to validate QR: " +:+ e))]).

(** *** The entry point *)

(** The handler chosen by [input_type], with what it returns or raises.
    The callers pass a string as [value] for the text kinds. *)
Definition route (W : World) (input_type : string) (value file_data : option string)
  : Exc pyval :=
  if String.eqb input_type "link" then
    match value with
    | Some url => Ok (validate_link W url)
    | None => Ok (link_without_url W)
    end
  else if String.eqb input_type "vpa" then validate_vpa W value
  else if String.eqb input_type "message" then validate_message W value
  else if String.eqb input_type "qr" then Ok (validate_qr W file_data)
  else Ok (PDict [("error", PStr "Invalid type")]).

(** The readings of the clock during one call: [time.time()] in seconds
    and [datetime.now()] in microseconds. *)
Record Clock := {
  time_start : Q;
  now_lookup : Z;
  time_hit : Q;
  time_done : Q;
  now_save : Z
}.

(** [int(x)]: towards zero *)
Definition py_int (x : Q) : Z := if Qle_bool 0 x then Qfloor x else Qceiling x.

Definition millis (from to : Q) : pyval := PInt (py_int ((to - from) * 1000)).

(** The body of the [try] of [validate_input] up to the cache update: the
    stamped result and whether it carries the key ["error"]. *)
Definition stamped (handled : Exc pyval) (clock : Clock) : Exc (pyval * bool) :=
  result <- handled ;;
  result <- Py.set_item result "cached" (PBool false) ;;
  result <- Py.set_item result "response_time_ms"
                        (millis (time_start clock) (time_done clock)) ;;
  has_error <- Py.contains_key result "error" ;;
  Ok (result, has_error).

(** [validate_input], over the dispatch to the path handlers. *)
Definition validate_input_with (handle : string -> option string -> option string -> Exc pyval)
    (W : World) (clock : Clock) (cache : gmap string CacheEntry)
    (input_type : string) (value file_data : option string)
  : Exc pyval * gmap string CacheEntry :=
  let cache_key := get_cache_key W input_type value file_data in
  let '(cached_result, cache) := get_from_cache (now_lookup clock) cache cache_key in
  if Py.truthy (default PNone cached_result) then
    (cached <- mapping (default PNone cached_result) ;;
     Ok (PDict (spread cached
                       [ ("cached", PBool true);
                         ("response_time_ms",
                          millis (time_start clock) (time_hit clock)) ])),
     cache)
  else
    match stamped (handle input_type value file_data) clock with
    | Ok (result, has_error) =>
        (Ok result,
         if has_error then cache
         else save_to_cache (now_save clock) cache cache_key result)
    | Raise e => (Ok (PDict [("error", PStr e)]), cache)
    end.

Definition validate_input (W : World) := validate_input_with (route W) W.

End Orchestrator.

(** ** vpa_validation/vpa_utils.py and vpa_validation/vpa_rules.py *)

Module VpaUtils.

(** The names bound at the top level of [vpa_utils.py]: its imports, its
    two constants and its seven functions. *)
Definition namespace : list string :=
  [ "re"; "hashlib"; "math"; "Counter";
    "VPA_RE"; "DEFAULT_ALLOWLIST";
    "parse_vpa"; "looks_like_vpa"; "vpa_format_score"; "vpa_entropy";
    "provider_allowlist_check"; "hash_vpa"; "vpa_suspicious_flags" ].

End VpaUtils.

Module VpaRules.

Local Open Scope Q_scope.

(** [from module import n1, n2, ...]: the first name the module does not
    bind raises [ImportError]; CPython adds the path of the file to the
    message. *)
Fixpoint import_from (module_name : string) (namespace names : list string) : Exc unit :=
  match names with
  | [] => Ok tt
  | n :: names' =>
      if PyStr.mem n namespace then import_from module_name namespace names'
      else Raise ("cannot import name '" +:+ n +:+ "' from '" +:+ module_name +:+ "'")
  end.

(** The first statement of [vpa_rules.py]. *)
Definition imports : Exc unit :=
  import_from "vpa_validation.vpa_utils" VpaUtils.namespace
              ["is_valid_format"; "get_provider"; "entropy"].

Definition ALLOWED_PROVIDERS : list string :=
  [ "oksbi"; "okhdfcbank"; "okaxis"; "okicici";
    "oksbi"; "okyesbank"; "okkotak"; "okboi";
    "okupi"; "okidfc"; "ybl"; "upi" ].

Definition SUSPICIOUS_AMOUNTS : list Q := [1; 2; 5; 10].

Record RuleReport := {
  vpa : string;
  hard_fail : list string;
  soft_flags : list string
}.

Section Body.

(** The three functions the body calls; no file of the repository
    defines them. *)
Variable is_valid_format : string -> bool.
Variable get_provider : string -> string.
Variable entropy : string -> Q.

Definition apply_vpa_rules (vpa : string) (amount : option Q) : RuleReport :=
  let vpa := PyStr.lower vpa in
  let provider := get_provider vpa in
  let hard_fail :=
    (if negb (is_valid_format vpa) then ["Invalid VPA format"] else [])
    ++ (if negb (PyStr.mem provider ALLOWED_PROVIDERS)
        then ["Provider '" +:+ provider +:+ "' not in trusted list"] else []) in
  let soft_flags :=
    (if Qlt_bool 3.7 (entropy vpa)
     then ["High randomness in VPA (entropy anomaly)"] else [])
    ++ (match amount with
        | Some a =>
            if existsb (Qeq_bool a) SUSPICIOUS_AMOUNTS
            then ["Amount is common scam range (1/2/5/10)"] else []
        | None => []
        end)
    ++ (if (String.length (PyStr.split_first "@" vpa) <=? 3)%nat
        then ["Very short handle â€“ suspicious"] else []) in
  {| vpa := vpa; hard_fail := hard_fail; soft_flags := soft_flags |}.

(** A call from outside: the module is loaded first. *)
Definition call_apply_vpa_rules (vpa : string) (amount : option Q) : Exc RuleReport :=
  _ <- imports ;;
  Ok (apply_vpa_rules vpa amount).

End Body.

End VpaRules.

(** ** A model of [urllib.parse.urlparse(url).netloc]

    The text between the [//] that follows the scheme and the next [/], [?]
    or [#], as CPython's [urlsplit] takes it. *)

Module Urllib.

Definition scheme_char (c : ascii) : bool :=
  PyStr.is_alnum c || Ascii.eqb c "+" || Ascii.eqb c "-" || Ascii.eqb c ".".

Fixpoint all_of (p : ascii -> bool) (s : string) : bool :=
  match s with
  | EmptyString => true
  | String c s' => p c && all_of p s'
  end.

(** [url.lstrip] of the C0 control characters and the space *)
Fixpoint lstrip_c0 (s : string) : string :=
  match s with
  | EmptyString => EmptyString
  | String c s' => if (nat_of_ascii c <=? 32)%nat then lstrip_c0 s' else s
  end.

(** Tabs and line breaks are removed everywhere. *)
Fixpoint drop_unsafe (s : string) : string :=
  match s with
  | EmptyString => EmptyString
  | String c s' =>
      let n := nat_of_ascii c in
      if (n =? 9)%nat || (n =? 10)%nat || (n =? 13)%nat
      then drop_unsafe s' else String c (drop_unsafe s')
  end.

Definition after_scheme (url : string) : string :=
  match PyStr.after_first ":" url with
  | Some rest =>
      match PyStr.split_first ":" url with
      | String c _ as scheme =>
          if (nat_of_ascii c <? 128)%nat && PyStr.is_alpha c && all_of scheme_char scheme
          then rest else url
      | EmptyString => url
      end
  | None => url
  end.

Fixpoint until_delim (s : string) : string :=
  match s with
  | EmptyString => EmptyString
  | String c s' =>
      if Ascii.eqb c "/" || Ascii.eqb c "?" || Ascii.eqb c "#"
      then EmptyString else String c (until_delim s')
  end.

Definition netloc (url : string) : Exc string :=
  let rest := after_scheme (drop_unsafe (lstrip_c0 url)) in
  match PyStr.drop_prefix "//" rest with
  | Some tail =>
      let n := until_delim tail in
      if xorb (PyStr.has_char n "[") (PyStr.has_char n "]")
      then Raise "Invalid IPv6 URL" else Ok n
  | None => Ok EmptyString
  end.

End Urllib.

(** ** Worlds for the examples *)

Module Examples.

(** No model files on disk, no network (a host outside the allowlists is
    unreachable and scores 0.25 in the scan), and a decoder for which the
    bytes of an image are the text of its QR code. *)
Definition offline : World :=
  {| urlparse_netloc := Urllib.netloc;
     unquote := fun s => s;
     md5_hex := fun s => s;
     py_str := fun _ => EmptyString;
     stage1_probe := fun _ => ModelsMissing;
     scan_probe := fun _ =>
       Scanned "OK" 0.25
               {| redirects_to_different_domain := false;
                  has_password_field := false;
                  has_otp_field := false;
                  mimics_banking_ui := false;
                  requests_sensitive_info := false;
                  suspicious_domain := false;
                  connection_failed := true |}
               None;
     decode_qr := fun image => Some image;
     link_without_url := PNone |}.

Definition noon : Orchestrator.Clock :=
  {| Orchestrator.time_start := 100;
     Orchestrator.now_lookup := 100000000;
     Orchestrator.time_hit := 100.001;
     Orchestrator.time_done := 100.25;
     Orchestrator.now_save := 100250000 |}.

End Examples.

(** ** The words of the claims

    Notions that the claims use and the sources do not name. *)

(** The entry [update_reputation] writes for a handle it has not seen. *)
Definition first_entry : VpaReputation.Reputation :=
  {| VpaReputation.reports := 0; VpaReputation.trust := 0.5 |}.

(** The provider part of a handle: lowercased, after the last [@]. *)
Definition provider_part (vpa : string) : string :=
  PyStr.lower (PyStr.split_last "@" vpa).

(** The host as the claim C3 normalises it: lowercased, one leading
    [www.] removed. *)
Definition without_leading_www (host : string) : string :=
  match PyStr.drop_prefix "www." (PyStr.lower host) with
  | Some rest => rest
  | None => PyStr.lower host
  end.

(** The host is an entry of the allowlist or a subdomain of one. *)
Definition on_allowlist (host : string) : bool :=
  existsb (fun t => String.eqb (without_leading_www host) t
                    || PyStr.endswith (without_leading_www host) ("." +:+ t))
          LinkValidator.TRUSTED_DOMAINS.

(** The host matches one of the 17 patterns. *)
Definition matches_phishing_pattern (host : string) : bool :=
  existsb (fun p => Regex.matches (snd p) (PyStr.lower host)) LinkValidator.PHISHING_PATTERNS.

(** The verdict of two stages as the specification words it: BLOCK if
    either says BLOCK, else WARN if either says WARN, else OK. *)
Definition severest (v1 v2 : string) : string :=
  if String.eqb v1 "BLOCK" || String.eqb v2 "BLOCK" then "BLOCK"
  else if String.eqb v1 "WARN" || String.eqb v2 "WARN" then "WARN"
  else "OK".

(** Stage 2 is run for the Stage 1 verdicts WARN and BLOCK. *)
Definition triggers_stage2 (v1 : string) : bool :=
  String.eqb v1 "WARN" || String.eqb v1 "BLOCK".

(** A Stage 2 sub-result is present when the field is not [None]. *)
Definition present (v : pyval) : bool :=
  match v with
  | PNone => false
  | _ => true
  end.

(** Every entry of the cache is a dictionary without the key ["error"]. *)
Definition error_free (cache : gmap string Orchestrator.CacheEntry) : Prop :=
  forall key entry,
    cache !! key = Some entry ->
    exists d, Orchestrator.result entry = PDict d /\ Py.has_key "error" d = false.

(** ** Further worlds for the examples *)

(** A scan that reports BLOCK with score 0.95 and a password field. *)
Definition alarming_scan : World :=
  {| urlparse_netloc := Urllib.netloc;
     unquote := fun s => s;
     md5_hex := fun s => s;
     py_str := fun _ => EmptyString;
     stage1_probe := fun _ => ModelsMissing;
     scan_probe := fun _ =>
       Scanned "BLOCK" 0.95
               {| redirects_to_different_domain := true;
                  has_password_field := true;
                  has_otp_field := true;
                  mimics_banking_ui := true;
                  requests_sensitive_info := true;
                  suspicious_domain := true;
                  connection_failed := false |}
               (Some 0.9%Q);
     decode_qr := fun image => Some image;
     link_without_url := PNone |}.

(** ** qr_validation/qr_utils.py: the tests on the decoded text *)

Module QrChecks.

(** [re.search(r'pa=([^&]+)', upi_string)] and its first group *)
Definition extract_vpa_from_upi (upi_string : string) : option string :=
  match Regex.search QrParser.PA_PARAM upi_string with
  | Some m => Some (substring 3 (String.length m - 3) m)
  | None => None
  end.

Definition is_protected_payment_qr (data : string) : bool :=
  let data_lower := PyStr.lower data in
  if QrParser.starts_any data ["00020101"; "00020201"] then true
  else if PyStr.startswith data "http" then false
  else existsb (PyStr.contains data_lower)
               ["gpay"; "phonepe"; "paytmmp"; "paytmqr"; "bharatpe"; "bhim"].

End QrChecks.

(** ** Histories of the reputation store *)

(** The store after a series of calls of [update_reputation], each given
    by its handle and its [is_scam] flag, from the empty store the module
    starts with. *)
Definition replay (events : list (string * bool))
  : gmap string VpaReputation.Reputation :=
  fold_left (fun store e => VpaReputation.update_reputation store (fst e) (snd e)) events ∅.

(** The number of scam reports among the events for a lowercased handle. *)
Definition scam_reports (vpa : string) (events : list (string * bool)) : Z :=
  Z.of_nat (length (List.filter (fun e => String.eqb (PyStr.lower (fst e)) vpa && snd e) events)).

(** What holds of a store that the events have led to. *)
Definition reputation_invariant (events : list (string * bool))
    (store : gmap string VpaReputation.Reputation) : Prop :=
  forall k,
    match store !! k with
    | Some r =>
        PyStr.lower k = k /\ VpaReputation.reports r = scam_reports k events /\
        (0 < VpaReputation.trust r)%Q /\ (VpaReputation.trust r <= 1)%Q
    | None => scam_reports k events = 0%Z
    end.

(** ** More Python string methods *)

Module PyText.

(** [s.lstrip()] *)
Fixpoint lstrip (s : string) : string :=
  match s with
  | EmptyString => EmptyString
  | String c s' => if PyStr.is_space c then lstrip s' else s
  end.

(** [s.rstrip()] *)
Fixpoint rstrip (s : string) : string :=
  match s with
  | EmptyString => EmptyString
  | String c s' =>
      match rstrip s' with
      | EmptyString => if PyStr.is_space c then EmptyString else String c EmptyString
      | r => String c r
      end
  end.

(** [s.strip()] *)
Definition strip (s : string) : string := rstrip (lstrip s).

(** [s.split(sep, 1)[1]] when [sep in s], for a non-empty [sep] *)
Fixpoint after_sub (sep s : string) : option string :=
  match PyStr.drop_prefix sep s with
  | Some rest => Some rest
  | None =>
      match s with
      | EmptyString => None
      | String _ s' => after_sub sep s'
      end
  end.

Definition upper_char (c : ascii) : ascii :=
  if PyStr.is_lower c then ascii_of_nat (nat_of_ascii c - 32) else c.

(** [s.upper()] *)
Fixpoint upper (s : string) : string :=
  match s with
  | EmptyString => EmptyString
  | String c s' => String (upper_char c) (upper s')
  end.

(** [any(p(c) for c in s)] *)
Fixpoint any_char (p : ascii -> bool) (s : string) : bool :=
  match s with
  | EmptyString => false
  | String c s' => p c || any_char p s'
  end.

(** [sum(1 for c in s if p(c))] *)
Fixpoint count_chars (p : ascii -> bool) (s : string) : nat :=
  match s with
  | EmptyString => O
  | String c s' => ((if p c then 1 else 0) + count_chars p s')%nat
  end.

(** [s.isupper()]: some cased character, and no lowercase one *)
Definition isupper (s : string) : bool :=
  any_char PyStr.is_upper s && negb (any_char PyStr.is_lower s).

(** [len(s.split())]: the number of maximal runs without whitespace;
    [inside] tells whether the character before was in a run. *)
Fixpoint count_words (inside : bool) (s : string) : nat :=
  match s with
  | EmptyString => O
  | String c s' =>
      if PyStr.is_space c then count_words false s'
      else ((if inside then 0 else 1) + count_words true s')%nat
  end.

End PyText.

(** ** stage2_dynamic/fallback_engine.py: from the URL to the report

    [LOCAL_BL] is the set read from [blacklist_domains.txt] when the module
    is loaded, given by its members in any order; the TLS handshake and
    the WHOIS lookup are answers of the network. *)

Module FallbackUrl.

Definition domain_from_url (url : string) : string :=
  let u := PyText.strip (PyStr.lower url) in
  let u :=
    if PyStr.contains u "://" then
      match PyText.after_sub "://" u with
      | Some rest => rest
      | None => u
      end
    else u in
  let u := PyStr.split_first "/" u in
  if PyStr.has_char u ":" then PyStr.split_first ":" u else u.

Section Surroundings.

Variable LOCAL_BL : list string.
Variable check_tls_ok : string -> bool.
Variable get_whois_age_days : string -> option Z.

Definition check_blacklist (url : string) : bool :=
  let d := domain_from_url url in
  if PyStr.mem d LOCAL_BL then true
  else existsb (fun bad => negb (String.eqb bad EmptyString) && PyStr.contains d bad) LOCAL_BL.

Definition evaluate_url_fallback (url : string) (static_score : Q) (hard_rule_hits : Z)
    (upi_in_url : bool) : FallbackEngine.RiskReport :=
  let bl := check_blacklist url in
  let tls := check_tls_ok url in
  let whois_age := get_whois_age_days url in
  FallbackEngine.fallback_risk static_score hard_rule_hits tls upi_in_url whois_age bl.

End Surroundings.

End FallbackUrl.

(** ** cache_backends.py

    The table [cache] is a map from its primary key to the other columns;
    [now] is the reading of [int(time.time())] during the call, and
    [json.dumps] and [json.loads] are taken from the standard library. *)

Module CacheBackend.

Record Row := {
  kind : string;
  value_json : string;
  ts : Z;
  ttl : option Z
}.

Section Json.

Variable dumps : pyval -> string.
Variable loads : string -> Exc pyval.

(** [f"{kind}:{key}"] *)
Definition row_key (kind key : string) : string := kind +:+ ":" +:+ key.

Definition set (now : Z) (rows : gmap string Row) (kind key : string) (value : pyval)
    (ttl_seconds : Z) : gmap string Row :=
  <[row_key kind key :=
      {| kind := kind; value_json := dumps value; ts := now; ttl := Some ttl_seconds |}]> rows.

Definition expired (now : Z) (row : Row) : bool :=
  match ttl row with
  | Some t => (t <? now - ts row)%Z
  | None => false
  end.

(** The answer is [None] for a missing or expired row and for a text that
    [json.loads] rejects. *)
Definition get (now : Z) (rows : gmap string Row) (kind key : string)
  : pyval * gmap string Row :=
  match rows !! row_key kind key with
  | None => (PNone, rows)
  | Some row =>
      if expired now row then (PNone, delete (row_key kind key) rows)
      else (try_except (loads (value_json row)) (fun _ => PNone), rows)
  end.

End Json.

End CacheBackend.

(** ** link_validation/link_orchestrator.py

    The model files, the feature extraction with [tldextract] and the two
    predictions are one answer of the surroundings per URL. *)

Module LinkOrchestrator.

Local Open Scope Q_scope.

(** [cfg["ensemble"]] *)
Record Ensemble := { w_link : Q; t_block : Q; t_ok : Q }.

Definition combine_and_decide (cfg : Ensemble) (xgb_prob if_score : Q) : string * Q :=
  let w := w_link cfg in
  let final := w * xgb_prob + (1 - w) * if_score in
  if Qle_bool (t_block cfg) final then ("BLOCK", final)
  else if Qle_bool final (t_ok cfg) then ("OK", final)
  else ("WARN", final).

(** How the part of [static_score_for_url] between the whitelist and
    [combine_and_decide] ends. *)
Inductive Stage1Run : Type :=
| ArtifactsMissing (msg : string)
    (** [FileNotFoundError] *)
| RunFailed (msg : string)
    (** any other exception, also the [KeyError] of a configuration
        without the three numbers *)
| Predicted (cfg : Ensemble) (xgb_prob if_score : Q).

Definition trusted : list string :=
  [ "google.com"; "youtube.com"; "facebook.com"; "twitter.com";
    "instagram.com"; "amazon.in"; "flipkart.com"; "paytm.com";
    "phonepe.com"; "gpay.com"; "netflix.com"; "linkedin.com" ].

Definition suspicious_keywords : list string :=
  [ "verify"; "secure"; "kyc"; "update"; "confirm";
    "account"; "blocked"; "suspended"; "urgent" ].

Definition suspicious_tlds : list string :=
  [ ".tk"; ".ml"; ".ga"; ".cf"; ".gq"; ".online"; ".shop";
    ".xyz"; ".top"; ".live"; ".site" ].

Definition bank_names : list string := ["sbi"; "hdfc"; "icici"; "axis"; "kotak"].

Definition official_domains : list string :=
  ["onlinesbi.sbi"; "hdfcbank.com"; "icicibank.com"; "axisbank.com"; "kotak.com"].

(** One turn of the loop over the keywords. *)
Definition keyword_step (domain url_lower : string) (acc : Q * list string) (keyword : string)
  : Q * list string :=
  if PyStr.contains domain keyword || PyStr.contains url_lower keyword
  then (fst acc + 0.15, snd acc ++ ["Suspicious keyword: " +:+ keyword])
  else acc.

(** The score and the reasons before the verdict is taken. *)
Definition rule_score (domain url_lower : string) : Q * list string :=
  let acc := fold_left (keyword_step domain url_lower) suspicious_keywords (0.0, []) in
  let acc :=
    if PyText.any_char PyStr.is_digit domain
    then (fst acc + 0.2, snd acc ++ ["Numbers in domain"]) else acc in
  let acc :=
    match find (PyStr.endswith domain) suspicious_tlds with
    | Some tld => (fst acc + 0.3, snd acc ++ ["Suspicious TLD: " +:+ tld])
    | None => acc
    end in
  match find (fun bank => PyStr.contains domain bank &&
                          negb (existsb (PyStr.contains domain) official_domains))
             bank_names with
  | Some bank => (fst acc + 0.4, snd acc ++ ["Potential " +:+ PyText.upper bank +:+ " phishing"])
  | None => acc
  end.

Definition fallback_rule_based (W : World) (url : string) : Exc pyval :=
  netloc <- urlparse_netloc W url ;;
  let domain := PyStr.lower netloc in
  let '(score, reasons) := rule_score domain (PyStr.lower url) in
  let verdict :=
    if Qle_bool 0.7 score then "BLOCK"
    else if Qle_bool 0.3 score then "WARN"
    else "OK" in
  Ok (PDict [ ("verdict", PStr verdict);
              ("score", PFloat (Py.round2 score));
              ("reasons", Py.strs (reasons ++ ["(Rule-based fallback)"]));
              ("url", PStr url) ]).

Definition ml_reasons (xgb_prob if_score : Q) : list string :=
  let reasons :=
    (if Qlt_bool 0.6 xgb_prob
     then ["High fraud probability: " +:+ Py.format_2f xgb_prob] else [])
    ++ (if Qlt_bool 0.6 if_score
        then ["Anomalous pattern: " +:+ Py.format_2f if_score] else []) in
  match reasons with
  | [] => ["ML analysis complete"]
  | _ => reasons
  end.

(** The outer [try] catches what [urlparse] and the models raise; the
    rule-based fallback runs in the handler of [FileNotFoundError], where
    nothing catches what it raises. *)
Definition static_score_for_url (W : World) (stage1_run : string -> Stage1Run) (url : string)
  : Exc pyval :=
  let failed e :=
    Ok (PDict [ ("verdict", PStr "ERROR"); ("score", PFloat 0.5);
                ("error", PStr e); ("url", PStr url) ]) in
  match urlparse_netloc W url with
  | Raise e => failed e
  | Ok netloc =>
      let domain := PyStr.lower netloc in
      if existsb (PyStr.contains domain) trusted then
        Ok (PDict [ ("verdict", PStr "OK"); ("score", PFloat 0.0);
                    ("reasons", Py.strs ["Trusted domain (whitelisted)"]);
                    ("url", PStr url) ])
      else
        match stage1_run url with
        | ArtifactsMissing _ => fallback_rule_based W url
        | RunFailed e => failed e
        | Predicted cfg xgb_prob if_score =>
            let '(verdict, final_score) := combine_and_decide cfg xgb_prob if_score in
            Ok (PDict [ ("verdict", PStr verdict);
                        ("score", PFloat (Py.round2 final_score));
                        ("xgb_prob", PFloat (Py.round2 xgb_prob));
                        ("if_score", PFloat (Py.round2 if_score));
                        ("reasons", Py.strs (ml_reasons xgb_prob if_score));
                        ("url", PStr url) ])
        end
  end.

Definition run_link_validation := static_score_for_url.

End LinkOrchestrator.

(** ** Patterns with alternatives

    [p1|p2|...] as a whole pattern: at each position the first alternative
    that matches is taken. *)

Module RegexAlt.

Fixpoint match_at (alts : list Regex.pattern) (prev : option ascii) (s : string)
  : option string :=
  match alts with
  | [] => None
  | p :: alts' =>
      match Regex.match_at p prev s with
      | Some m => Some m
      | None => match_at alts' prev s
      end
  end.

Fixpoint findall_from (alts : list Regex.pattern) (skip : nat) (prev : option ascii)
    (s : string) : list string :=
  match s with
  | EmptyString => []
  | String c s' =>
      match skip with
      | S k => findall_from alts k (Some c) s'
      | O =>
          match match_at alts prev s with
          | Some m => m :: findall_from alts (String.length m - 1) (Some c) s'
          | None => findall_from alts 0 (Some c) s'
          end
      end
  end.

Definition findall (alts : list Regex.pattern) (s : string) : list string :=
  findall_from alts 0 None s.

End RegexAlt.

(** ** message_validation/msg_utils.py *)

Module MsgUtils.

Import Regex.

(** [https?://[^\s]+] *)
Definition url_pattern : pattern := Orchestrator.URL_IN_TEXT.

(** [[-.\s]] *)
Definition phone_sep (c : ascii) : bool :=
  Ascii.eqb c "-" || Ascii.eqb c "." || PyStr.is_space c.

(** [\b\d{10}\b|\b\d{3}[-.\s]?\d{3}[-.\s]?\d{4}\b] *)
Definition phone_pattern : list pattern :=
  [ [WordBoundary; Rep PyStr.is_digit 10 (Some 10%nat); WordBoundary];
    [WordBoundary; Rep PyStr.is_digit 3 (Some 3%nat); Rep phone_sep 0 (Some 1%nat);
     Rep PyStr.is_digit 3 (Some 3%nat); Rep phone_sep 0 (Some 1%nat);
     Rep PyStr.is_digit 4 (Some 4%nat); WordBoundary] ].

(** [[A-Za-z0-9._%+-]] *)
Definition email_local (c : ascii) : bool :=
  PyStr.is_alnum c || Ascii.eqb c "." || Ascii.eqb c "_" || Ascii.eqb c "%" ||
  Ascii.eqb c "+" || Ascii.eqb c "-".

(** [[A-Za-z0-9.-]] *)
Definition email_host (c : ascii) : bool :=
  PyStr.is_alnum c || Ascii.eqb c "." || Ascii.eqb c "-".

(** [[A-Z|a-z]] *)
Definition email_tld (c : ascii) : bool := PyStr.is_alpha c || Ascii.eqb c "|".

(** [\b[A-Za-z0-9._%+-]+@[A-Za-z0-9.-]+\.[A-Z|a-z]{2,}\b] *)
Definition email_pattern : pattern :=
  [WordBoundary; Rep email_local 1 None; Lit "@"; Rep email_host 1 None; Lit ".";
   Rep email_tld 2 None; WordBoundary].

(** [[\w.-]] *)
Definition upi_char (c : ascii) : bool :=
  PyStr.is_word c || Ascii.eqb c "." || Ascii.eqb c "-".

(** [\b[\w.-]+@[\w.-]+\b] *)
Definition upi_pattern : pattern :=
  [WordBoundary; Rep upi_char 1 None; Lit "@"; Rep upi_char 1 None; WordBoundary].

(** [[!@#$%^&*()_+=\[\]{}|;:,.<>?]] *)
Definition special_char (c : ascii) : bool :=
  PyStr.has_char "!@#$%^&*()_+=[]{}|;:,.<>?" c.

Definition nonempty {A : Type} (l : list A) : bool :=
  match l with
  | [] => false
  | _ => true
  end.

Definition extract_features (text : string) : pyval :=
  let urls := findall url_pattern text in
  let phones := RegexAlt.findall phone_pattern text in
  let emails := findall email_pattern text in
  let potential_upis :=
    List.filter (fun m => PyStr.has_char m "@" && negb (PyStr.contains (PyStr.lower m) "@gmail"))
                (findall upi_pattern text) in
  PDict [ ("has_url", PBool (nonempty urls));
          ("url_count", PInt (Z.of_nat (length urls)));
          ("urls", Py.strs urls);
          ("has_phone", PBool (nonempty phones));
          ("phone_count", PInt (Z.of_nat (length phones)));
          ("has_email", PBool (nonempty emails));
          ("has_upi", PBool (nonempty potential_upis));
          ("length", PInt (Z.of_nat (String.length text)));
          ("word_count", PInt (Z.of_nat (PyText.count_words false text)));
          ("has_special_chars",
           PBool (match search [Rep special_char 1 (Some 1%nat)] text with
                  | Some _ => true
                  | None => false
                  end)) ].

End MsgUtils.

(** ** message_validation/msg_rules.py *)

Module MsgRules.

Local Open Scope Q_scope.

Definition high_risk : list string :=
  ["kyc"; "verify"; "suspended"; "blocked"; "expire"; "urgent"; "immediately"].

Definition urgency_words : list string :=
  ["urgent"; "immediately"; "now"; "asap"; "today"; "within"].

(** One turn of the loop over the high-risk words. *)
Definition high_risk_step (text_lower : string) (acc : Q * list string) (word : string)
  : Q * list string :=
  if PyStr.contains text_lower word
  then (fst acc + 0.2, snd acc ++ ["High-risk keyword: " +:+ word])
  else acc.

(** [features] is [None] when the caller leaves it out. *)
Definition check_rules (text : string) (features : pyval) : Exc pyval :=
  let features :=
    match features with
    | PNone => MsgUtils.extract_features text
    | _ => features
    end in
  let text_lower := PyStr.lower text in
  let acc := fold_left (high_risk_step text_lower) high_risk (0.0, []) in
  has_url <- Py.get features "has_url" (PBool false) ;;
  let acc :=
    if Py.truthy has_url then (fst acc + 0.15, snd acc ++ ["Contains URL"]) else acc in
  has_phone <- Py.get features "has_phone" (PBool false) ;;
  let acc :=
    if Py.truthy has_phone then (fst acc + 0.1, snd acc ++ ["Contains phone number"])
    else acc in
  let urgency_count := length (List.filter (PyStr.contains text_lower) urgency_words) in
  let acc :=
    if (0 <? urgency_count)%nat
    then (fst acc + 0.1 * inject_Z (Z.of_nat urgency_count),
          snd acc ++ ["Urgency indicators: " +:+ PyStr.of_Z (Z.of_nat urgency_count)])
    else acc in
  let acc :=
    if PyText.isupper text && (20 <? String.length text)%nat
    then (fst acc + 0.15, snd acc ++ ["All caps text"]) else acc in
  let fraud_score := py_min (fst acc) 1.0 in
  Ok (PDict [ ("is_suspicious", PBool (Qle_bool 0.4 fraud_score));
              ("fraud_score", PFloat fraud_score);
              ("reasons", Py.strs (snd acc)) ]).

End MsgRules.

(** ** backend/app.py: the endpoint [/validate]

    The body of the handler, from the form fields to the reply.  [file] is
    the content of the upload when there is one; a reply is the JSON
    document of a [JSONResponse], or the status and the detail of an
    [HTTPException]. *)

Module App.

Inductive Reply : Type :=
| Json (content : pyval)
| HttpError (status_code : Z) (detail : pyval).

(** From [if "error" in result] to the end of the handler, with the two
    [except] clauses. *)
Definition respond (out : Exc pyval) : Reply :=
  match out with
  | Raise e => HttpError 500 (PStr e)
  | Ok result =>
      match Py.contains_key result "error" with
      | Raise e => HttpError 500 (PStr e)
      | Ok true =>
          match Py.item result "error" with
          | Ok detail => HttpError 500 detail
          | Raise e => HttpError 500 (PStr e)
          end
      | Ok false => Json result
      end
  end.

(** [not value] for the form field *)
Definition missing (value : option string) : bool :=
  match value with
  | None => true
  | Some s => String.eqb s EmptyString
  end.

Definition validate (W : World) (clock : Orchestrator.Clock)
    (cache : gmap string Orchestrator.CacheEntry)
    (type : string) (value file : option string)
  : Reply * gmap string Orchestrator.CacheEntry :=
  if String.eqb type "qr" then
    match file with
    | None => (HttpError 400 (PStr "File required for QR validation"), cache)
    | Some file_data =>
        let out := Orchestrator.validate_input W clock cache "qr" None (Some file_data) in
        (respond (fst out), snd out)
    end
  else if missing value then (HttpError 400 (PStr "Value required"), cache)
  else
    let out := Orchestrator.validate_input W clock cache type value None in
    (respond (fst out), snd out).

End App.

(** ** Patterns with groups

    A pattern with capturing groups is a sequence of items with marks
    where a group opens and closes; a match gives, besides the text that
    is left, the texts that were left at the marks, in their order. *)

Module RegexGroups.

Inductive gitem : Type :=
| Plain (i : Regex.item)
| Mark.

Definition noted (here : string) (found : option (list string * string))
  : option (list string * string) :=
  match found with
  | Some (marks, rest) => Some (here :: marks, rest)
  | None => None
  end.

Fixpoint run (p : list gitem) (prev : option ascii) (s : string)
  : option (list string * string) :=
  match p with
  | [] => Some ([], s)
  | Mark :: p' => noted s (run p' prev s)
  | Plain (Regex.Lit l) :: p' =>
      match PyStr.drop_prefix l s with
      | Some rest => run p' (Regex.last_char prev l) rest
      | None => None
      end
  | Plain (Regex.Rep cls lo hi) :: p' => Regex.rep cls lo hi (run p') prev s
  | Plain Regex.EndAnchor :: p' =>
      if String.eqb s EmptyString || String.eqb s (String Regex.newline EmptyString)
      then run p' prev s else None
  | Plain Regex.WordBoundary :: p' =>
      if xorb (Regex.wordy prev) (Regex.wordy (Regex.head s)) then run p' prev s else None
  | Plain (Regex.NotAhead alts) :: p' =>
      if existsb (fun a => String.prefix a s) alts then None else run p' prev s
  end.

(** The text between two marks. *)
Definition between (opened closed : string) : string :=
  substring 0 (String.length opened - String.length closed) opened.

(** [re.match(p, s)] for a pattern with two groups: [(m.group(1),
    m.group(2))]. *)
Definition match2 (p : list gitem) (s : string) : option (string * string) :=
  match run p None s with
  | Some ([o1; c1; o2; c2], _) => Some (between o1 c1, between o2 c2)
  | _ => None
  end.

End RegexGroups.

(** ** vpa_validation/vpa_utils.py: the functions *)

Module VpaHandles.

Import Regex RegexGroups.

Local Open Scope Q_scope.

(** [^\s*([a-zA-Z0-9.\-_]{2,64})@([a-zA-Z0-9]{2,64})\s*$] *)
Definition VPA_RE : list gitem :=
  [ Plain (Rep PyStr.is_space 0 None);
    Mark; Plain (Rep QrVpaValidator.vpa_char 2 (Some 64%nat)); Mark;
    Plain (Lit "@");
    Mark; Plain (Rep PyStr.is_alnum 2 (Some 64%nat)); Mark;
    Plain (Rep PyStr.is_space 0 None); Plain EndAnchor ].

Definition DEFAULT_ALLOWLIST : list string :=
  [ "oksbi"; "okhdfcbank"; "okicici"; "okaxis"; "okpaytm"; "okphonepe"; "okgoogle";
    "oksbi"; "ybl"; "paytm" ].

(** [(None, None)] is [None] here. *)
Definition parse_vpa (vpa : option string) : option (string * string) :=
  match vpa with
  | None => None
  | Some vpa =>
      match match2 VPA_RE (PyText.strip vpa) with
      | Some (lp, prov) => Some (lp, PyStr.lower prov)
      | None => None
      end
  end.

Definition looks_like_vpa (vpa : option string) : bool :=
  match parse_vpa vpa with
  | Some _ => true
  | None => false
  end.

(** [a / max(1, b)] *)
Definition ratio (a b : nat) : Q := inject_Z (Z.of_nat a) / inject_Z (Z.of_nat (Nat.max 1 b)).

Definition vpa_format_score (vpa : option string) : Q :=
  match parse_vpa vpa with
  | None => 0.0
  | Some (lp, _) =>
      let score := 1.0 in
      let score := if (String.length lp <? 3)%nat then score - 0.25 else score in
      let punct := PyText.count_chars (PyStr.has_char ".-_") lp in
      let score := if Qlt_bool 0.25 (ratio punct (String.length lp))
                   then score - 0.2 else score in
      let alpha := PyText.count_chars PyStr.is_alpha lp in
      let score := if Qlt_bool (ratio alpha (String.length lp)) 0.3
                   then score - 0.2 else score in
      py_max 0.0 (py_min 1.0 score)
  end.

Definition provider_allowlist_check (provider : string) (allowlist : option (list string))
  : bool :=
  PyStr.mem (PyStr.lower provider)
            (match allowlist with
             | None => DEFAULT_ALLOWLIST
             | Some l => l
             end).

(** [localpart.count(ch)] for one character *)
Definition count_of (ch : ascii) (s : string) : nat := PyText.count_chars (Ascii.eqb ch) s.

Record Flags := { many_digits : bool; all_digits : bool; repeated_chars : bool }.

(** [int(0.4 * n)] *)
Definition two_fifths (n : nat) : nat := (4 * n / 10)%nat.

Definition vpa_suspicious_flags (localpart : string) : Flags :=
  let digits := PyText.count_chars PyStr.is_digit localpart in
  let letters := PyText.count_chars PyStr.is_alpha localpart in
  {| many_digits := (Nat.max 3 (two_fifths (Nat.max 1 (String.length localpart))) <=? digits)%nat;
     all_digits := (letters =? 0)%nat && (0 <? digits)%nat;
     repeated_chars :=
       PyText.any_char
         (fun ch => (Nat.max 3 (String.length localpart / 4) <? count_of ch localpart)%nat)
         localpart |}.

End VpaHandles.

(** ** vpa_validation/vpa_validator.py

    [math.log2] is taken from the standard library. *)

Module VpaValidation.

Import Regex RegexGroups.

Local Open Scope Q_scope.

Definition PROVIDER_ALLOWLIST : list string :=
  ["oksbi"; "okhdfcbank"; "okaxis"; "okicici"; "okpay"; "ptaxis"; "paytm"; "gpay"; "phonepe"].

(** [Counter(s)]: the characters in the order in which they first occur,
    with the number of their occurrences. *)
Fixpoint bump (c : ascii) (counts : list (ascii * nat)) : list (ascii * nat) :=
  match counts with
  | [] => [(c, 1%nat)]
  | (a, n) :: counts' =>
      if Ascii.eqb a c then (a, S n) :: counts' else (a, n) :: bump c counts'
  end.

Fixpoint counter_from (s : string) (counts : list (ascii * nat)) : list (ascii * nat) :=
  match s with
  | EmptyString => counts
  | String c s' => counter_from s' (bump c counts)
  end.

Definition Counter (s : string) : list (ascii * nat) := counter_from s [].

(** [[a-z0-9\.\-_]] *)
Definition username_char (c : ascii) : bool :=
  PyStr.is_lower c || PyStr.is_digit c || Ascii.eqb c "." || Ascii.eqb c "-" ||
  Ascii.eqb c "_".

(** [[a-z0-9\.\-]] *)
Definition provider_char (c : ascii) : bool :=
  PyStr.is_lower c || PyStr.is_digit c || Ascii.eqb c "." || Ascii.eqb c "-".

(** [^([^@]+)@([a-z0-9\.\-]+)$] *)
Definition VPA_PARTS : list gitem :=
  [ Mark; Plain (Rep (fun c => negb (Ascii.eqb c "@")) 1 None); Mark;
    Plain (Lit "@");
    Mark; Plain (Rep provider_char 1 None); Mark;
    Plain EndAnchor ].

(** [^[a-z0-9\.\-_]+$] *)
Definition USERNAME_OK : pattern := [Rep username_char 1 None; EndAnchor].

(** [^[a-z0-9\.\-]+$] *)
Definition PROVIDER_OK : pattern := [Rep provider_char 1 None; EndAnchor].

Definition normalize_vpa (pa : string) : string := PyStr.lower (PyText.strip pa).

(** The dictionary with [username] and [provider], or [None]. *)
Definition parse_vpa (pa : string) : option (string * string) :=
  match2 VPA_PARTS (normalize_vpa pa).

Record Report := {
  pa : string;
  valid : bool;
  reasons : list string;
  provider : option string;
  provider_in_allowlist : option bool;
  username_entropy : option Q
}.

Definition hard_reasons : list string :=
  ["format_invalid"; "username_too_short"; "provider_malformed"].

Section Log.

Variable log2 : Q -> Q.

Definition _username_entropy (s : string) : Q :=
  if String.eqb s EmptyString then 0.0
  else
    let counts := map snd (Counter s) in
    let ln := inject_Z (Z.of_nat (list_sum counts)) in
    fold_left (fun ent c => let p := inject_Z (Z.of_nat c) / ln in ent - p * log2 p)
              counts 0.0.

Definition validate_vpa (pa : string) : Report :=
  match parse_vpa pa with
  | None =>
      {| pa := pa; valid := false; reasons := ["format_invalid"]; provider := None;
         provider_in_allowlist := None; username_entropy := None |}
  | Some (username, provider) =>
      let reasons :=
        (if (String.length username <? 3)%nat then ["username_too_short"] else [])
        ++ (if (64 <? String.length username)%nat then ["username_too_long"] else [])
        ++ (if negb (matches USERNAME_OK username) then ["username_has_weird_chars"]
            else []) in
      let ent := _username_entropy username in
      let reasons := reasons ++ (if Qlt_bool ent 1.2 then ["low_username_entropy"] else []) in
      let reasons :=
        reasons ++ (if negb (matches PROVIDER_OK provider) then ["provider_malformed"]
                    else []) in
      {| pa := pa;
         valid := negb (existsb (fun r => PyStr.mem r hard_reasons) reasons);
         reasons := reasons;
         provider := Some provider;
         provider_in_allowlist := Some (PyStr.mem provider PROVIDER_ALLOWLIST);
         username_entropy := Some ent |}
  end.

End Log.

End VpaValidation.

(** * Properties *)

(** ** Comparisons on [Q] *)

Lemma Qlt_bool_iff (a b : Q) : Qlt_bool a b = true <-> (a < b)%Q.
Proof.
  unfold Qlt_bool. rewrite negb_true_iff. split.
  - intros H. apply Qnot_le_lt. intros Hle. apply Qle_bool_iff in Hle. congruence.
  - intros H. destruct (Qle_bool b a) eqn:E; [|reflexivity].
    apply Qle_bool_iff in E. exfalso. exact (Qlt_not_le _ _ H E).
Qed.

Lemma Qle_bool_false (a b : Q) : Qle_bool a b = false <-> (b < a)%Q.
Proof.
  rewrite <- Qlt_bool_iff. unfold Qlt_bool. now rewrite negb_true_iff.
Qed.

Lemma py_min_le_l (a b : Q) : (py_min a b <= a)%Q.
Proof.
  unfold py_min. destruct (Qlt_bool b a) eqn:E.
  - apply Qlt_bool_iff in E. now apply Qlt_le_weak.
  - apply Qle_refl.
Qed.

Lemma py_max_spec (a b : Q) :
  (a <= py_max a b)%Q /\ (b <= py_max a b)%Q /\ (py_max a b = a \/ py_max a b = b).
Proof.
  unfold py_max. destruct (Qlt_bool a b) eqn:E.
  - apply Qlt_bool_iff in E. repeat split; [lra|lra|now right].
  - unfold Qlt_bool in E. apply negb_false_iff, Qle_bool_iff in E.
    repeat split; [lra|lra|now left].
Qed.

Lemma inject_nat_nonneg (n : nat) : (0 <= inject_Z (Z.of_nat n))%Q.
Proof. change 0%Q with (inject_Z 0). rewrite <- Zle_Qle. lia. Qed.

(** ** Dictionaries *)

Ltac dict_eval :=
  cbn [exc_bind try_except Py.item Py.get Py.assoc_get Py.assoc_set Py.truthy Py.is_str
       Py.has_key Py.contains_key Py.set_item Py.slice_to Py.number Py.ge Py.max Py.strs
       String.eqb Ascii.eqb Bool.eqb default negb orb andb fst snd map firstn app
       Stage2Validator.is_dict].

Lemma assoc_get_set_other (k k' : string) (v : pyval) (d : list (string * pyval)) :
  k <> k' -> Py.assoc_get k (Py.assoc_set k' v d) = Py.assoc_get k d.
Proof.
  intros Hne. induction d as [|[k0 v0] d IH]; cbn.
  - destruct (String.eqb_spec k k'); congruence.
  - destruct (String.eqb_spec k' k0) as [->|Hk'0]; cbn.
    + destruct (String.eqb_spec k k0); congruence.
    + now rewrite IH.
Qed.

Lemma assoc_get_set_same (k : string) (v : pyval) (d : list (string * pyval)) :
  Py.assoc_get k (Py.assoc_set k v d) = Some v.
Proof.
  induction d as [|[k0 v0] d IH]; cbn.
  - now rewrite String.eqb_refl.
  - destruct (String.eqb_spec k k0) as [->|Hne]; cbn.
    + now rewrite String.eqb_refl.
    + destruct (String.eqb_spec k k0); [congruence|exact IH].
Qed.

Lemma truthy_assoc_set (k : string) (v : pyval) (d : list (string * pyval)) :
  Py.truthy (PDict (Py.assoc_set k v d)) = true.
Proof.
  destruct d as [|[k0 v0] d]; cbn; [reflexivity|].
  now destruct (String.eqb k k0).
Qed.

Lemma truthy_of_key (k : string) (v : pyval) (d : list (string * pyval)) :
  Py.assoc_get k d = Some v -> Py.truthy (PDict d) = true.
Proof. destruct d; [discriminate|reflexivity]. Qed.

Lemma py_max_floats (q1 q2 : Q) :
  Py.max (PFloat q1) (PFloat q2) = Ok (PFloat (py_max q1 q2)).
Proof. unfold Py.max, py_max. cbn. now destruct (Qlt_bool q1 q2). Qed.

(** ** Strings and patterns *)

Lemma lower_char_idem (c : ascii) : PyStr.lower_char (PyStr.lower_char c) = PyStr.lower_char c.
Proof. destruct c as [[] [] [] [] [] [] [] []]; reflexivity. Qed.

Lemma lower_idem (s : string) : PyStr.lower (PyStr.lower s) = PyStr.lower s.
Proof.
  induction s as [|c s IH]; cbn; [reflexivity|].
  now rewrite lower_char_idem, IH.
Qed.

(** Removing text from a lowercase string leaves a lowercase string. *)
Lemma lower_replace_from (old : string) (s : string) :
  forall skip, PyStr.lower s = s ->
               PyStr.lower (PyStr.replace_from old "" skip s) = PyStr.replace_from old "" skip s.
Proof.
  induction s as [|c s IH]; intros skip Hs; [reflexivity|].
  cbn in Hs. injection Hs as Hc Hs.
  cbn [PyStr.replace_from]. destruct skip as [|k]; [|now apply IH].
  destruct (String.prefix old (String c s)).
  - change ("" +:+ ?x) with x. now apply IH.
  - cbn [PyStr.lower]. rewrite Hc. f_equal. now apply IH.
Qed.

Lemma lower_replace (s old : string) :
  PyStr.lower (PyStr.replace (PyStr.lower s) old "")
  = PyStr.replace (PyStr.lower s) old "".
Proof. apply lower_replace_from, lower_idem. Qed.

Lemma endswith_cons (c : ascii) (s p : string) :
  PyStr.endswith s p = true -> PyStr.endswith (String c s) p = true.
Proof. intros H. cbn [PyStr.endswith]. rewrite H. apply orb_true_r. Qed.

Lemma endswith_refl (s : string) : PyStr.endswith s s = true.
Proof. destruct s; cbn [PyStr.endswith]; now rewrite String.eqb_refl. Qed.

Lemma drop_prefix_app (p s rest : string) :
  PyStr.drop_prefix p s = Some rest -> s = p +:+ rest.
Proof.
  revert s. induction p as [|a p IH]; intros s H; cbn in H.
  - now injection H as ->.
  - destruct s as [|b s]; [discriminate|].
    destruct (Ascii.eqb a b) eqn:E; [|discriminate].
    apply Ascii.eqb_eq in E as ->. rewrite (IH s H). reflexivity.
Qed.

Lemma has_char_app (front back : string) (c : ascii) :
  PyStr.has_char (front +:+ back) c = PyStr.has_char front c || PyStr.has_char back c.
Proof.
  induction front as [|a front IH]; [reflexivity|].
  change (String a front +:+ back) with (String a (front +:+ back)).
  cbn [PyStr.has_char]. rewrite IH. now rewrite orb_assoc.
Qed.

(** A repetition hands to its continuation a tail of the text. *)
Lemma rep_tail {A : Type} (cls : ascii -> bool) (k : option ascii -> string -> option A)
    (s : string) :
  forall lo hi prev r,
    Regex.rep cls lo hi k prev s = Some r ->
    exists prev' front back, s = front +:+ back /\ k prev' back = Some r.
Proof.
  induction s as [|c s IH]; intros lo hi prev r H; cbn in H.
  - destruct lo; [|discriminate]. exists prev, EmptyString, EmptyString. auto.
  - assert (Hstop : match lo with O => k prev (String c s) | S _ => None end = Some r ->
                    exists prev' front back,
                      String c s = front +:+ back /\ k prev' back = Some r).
    { destruct lo; [|discriminate]. intros Hk.
      exists prev, EmptyString, (String c s). auto. }
    destruct (cls c && Regex.room hi); [|auto].
    destruct (Regex.rep cls (Nat.pred lo) (Regex.less hi) k (Some c) s) as [r'|] eqn:E;
      [|auto].
    injection H as ->.
    destruct (IH _ _ _ _ E) as (prev' & front & back & -> & Hk).
    exists prev', (String c front), back. auto.
Qed.

Lemma existsb_find {A : Type} (f : A -> bool) (l : list A) :
  existsb f l = true -> exists x, find f l = Some x /\ f x = true.
Proof.
  induction l as [|a l IH]; cbn; [discriminate|].
  destruct (f a) eqn:E; [eauto|]. cbn. auto.
Qed.

(** ** stage2_dynamic/fallback_engine.py *)

(** C8.  Whatever the static score, the number of rule hits, the TLS and
    UPI flags and the WHOIS age, [fallback_risk] called with
    [in_blacklist=True] answers level HIGH, score 100 and action BLOCK. *)
Theorem fallback_risk_blacklisted
    (static_score : Q) (hard_rule_hits : Z) (tls_ok upi_in_url : bool)
    (whois_age_days : option Z) :
  let r := FallbackEngine.fallback_risk static_score hard_rule_hits tls_ok upi_in_url
                                        whois_age_days true in
  FallbackEngine.level r = "HIGH" /\
  FallbackEngine.score r = 100%Q /\
  FallbackEngine.action r = "BLOCK".
Proof.
  unfold FallbackEngine.fallback_risk.
  destruct (hard_rule_hits =? 0)%Z; cbn; repeat split.
Qed.

(** The reasons of the blacklisted answer: the rule hits, when there are
    some, and the blacklist. *)
Lemma fallback_risk_blacklisted_reasons
    (static_score : Q) (hard_rule_hits : Z) (tls_ok upi_in_url : bool)
    (whois_age_days : option Z) :
  FallbackEngine.reasons
    (FallbackEngine.fallback_risk static_score hard_rule_hits tls_ok upi_in_url
                                  whois_age_days true)
  = (if (hard_rule_hits =? 0)%Z then []
     else ["hard_rules:" +:+ PyStr.of_Z hard_rule_hits]) ++ ["in_blacklist"].
Proof.
  unfold FallbackEngine.fallback_risk.
  destruct (hard_rule_hits =? 0)%Z; reflexivity.
Qed.

Example fallback_risk_sbi :
  FallbackEngine.fallback_risk 0.6 1 true false None true
  = {| FallbackEngine.level := "HIGH"; FallbackEngine.score := 100;
       FallbackEngine.action := "BLOCK";
       FallbackEngine.reasons := ["hard_rules:1"; "in_blacklist"] |}.
Proof. reflexivity. Qed.

(** ** vpa_validation/vpa_reputation.py *)

Section Reputation.

Import VpaReputation.

Lemma update_reputation_lookup (store : gmap string Reputation) (vpa : string)
    (is_scam : bool) :
  update_reputation store vpa is_scam !! PyStr.lower vpa
  = Some (let before := default first_entry (store !! PyStr.lower vpa) in
          if is_scam then scale_trust (report_scam before) else raise_trust before).
Proof.
  unfold update_reputation.
  destruct (store !! PyStr.lower vpa) as [r|] eqn:E; destruct is_scam; cbn;
    rewrite ?lookup_alter_eq, ?lookup_insert_eq, ?E; reflexivity.
Qed.

Lemma update_reputation_frame (store : gmap string Reputation) (vpa : string)
    (is_scam : bool) (other : string) :
  other <> PyStr.lower vpa ->
  update_reputation store vpa is_scam !! other = store !! other.
Proof.
  intros Hne. unfold update_reputation.
  destruct (store !! PyStr.lower vpa) as [r|] eqn:E; destruct is_scam;
    rewrite ?lookup_alter_ne, ?lookup_insert_ne by congruence; reflexivity.
Qed.

(** C10, as the code has it.  [get_reputation] answers the stored entry,
    or [{reports: 0, trust: 0.50}] for a handle that is not in the store,
    and leaves the store as it was: a first lookup creates nothing.  The
    entry of a new handle is created by [update_reputation], from
    [{reports: 0, trust: 0.5}].  A scam report adds one to [reports] and
    multiplies [trust] by 0.75; a clean observation keeps [reports] and
    sets [trust] to [min(1.0, trust + 0.05)], which is at most 1.  No other
    handle is touched. *)
Theorem reputation_lookup_and_update (store : gmap string Reputation) (vpa : string) :
  let k := PyStr.lower vpa in
  let before := default first_entry (store !! k) in
  get_reputation store vpa = (default fresh (store !! k), store) /\
  fresh = {| reports := 0; trust := 0.50 |} /\
  update_reputation store vpa true !! k
    = Some {| reports := reports before + 1; trust := trust before * 0.75 |} /\
  update_reputation store vpa false !! k
    = Some {| reports := reports before; trust := py_min 1.0 (trust before + 0.05) |} /\
  (py_min 1.0 (trust before + 0.05) <= 1)%Q /\
  (forall is_scam other,
      other <> k -> update_reputation store vpa is_scam !! other = store !! other).
Proof.
  cbv zeta. repeat split.
  - apply (update_reputation_lookup store vpa true).
  - apply (update_reputation_lookup store vpa false).
  - apply Qle_trans with (y := 1.0%Q); [apply py_min_le_l | discriminate].
  - intros is_scam other Hne. now apply update_reputation_frame.
Qed.

Lemma reputation_lookup_and_update_witness :
  "other@ybl" <> PyStr.lower "Scam@OkAxis" /\
  get_reputation ∅ "Scam@OkAxis" = (fresh, ∅) /\
  update_reputation ∅ "Scam@OkAxis" true !! "scam@okaxis"
    = Some {| reports := 0 + 1; trust := 0.5 * 0.75 |} /\
  update_reputation ∅ "Scam@OkAxis" true !! "other@ybl" = None.
Proof.
  destruct (reputation_lookup_and_update ∅ "Scam@OkAxis")
    as (Hget & _ & Hscam & _ & _ & Hframe).
  split; [discriminate|]. split; [exact Hget|]. split; [exact Hscam|].
  apply (Hframe true "other@ybl"). discriminate.
Defined.

(** C10, as the claim has it, fails: after the first lookup of a handle
    the store still has no entry for it. *)
Lemma get_reputation_creates_nothing :
  fst (get_reputation ∅ "merchant@okaxis") = {| reports := 0; trust := 0.50 |} /\
  snd (get_reputation ∅ "merchant@okaxis") !! "merchant@okaxis" = None.
Proof. split; reflexivity. Qed.

Example reputation_after_two_reports :
  update_reputation (update_reputation ∅ "Scam@OkAxis" true) "scam@okaxis" true
    !! "scam@okaxis"
  = Some {| reports := 2; trust := 0.5 * 0.75 * 0.75 |}.
Proof. reflexivity. Qed.

End Reputation.

(** ** qr_validation/vpa_validator.py *)

Section VpaFormat.

Import QrVpaValidator.

(** C7.  [validate_vpa_format] answers BLOCK with risk 0.9 for a string
    that fails the pattern [localpart@provider]; for a string that passes
    it, OK with risk 0.1 and the name of the institution when the provider
    part is in the table of known providers, and WARN with risk 0.5 when
    it is not.  The first case fixes the verdict of every string that
    fails the pattern, so the other two are about the strings that pass. *)
Theorem validate_vpa_format_cases (vpa : string) :
  let r := validate_vpa_format vpa in
  (Regex.matches VPA_FORMAT vpa = false ->
     Py.item r "verdict" = Ok (PStr "BLOCK") /\
     Py.item r "risk_score" = Ok (PFloat 0.9)) /\
  (forall name,
     Regex.matches VPA_FORMAT vpa = true ->
     known_provider (provider_part vpa) KNOWN_PROVIDERS = Some name ->
     Py.item r "verdict" = Ok (PStr "OK") /\
     Py.item r "risk_score" = Ok (PFloat 0.1) /\
     Py.item r "provider" = Ok (PStr name)) /\
  (Regex.matches VPA_FORMAT vpa = true ->
     known_provider (provider_part vpa) KNOWN_PROVIDERS = None ->
     Py.item r "verdict" = Ok (PStr "WARN") /\
     Py.item r "risk_score" = Ok (PFloat 0.5)).
Proof.
  cbv zeta. unfold validate_vpa_format, provider_part. split; [|split].
  - intros Hm. rewrite Hm. split; reflexivity.
  - intros name Hm Hk. rewrite Hm, Hk. repeat split; reflexivity.
  - intros Hm Hk. rewrite Hm, Hk. split; reflexivity.
Qed.

Lemma validate_vpa_format_cases_witness :
  (Regex.matches VPA_FORMAT "bad_format" = false /\
   Py.item (validate_vpa_format "bad_format") "verdict" = Ok (PStr "BLOCK") /\
   Py.item (validate_vpa_format "bad_format") "risk_score" = Ok (PFloat 0.9)) /\
  (Regex.matches VPA_FORMAT "user@oksbi" = true /\
   known_provider (provider_part "user@oksbi") KNOWN_PROVIDERS = Some "State Bank of India" /\
   Py.item (validate_vpa_format "user@oksbi") "verdict" = Ok (PStr "OK") /\
   Py.item (validate_vpa_format "user@oksbi") "risk_score" = Ok (PFloat 0.1) /\
   Py.item (validate_vpa_format "user@oksbi") "provider" = Ok (PStr "State Bank of India")) /\
  (Regex.matches VPA_FORMAT "user@unknownprovider123" = true /\
   known_provider (provider_part "user@unknownprovider123") KNOWN_PROVIDERS = None /\
   Py.item (validate_vpa_format "user@unknownprovider123") "verdict" = Ok (PStr "WARN") /\
   Py.item (validate_vpa_format "user@unknownprovider123") "risk_score" = Ok (PFloat 0.5)).
Proof.
  split; [|split].
  - split; [reflexivity|].
    apply (proj1 (validate_vpa_format_cases "bad_format")). reflexivity.
  - split; [reflexivity|]. split; [reflexivity|].
    apply (proj1 (proj2 (validate_vpa_format_cases "user@oksbi"))); reflexivity.
  - split; [reflexivity|]. split; [reflexivity|].
    apply (proj2 (proj2 (validate_vpa_format_cases "user@unknownprovider123")));
      reflexivity.
Defined.

(** The three verdicts are the only ones. *)
Lemma validate_vpa_format_verdicts (vpa : string) :
  exists v, Py.item (validate_vpa_format vpa) "verdict" = Ok (PStr v) /\
            (v = "BLOCK" \/ v = "OK" \/ v = "WARN").
Proof.
  unfold validate_vpa_format.
  destruct (Regex.matches VPA_FORMAT vpa); cbn [negb].
  - destruct (known_provider _ KNOWN_PROVIDERS); eexists; (split; [reflexivity|auto]).
  - eexists; (split; [reflexivity|auto]).
Qed.

(** A string without [@] fails the pattern. *)
Lemma no_at_sign_fails_pattern (vpa : string) :
  PyStr.has_char vpa "@" = false -> Regex.matches VPA_FORMAT vpa = false.
Proof.
  intros Hno. unfold Regex.matches, VPA_FORMAT. cbn [Regex.run].
  destruct (Regex.rep _ _ _ _ _ _) as [r|] eqn:E; [|reflexivity].
  exfalso. apply rep_tail in E as (prev' & front & back & -> & Hk).
  cbn [Regex.run] in Hk.
  destruct (PyStr.drop_prefix "@" back) as [rest|] eqn:D; [|discriminate].
  apply drop_prefix_app in D as ->.
  rewrite has_char_app in Hno. cbn in Hno.
  now rewrite orb_true_r in Hno.
Qed.

(** So it is blocked. *)
Lemma no_at_sign_is_blocked (vpa : string) :
  PyStr.has_char vpa "@" = false ->
  Py.item (validate_vpa_format vpa) "verdict" = Ok (PStr "BLOCK") /\
  Py.item (validate_vpa_format vpa) "risk_score" = Ok (PFloat 0.9).
Proof.
  intros Hno. unfold validate_vpa_format.
  rewrite (no_at_sign_fails_pattern vpa Hno). split; reflexivity.
Qed.

End VpaFormat.

(** ** vpa_validation/vpa_rules.py *)

Section VpaRulesFacts.

Import VpaRules.

Variable is_valid_format : string -> bool.
Variable get_provider : string -> string.
Variable entropy : string -> Q.

(** The import at the head of the module fails on its first name. *)
Lemma vpa_rules_imports_fail :
  imports = Raise "cannot import name 'is_valid_format' from 'vpa_validation.vpa_utils'".
Proof. reflexivity. Qed.

(** C9.  No call of [apply_vpa_rules] reports anything: loading
    [vpa_rules.py] raises [ImportError], because [vpa_utils.py] defines
    none of [is_valid_format], [get_provider] and [entropy]. *)
Theorem apply_vpa_rules_is_out_of_reach (vpa : string) (amount : option Q) :
  call_apply_vpa_rules is_valid_format get_provider entropy vpa amount
  = Raise "cannot import name 'is_valid_format' from 'vpa_validation.vpa_utils'".
Proof. reflexivity. Qed.

(** What the body would report, were the three functions supplied: the
    entropy it tests is the one of the whole lowercased handle. *)
Lemma apply_vpa_rules_body (vpa : string) (amount : option Q) :
  let r := apply_vpa_rules is_valid_format get_provider entropy vpa amount in
  let v := PyStr.lower vpa in
  (hard_fail r = [] <->
     is_valid_format v = true /\ PyStr.mem (get_provider v) ALLOWED_PROVIDERS = true) /\
  (soft_flags r = [] <->
     Qlt_bool 3.7 (entropy v) = false /\
     match amount with
     | Some a => existsb (Qeq_bool a) SUSPICIOUS_AMOUNTS
     | None => false
     end = false /\
     (String.length (PyStr.split_first "@" v) <=? 3)%nat = false).
Proof.
  cbv zeta. unfold apply_vpa_rules. cbn [hard_fail soft_flags]. split.
  - destruct (is_valid_format (PyStr.lower vpa));
      destruct (PyStr.mem _ ALLOWED_PROVIDERS); cbn; intuition discriminate.
  - destruct (Qlt_bool 3.7 (entropy (PyStr.lower vpa)));
      destruct amount as [a|]; try destruct (existsb (Qeq_bool a) SUSPICIOUS_AMOUNTS);
      destruct (String.length _ <=? 3)%nat; cbn; intuition discriminate.
Qed.

End VpaRulesFacts.

(** ** link_validation/validator.py *)

Section LinkValidatorFacts.

Import LinkValidator.

(** A trusted host is answered OK with score 0.0, whatever the state of
    the Stage 1 models. *)
Lemma validate_url_trusted (W : World) (url : string) :
  is_trusted_domain W url = true ->
  validate_url W url
  = PDict [ ("verdict", PStr "OK");
            ("score", PFloat 0.0);
            ("xgb_prob", PFloat 0.0);
            ("if_score", PFloat 0.0);
            ("reasons", Py.strs ["✅ Trusted domain (whitelisted)"]);
            ("url", PStr url) ].
Proof.
  intros H. unfold validate_url. now rewrite H.
Qed.

(** C3 fails on the code.  The host [mywww.google.com] is a subdomain of
    the allowlisted [google.com], but [is_trusted_domain] removes every
    [www.] of a host, also one that is not at its start: it tests
    [mygoogle.com], finds nothing, and [validate_url] goes on to the
    models; without them the answer is WARN with score 0.5. *)
Theorem validate_url_distrusts_inner_www :
  let url := "https://mywww.google.com/pay" in
  urlparse_netloc Examples.offline url = Ok "mywww.google.com" /\
  on_allowlist "mywww.google.com" = true /\
  PyStr.replace (PyStr.lower "mywww.google.com") "www." "" = "mygoogle.com" /\
  is_trusted_domain Examples.offline url = false /\
  Py.item (validate_url Examples.offline url) "verdict" = Ok (PStr "WARN") /\
  Py.item (validate_url Examples.offline url) "score" = Ok (PFloat 0.5).
Proof. repeat split; reflexivity. Qed.

(** The same replacement trusts a host that is no subdomain of an
    allowlisted one. *)
Lemma validate_url_trusts_foreign_host :
  let url := "https://google.www.com/pay" in
  urlparse_netloc Examples.offline url = Ok "google.www.com" /\
  on_allowlist "google.www.com" = false /\
  Py.item (validate_url Examples.offline url) "verdict" = Ok (PStr "OK").
Proof. repeat split; reflexivity. Qed.

Example validate_url_google :
  Py.item (validate_url Examples.offline "https://www.google.com/search") "verdict"
    = Ok (PStr "OK") /\
  Py.item (validate_url Examples.offline "https://www.google.com/search") "score"
    = Ok (PFloat 0.0).
Proof. split; reflexivity. Qed.

Lemma phishing_patterns_count : length PHISHING_PATTERNS = 17%nat.
Proof. reflexivity. Qed.




(** The port is a part of the network location: the host
    [sbi-rewards.com] matches the pattern [sbi-.*\.com$], the network
    location [sbi-rewards.com:443] does not, and the URL goes on to the
    models; without them the answer is WARN with score 0.5. *)
Example validate_url_port_hides_phishing_host :
  let url := "https://sbi-rewards.com:443/login" in
  urlparse_netloc Examples.offline url = Ok "sbi-rewards.com:443" /\
  matches_phishing_pattern "sbi-rewards.com" = true /\
  matches_phishing_pattern "sbi-rewards.com:443" = false /\
  is_trusted_domain Examples.offline url = false /\
  Py.item (validate_url Examples.offline url) "verdict" = Ok (PStr "WARN") /\
  Py.item (validate_url Examples.offline url) "score" = Ok (PFloat 0.5) /\
  Py.item (validate_url Examples.offline "https://sbi-rewards.com/login") "verdict"
    = Ok (PStr "BLOCK").
Proof. repeat split; reflexivity. Qed.

(** The fields of a Stage 1 answer that the orchestrator reads. *)
Lemma validate_url_fields (W : World) (url : string) :
  exists d v q rs,
    validate_url W url = PDict d /\
    Py.assoc_get "verdict" d = Some (PStr v) /\
    Py.assoc_get "score" d = Some (PFloat q) /\
    Py.assoc_get "reasons" d = Some (PList rs) /\
    (v = "OK" \/ v = "WARN" \/ v = "BLOCK") /\
    (is_trusted_domain W url = true -> v = "OK").
Proof.
  unfold validate_url.
  destruct (is_trusted_domain W url) eqn:Ht.
  - dict_eval. do 4 eexists. repeat split; try reflexivity; auto.
  - unfold check_domain_blacklist.
    destruct (urlparse_netloc W url) as [n|e]; dict_eval.
    + destruct (find _ PHISHING_PATTERNS) as [[src pat]|]; dict_eval.
      { do 4 eexists. repeat split; try reflexivity; auto; discriminate. }
      destruct (find _ DOMAIN_KEYWORDS) as [kw|]; dict_eval.
      { do 4 eexists. repeat split; try reflexivity; auto; discriminate. }
      destruct (stage1_probe W url) as [|msg|xgb_prob if_score]; dict_eval.
      * do 4 eexists. repeat split; try reflexivity; auto; discriminate.
      * do 4 eexists. repeat split; try reflexivity; auto; discriminate.
      * destruct (Qle_bool 0.7 _); [|destruct (Qle_bool 0.4 _)]; dict_eval;
          do 4 eexists; repeat split; try reflexivity; auto; discriminate.
    + do 4 eexists. repeat split; try reflexivity; auto; discriminate.
Qed.

End LinkValidatorFacts.

(** ** stage2_dynamic: the scanner and its validator *)

Lemma trusted_lists_agree : HeadlessBrowser.TRUSTED_DOMAINS = LinkValidator.TRUSTED_DOMAINS.
Proof. reflexivity. Qed.

(** The allowlist test of the scanner accepts no host that the one of the
    link validator rejects. *)
Lemma scanner_allowlist_included (d : string) :
  PyStr.lower d = d ->
  HeadlessBrowser.is_trusted_domain d = true -> LinkValidator.trusted d = true.
Proof.
  intros Hd. unfold HeadlessBrowser.is_trusted_domain, LinkValidator.trusted.
  rewrite Hd, trusted_lists_agree.
  destruct (PyStr.drop_prefix "www." d) as [rest|] eqn:D; [|auto].
  apply drop_prefix_app in D. intros H.
  apply orb_true_iff. right. apply existsb_exists.
  assert (Ht : exists t, In t LinkValidator.TRUSTED_DOMAINS /\
                         (PyStr.endswith rest ("." +:+ t) || String.eqb rest t) = true).
  { apply orb_true_iff in H as [H|H].
    - apply existsb_exists in H as (t & Hin & Heq).
      exists t. split; [exact Hin|]. rewrite Heq. apply orb_true_r.
    - now apply existsb_exists in H. }
  destruct Ht as (t & Hin & Ht). exists t. split; [exact Hin|].
  apply orb_true_iff. left. subst d.
  change ("www." +:+ rest) with (String "w" (String "w" (String "w" (String "." rest)))).
  apply orb_true_iff in Ht as [Ht|Ht].
  - now do 4 apply endswith_cons.
  - apply String.eqb_eq in Ht as ->. do 3 apply endswith_cons. apply endswith_refl.
Qed.

Section Stage2Shape.

Import Stage2Validator HeadlessBrowser.

(** The fields of a Stage 2 answer that the orchestrator reads.  For a URL
    that the link validator does not trust the score is 0.5: the scanner
    stores its own score under ["score"], and the validator reads
    ["risk_score"], which only the allowlisted answer carries. *)
Lemma validate_url_stage2_fields (W : World) (url : string) :
  exists d b v q,
    validate_url_stage2 W url = PDict d /\
    Py.assoc_get "success" d = Some (PBool b) /\
    Py.assoc_get "verdict" d = Some (PStr v) /\
    Py.assoc_get "score" d = Some (PFloat q) /\
    (b = true -> exists flags, Py.assoc_get "behavioral" d = Some (PDict flags)) /\
    (LinkValidator.is_trusted_domain W url = false -> q = 0.5%Q).
Proof.
  unfold validate_url_stage2, scan_url_headless, LinkValidator.is_trusted_domain.
  destruct (urlparse_netloc W url) as [n|e]; cbn [exc_bind try_except].
  - destruct (is_trusted_domain _) eqn:T.
    + apply scanner_allowlist_included in T; [|apply lower_replace]. rewrite T.
      do 4 eexists. repeat split; try reflexivity; eauto; discriminate.
    + destruct (scan_probe W url) as [rd|v s f [m|]|msg].
      1-3: do 4 eexists; repeat split; try reflexivity; eauto; discriminate.
      cbn [try_except]. destruct (String.eqb msg "") eqn:E.
      * apply String.eqb_eq in E as ->.
        do 4 eexists. repeat split; try reflexivity; eauto; discriminate.
      * do 4 eexists. split; [cbn; rewrite E; reflexivity|].
        repeat split; try reflexivity; eauto; discriminate.
  - destruct (String.eqb e "") eqn:E.
    + apply String.eqb_eq in E as ->.
      do 4 eexists. repeat split; try reflexivity; eauto; discriminate.
    + do 4 eexists. split; [cbn; rewrite E; reflexivity|].
      repeat split; try reflexivity; eauto; discriminate.
Qed.

End Stage2Shape.

(** ** backend/orchestrator.py: the link path *)

Section LinkPath.

Import Orchestrator.

(** The link path over any two stages whose answers have the fields it
    reads. *)
Lemma validate_link_with_shape
    (ml_validate : string -> pyval) (stage2 : string -> Exc pyval) (url : string)
    (d1 : list (string * pyval)) (v1 : string) (q1 : Q) (rs : list pyval)
    (d2 : list (string * pyval)) (b : bool) (v2 : string) (q2 : Q) :
  ml_validate url = PDict d1 ->
  Py.assoc_get "verdict" d1 = Some (PStr v1) ->
  Py.assoc_get "score" d1 = Some (PFloat q1) ->
  Py.assoc_get "reasons" d1 = Some (PList rs) ->
  stage2 url = Ok (PDict d2) ->
  Py.assoc_get "success" d2 = Some (PBool b) ->
  Py.assoc_get "verdict" d2 = Some (PStr v2) ->
  Py.assoc_get "score" d2 = Some (PFloat q2) ->
  (b = true -> exists flags, Py.assoc_get "behavioral" d2 = Some (PDict flags)) ->
  exists s2 reasons,
    validate_link_with ml_validate stage2 url
    = PDict [ ("input", PDict [("type", PStr "link"); ("value", PStr url)]);
              ("stage1", PDict [ ("verdict", PStr v1); ("score", PFloat q1);
                                 ("reasons", PList rs) ]);
              ("stage2", s2);
              ("final_verdict",
               PStr (if triggers_stage2 v1 && b then severest v1 v2 else v1));
              ("risk_score",
               PFloat (if triggers_stage2 v1 && b then py_max q1 q2 else q1));
              ("reasons", PList reasons) ] /\
    (triggers_stage2 v1 = false -> s2 = PNone) /\
    (triggers_stage2 v1 = true ->
     exists d2', s2 = PDict d2' /\ Py.assoc_get "score" d2' = Some (PFloat q2)).
Proof.
  intros Hml Hv1 Hq1 Hrs Hs2 Hb Hv2 Hq2 Hflags.
  unfold validate_link_with. rewrite Hml. cbn [Py.get]. rewrite Hv1, Hq1, Hrs.
  cbn [exc_bind Py.is_str Py.slice_to].
  fold (triggers_stage2 v1). destruct (triggers_stage2 v1) eqn:R.
  - unfold run_stage2. rewrite Hs2. cbn [exc_bind]. unfold succeeded at 1.
    rewrite (truthy_of_key _ _ _ Hb). cbn [Py.get]. rewrite Hb.
    cbn [exc_bind Py.truthy]. destruct b.
    + destruct (Hflags eq_refl) as [flags Hfl]. rewrite Hfl.
      cbn [exc_bind stage2_reasons_of Py.set_item try_except].
      unfold succeeded. rewrite truthy_assoc_set. cbn [Py.get].
      rewrite !assoc_get_set_other by discriminate. rewrite Hb, Hv2, Hq2.
      cbn [exc_bind Py.truthy Py.is_str]. rewrite py_max_floats.
      cbn [exc_bind fst snd andb].
      assert (Hsev : (if String.eqb v1 "BLOCK" || String.eqb v2 "BLOCK" then PStr "BLOCK"
                      else if String.eqb v1 "WARN" || String.eqb v2 "WARN" then PStr "WARN"
                      else PStr "OK") = PStr (severest v1 v2)).
      { unfold severest.
        destruct (String.eqb v1 "BLOCK" || String.eqb v2 "BLOCK"); [reflexivity|].
        now destruct (String.eqb v1 "WARN" || String.eqb v2 "WARN"). }
      rewrite Hsev. do 2 eexists. split; [reflexivity|].
      split; [discriminate|]. intros _. eexists. split; [reflexivity|].
      now rewrite assoc_get_set_other by discriminate.
    + cbn [try_except]. unfold succeeded. rewrite (truthy_of_key _ _ _ Hb).
      cbn [Py.get]. rewrite Hb. cbn [exc_bind Py.truthy fst snd andb].
      do 2 eexists. split; [reflexivity|]. split; [discriminate|].
      intros _. eexists. split; [reflexivity|exact Hq2].
  - cbn [succeeded Py.truthy exc_bind fst snd andb].
    do 2 eexists. split; [reflexivity|]. split; [reflexivity|discriminate].
Qed.

(** When the Stage 2 call raises, the link path keeps the verdict and the
    score of Stage 1 and notes the failure. *)
Lemma validate_link_with_stage2_raises
    (ml_validate : string -> pyval) (stage2 : string -> Exc pyval) (url : string)
    (d1 : list (string * pyval)) (v1 : string) (q1 : Q) (rs : list pyval) (e : string) :
  ml_validate url = PDict d1 ->
  Py.assoc_get "verdict" d1 = Some (PStr v1) ->
  Py.assoc_get "score" d1 = Some (PFloat q1) ->
  Py.assoc_get "reasons" d1 = Some (PList rs) ->
  triggers_stage2 v1 = true ->
  stage2 url = Raise e ->
  validate_link_with ml_validate stage2 url
  = PDict [ ("input", PDict [("type", PStr "link"); ("value", PStr url)]);
            ("stage1", PDict [ ("verdict", PStr v1); ("score", PFloat q1);
                               ("reasons", PList rs) ]);
            ("stage2", PNone);
            ("final_verdict", PStr v1);
            ("risk_score", PFloat q1);
            ("reasons", PList (firstn 2 rs ++ [PStr ("⚠️ Browser scan failed: " +:+ e)])) ].
Proof.
  intros Hml Hv1 Hq1 Hrs R Hs2.
  unfold validate_link_with. rewrite Hml. cbn [Py.get]. rewrite Hv1, Hq1, Hrs.
  cbn [exc_bind Py.is_str Py.slice_to]. fold (triggers_stage2 v1). rewrite R.
  unfold run_stage2. rewrite Hs2.
  cbn [exc_bind try_except succeeded Py.truthy fst snd map].
  destruct (firstn 2 rs ++ [PStr ("⚠️ Browser scan failed: " +:+ e)]) eqn:L; [|reflexivity].
  now apply app_eq_nil in L as [_ L].
Qed.

(** The result of the link path for every URL and every world. *)
Lemma validate_link_shape (W : World) (url : string) :
  exists v1 q1 rs b v2 q2 s2 reasons,
    Py.item (LinkValidator.validate_url W url) "verdict" = Ok (PStr v1) /\
    Py.item (LinkValidator.validate_url W url) "score" = Ok (PFloat q1) /\
    Py.item (Stage2Validator.validate_url_stage2 W url) "success" = Ok (PBool b) /\
    Py.item (Stage2Validator.validate_url_stage2 W url) "verdict" = Ok (PStr v2) /\
    Py.item (Stage2Validator.validate_url_stage2 W url) "score" = Ok (PFloat q2) /\
    validate_link W url
    = PDict [ ("input", PDict [("type", PStr "link"); ("value", PStr url)]);
              ("stage1", PDict [ ("verdict", PStr v1); ("score", PFloat q1);
                                 ("reasons", PList rs) ]);
              ("stage2", s2);
              ("final_verdict",
               PStr (if triggers_stage2 v1 && b then severest v1 v2 else v1));
              ("risk_score",
               PFloat (if triggers_stage2 v1 && b then py_max q1 q2 else q1));
              ("reasons", PList reasons) ] /\
    (triggers_stage2 v1 = false -> s2 = PNone) /\
    (triggers_stage2 v1 = true ->
     exists d2', s2 = PDict d2' /\ Py.assoc_get "score" d2' = Some (PFloat 0.5)).
Proof.
  destruct (validate_url_fields W url) as (d1 & v1 & q1 & rs & E1 & Hv1 & Hq1 & Hrs & _ & Ht).
  destruct (validate_url_stage2_fields W url) as (d2 & b & v2 & q2 & E2 & Hb & Hv2 & Hq2 & Hfl & H05).
  destruct (validate_link_with_shape
              (LinkValidator.validate_url W)
              (fun u => Ok (Stage2Validator.validate_url_stage2 W u))
              url d1 v1 q1 rs d2 b v2 q2) as (s2 & reasons & E & Hnone & Hsome);
    try assumption.
  { now rewrite E2. }
  exists v1, q1, rs, b, v2, q2, s2, reasons.
  rewrite E1, E2. cbn [Py.item]. rewrite Hv1, Hq1, Hb, Hv2, Hq2.
  repeat split; try reflexivity; try assumption.
  intros R. destruct (Hsome R) as (d2' & -> & Hs).
  exists d2'. split; [reflexivity|]. rewrite Hs. do 2 f_equal. apply H05.
  destruct (LinkValidator.is_trusted_domain W url) eqn:T; [|reflexivity].
  rewrite (Ht eq_refl) in R. discriminate.
Qed.

Lemma validate_link_is_dict (W : World) (url : string) :
  exists d, validate_link W url = PDict d.
Proof.
  destruct (validate_link_shape W url)
    as (v1 & q1 & rs & b & v2 & q2 & s2 & reasons & _ & _ & _ & _ & _ & E & _).
  eauto.
Qed.

(** C1.  For every URL, with [v1], [q1] the verdict and score of Stage 1
    and [b], [v2], [q2] the success flag, verdict and score of Stage 2:
    when Stage 2 ran (the Stage 1 verdict is WARN or BLOCK) and reported
    success, the link path returns the risk score [max(q1, q2)] and the
    verdict BLOCK if either stage says BLOCK, else WARN if either says
    WARN, else OK; when Stage 2 did not run or did not report success, it
    returns the verdict and the score of Stage 1.  The field ["stage2"] of
    the result is [None] exactly when Stage 2 did not run. *)
Theorem validate_link_combines_stages (W : World) (url : string) :
  exists v1 q1 b v2 q2,
    Py.item (LinkValidator.validate_url W url) "verdict" = Ok (PStr v1) /\
    Py.item (LinkValidator.validate_url W url) "score" = Ok (PFloat q1) /\
    Py.item (Stage2Validator.validate_url_stage2 W url) "success" = Ok (PBool b) /\
    Py.item (Stage2Validator.validate_url_stage2 W url) "verdict" = Ok (PStr v2) /\
    Py.item (Stage2Validator.validate_url_stage2 W url) "score" = Ok (PFloat q2) /\
    Py.item (validate_link W url) "final_verdict"
      = Ok (PStr (if triggers_stage2 v1 && b then severest v1 v2 else v1)) /\
    Py.item (validate_link W url) "risk_score"
      = Ok (PFloat (if triggers_stage2 v1 && b then py_max q1 q2 else q1)) /\
    (Py.item (validate_link W url) "stage2" = Ok PNone <-> triggers_stage2 v1 = false).
Proof.
  destruct (validate_link_shape W url)
    as (v1 & q1 & rs & b & v2 & q2 & s2 & reasons & H1 & H2 & H3 & H4 & H5 & E & Hn & Hs).
  exists v1, q1, b, v2, q2. rewrite E. cbn [Py.item Py.assoc_get String.eqb Ascii.eqb Bool.eqb].
  repeat split; try assumption.
  - intros Hnone. destruct (triggers_stage2 v1); [|reflexivity].
    destruct (Hs eq_refl) as (d2' & -> & _). discriminate.
  - intros R. now rewrite (Hn R).
Qed.

Example validate_link_unknown_host :
  Py.item (validate_link Examples.offline "https://example.org/") "final_verdict"
    = Ok (PStr "WARN") /\
  Py.item (validate_link Examples.offline "https://example.org/") "risk_score"
    = Ok (PFloat 0.5).
Proof. split; reflexivity. Qed.

End LinkPath.

(** ** backend/orchestrator.py: the QR path *)

Section QrPath.

Import Orchestrator.

Lemma identify_nonempty (decoded : string) :
  QrParser.identify_qr_content_type decoded = "url" -> String.eqb decoded "" = false.
Proof. destruct decoded; [discriminate|reflexivity]. Qed.

(** C6.  For every image whose decoded text classifies as [url], the QR
    path reports the sub-results of the link path under ["stage1"] and
    ["stage2"], and a risk score that is the score of the Stage 2
    sub-result when there is one and the score of Stage 1 otherwise. *)
Theorem validate_qr_url_risk_score (W : World) (image decoded : string) :
  decode_qr W image = Some decoded ->
  QrParser.identify_qr_content_type decoded = "url" ->
  exists stage1 stage2 q,
    Py.item (validate_link W decoded) "stage1" = Ok stage1 /\
    Py.item (validate_link W decoded) "stage2" = Ok stage2 /\
    Py.item (validate_qr W (Some image)) "stage1" = Ok stage1 /\
    Py.item (validate_qr W (Some image)) "stage2" = Ok stage2 /\
    Py.item (validate_qr W (Some image)) "risk_score" = Ok (PFloat q) /\
    Py.item (validate_qr W (Some image)) "risk_score"
      = (if present stage2 then Py.item stage2 "score" else Py.item stage1 "score").
Proof.
  intros Hdec Hurl.
  destruct (validate_link_shape W decoded)
    as (v1 & q1 & rs & b & v2 & q2 & s2 & reasons & _ & _ & _ & _ & _ & E & Hn & Hs).
  unfold validate_qr, QrParser.parse_qr_image.
  cbn [mbind option_bind]. rewrite Hdec, (identify_nonempty _ Hurl), Hurl.
  cbn [String.eqb Ascii.eqb Bool.eqb Py.truthy negb Py.contains_key Py.has_key Py.assoc_get
       exc_bind Py.get as_str].
  unfold QrUtils.get_qr_description. cbn [QrUtils.lookup QrUtils.descriptions String.eqb
       Ascii.eqb Bool.eqb default from_option id].
  rewrite E. unfold qr_url_result.
  cbn [exc_bind Py.get Py.assoc_get String.eqb Ascii.eqb Bool.eqb Py.item].
  destruct (triggers_stage2 v1) eqn:R.
  - destruct (Hs eq_refl) as (d2' & -> & Hscore).
    rewrite (truthy_of_key _ _ _ Hscore). cbn [Py.get present Py.item]. rewrite Hscore.
    exists (PDict [("verdict", PStr v1); ("score", PFloat q1); ("reasons", PList rs)]),
           (PDict d2'), 0.5%Q.
    repeat split; cbn [present Py.item]; rewrite ?Hscore; reflexivity.
  - rewrite (Hn eq_refl).
    exists (PDict [("verdict", PStr v1); ("score", PFloat q1); ("reasons", PList rs)]),
           PNone, q1.
    repeat split; reflexivity.
Qed.

Lemma validate_qr_url_risk_score_witness :
  decode_qr Examples.offline "https://example.org/a" = Some "https://example.org/a" /\
  QrParser.identify_qr_content_type "https://example.org/a" = "url" /\
  exists stage1 stage2 q,
    Py.item (validate_link Examples.offline "https://example.org/a") "stage1" = Ok stage1 /\
    Py.item (validate_link Examples.offline "https://example.org/a") "stage2" = Ok stage2 /\
    Py.item (validate_qr Examples.offline (Some "https://example.org/a")) "stage1" = Ok stage1 /\
    Py.item (validate_qr Examples.offline (Some "https://example.org/a")) "stage2" = Ok stage2 /\
    Py.item (validate_qr Examples.offline (Some "https://example.org/a")) "risk_score"
      = Ok (PFloat q) /\
    Py.item (validate_qr Examples.offline (Some "https://example.org/a")) "risk_score"
      = (if present stage2 then Py.item stage2 "score" else Py.item stage1 "score").
Proof.
  split; [reflexivity|]. split; [reflexivity|].
  apply (validate_qr_url_risk_score Examples.offline
           "https://example.org/a" "https://example.org/a"); reflexivity.
Defined.

(** The expression of the QR path that picks the score, taken alone, would
    fall back on Stage 1 for a Stage 2 score of 0.0; [validate_link_shape]
    shows that the link path never hands it one. *)
Example qr_url_result_zero_score :
  exc_bind
    (qr_url_result "https://a.example/"
       (PDict [ ("stage1", PDict [("score", PFloat 0.5)]);
                ("stage2", PDict [("success", PBool true); ("score", PFloat 0.0)]) ]))
    (fun r => Py.item r "risk_score")
  = Ok (PFloat 0.5).
Proof. reflexivity. Qed.

Example validate_qr_trusted_url :
  Py.item (validate_qr Examples.offline (Some "https://pay.google.com/x")) "risk_score"
    = Ok (PFloat 0.0) /\
  Py.item (validate_qr Examples.offline (Some "https://pay.google.com/x")) "stage2"
    = Ok PNone.
Proof. split; reflexivity. Qed.

End QrPath.

(** ** backend/orchestrator.py: the message path *)

Section MessagePath.

Import Orchestrator.

Lemma tally_url_grows (link : string -> pyval) (t : Tally) (url : string)
    (d : list (string * pyval)) :
  link url = PDict d ->
  exists t',
    tally_url link t url = Ok t' /\
    (risk t <= risk t')%Q /\
    (Py.item (link url) "final_verdict" = Ok (PStr "BLOCK") -> (risk t + 0.5 <= risk t')%Q).
Proof.
  intros E. unfold tally_url. rewrite E. cbn [Py.get exc_bind Py.item].
  destruct (Py.assoc_get "final_verdict" d) as [v|].
  - destruct (Py.is_str v "BLOCK") eqn:B; [|destruct (Py.is_str v "WARN")];
      eexists; (split; [reflexivity|]); cbn [risk]; split; try lra.
    + intros H. injection H as ->. discriminate.
    + intros H. injection H as ->. discriminate.
  - cbn [Py.is_str String.eqb Ascii.eqb Bool.eqb].
    eexists; (split; [reflexivity|]); cbn [risk]; split; [lra|discriminate].
Qed.

Lemma tally_urls_grow (link : string -> pyval) :
  (forall u, exists d, link u = PDict d) ->
  forall urls t,
  exists t',
    tally_urls link t urls = Ok t' /\
    (risk t <= risk t')%Q /\
    (forall u, In u urls ->
               Py.item (link u) "final_verdict" = Ok (PStr "BLOCK") ->
               (risk t + 0.5 <= risk t')%Q).
Proof.
  intros Hlink. induction urls as [|url urls IH]; intros t; cbn [tally_urls].
  - exists t. split; [reflexivity|]. split; [lra|]. intros u [].
  - destruct (Hlink url) as [d E].
    destruct (tally_url_grows link t url d E) as (t1 & -> & Hle & Hblock).
    cbn [exc_bind]. destruct (IH t1) as (t' & -> & Hle' & Hblock').
    exists t'. split; [reflexivity|]. split; [lra|].
    intros u [<-|Hin] Hb.
    + specialize (Hblock Hb). lra.
    + specialize (Hblock' u Hin Hb). lra.
Qed.

Lemma verdict_of_risk_flagged (r : Q) :
  (0.3 <= r)%Q -> verdict_of_risk r = "WARN" \/ verdict_of_risk r = "BLOCK".
Proof.
  intros H. unfold verdict_of_risk.
  destruct (Qle_bool 0.7 r); [now right|].
  destruct (Qle_bool 0.3 r) eqn:E; [now left|].
  apply Qle_bool_false in E. lra.
Qed.

Lemma validate_message_with_flags_blocked (link : string -> pyval) (message url : string) :
  (forall u, exists d, link u = PDict d) ->
  In url (extracted_urls message) ->
  Py.item (link url) "final_verdict" = Ok (PStr "BLOCK") ->
  exists r v,
    validate_message_with link (Some message) = Ok r /\
    Py.item r "verdict" = Ok (PStr v) /\
    (v = "WARN" \/ v = "BLOCK").
Proof.
  intros Hlink Hin Hblock. unfold validate_message_with.
  set (start := match filter _ suspicious_keywords with [] => _ | _ => _ end).
  assert (Hstart : (0 <= risk start)%Q).
  { subst start. destruct (filter _ suspicious_keywords) as [|kw kws]; cbn [risk]; [lra|].
    pose proof (inject_nat_nonneg (length (kw :: kws))). lra. }
  destruct (tally_urls_grow link Hlink (extracted_urls message) start)
    as (t & -> & _ & Hgrow).
  specialize (Hgrow url Hin Hblock). cbn [exc_bind].
  destruct (Regex.findall PHONE message) as [|p ps].
  - eexists. exists (verdict_of_risk (risk t)).
    split; [reflexivity|]. split; [now destruct (url_results t)|].
    apply verdict_of_risk_flagged. lra.
  - eexists. exists (verdict_of_risk (risk t + 0.1)).
    split; [reflexivity|]. split; [now destruct (url_results t)|].
    apply verdict_of_risk_flagged. lra.
Qed.

(** C5.  A message with an extracted URL that the link path verdicts
    BLOCK gets the verdict WARN or BLOCK from the message path, never OK:
    the 0.5 that the URL adds to the risk is not taken back, and 0.3 is
    enough for WARN. *)
Theorem validate_message_flags_blocked_url (W : World) (message url : string) :
  In url (extracted_urls message) ->
  Py.item (validate_link W url) "final_verdict" = Ok (PStr "BLOCK") ->
  exists r v,
    validate_message W (Some message) = Ok r /\
    Py.item r "verdict" = Ok (PStr v) /\
    (v = "WARN" \/ v = "BLOCK").
Proof.
  intros Hin Hblock.
  apply (validate_message_with_flags_blocked (validate_link W) message url);
    [apply validate_link_is_dict|assumption|assumption].
Qed.

Lemma validate_message_flags_blocked_url_witness :
  In "https://login-verify.com/secure"
     (extracted_urls "Verify now: https://login-verify.com/secure.") /\
  Py.item (validate_link Examples.offline "https://login-verify.com/secure") "final_verdict"
    = Ok (PStr "BLOCK") /\
  exists r v,
    validate_message Examples.offline (Some "Verify now: https://login-verify.com/secure.")
      = Ok r /\
    Py.item r "verdict" = Ok (PStr v) /\
    (v = "WARN" \/ v = "BLOCK").
Proof.
  split; [left; reflexivity|]. split; [reflexivity|].
  apply (validate_message_flags_blocked_url Examples.offline
           "Verify now: https://login-verify.com/secure."
           "https://login-verify.com/secure"); [left|]; reflexivity.
Defined.

End MessagePath.

(** ** backend/orchestrator.py: the entry point and its cache *)

Section EntryPoint.

Import Orchestrator.


Lemma stamped_inv (handled : Exc pyval) (clock : Clock) (res : pyval) (has_error : bool) :
  stamped handled clock = Ok (res, has_error) ->
  Py.truthy res = true /\ Py.contains_key res "error" = Ok has_error.
Proof.
  unfold stamped. destruct handled as [r|e]; [|discriminate]. cbn [exc_bind].
  destruct r; try discriminate. cbn [Py.set_item exc_bind Py.contains_key].
  intros H. injection H as <- <-. split; [apply truthy_assoc_set|reflexivity].
Qed.


Lemma get_from_cache_sub (now : Z) (cache : gmap string CacheEntry) (key : string) :
  forall other entry,
    snd (get_from_cache now cache key) !! other = Some entry -> cache !! other = Some entry.
Proof.
  intros other entry. unfold get_from_cache.
  destruct (cache !! key) as [c|] eqn:L; [|auto].
  destruct (now - timestamp c <? hours CACHE_EXPIRY_HOURS)%Z; [auto|].
  cbn [snd]. intros H. apply lookup_delete_Some in H. tauto.
Qed.


(** A call that hits the cache dispatches no handler and leaves the cache
    as it is: the stored result comes back with [cached] set and the time
    of the lookup. *)
Lemma validate_input_with_hit
    (handle : string -> option string -> option string -> Exc pyval)
    (W : World) (clock : Clock) (cache : gmap string CacheEntry)
    (input_type : string) (value file_data : option string)
    (entry : CacheEntry) (d : list (string * pyval)) :
  cache !! get_cache_key W input_type value file_data = Some entry ->
  (now_lookup clock - timestamp entry < hours CACHE_EXPIRY_HOURS)%Z ->
  result entry = PDict d ->
  d <> [] ->
  validate_input_with handle W clock cache input_type value file_data
  = (Ok (PDict (spread d [ ("cached", PBool true);
                           ("response_time_ms",
                            millis (time_start clock) (time_hit clock)) ])),
     cache).
Proof.
  intros Hentry Hfresh Hd Hne. unfold validate_input_with, get_from_cache.
  rewrite Hentry. apply Z.ltb_lt in Hfresh. rewrite Hfresh, Hd.
  destruct d as [|kv d]; [congruence|]. reflexivity.
Qed.



(** Error results are never cached: a cache without error results stays
    one through every call, whatever the handlers do. *)
Lemma validate_input_keeps_error_free
    (handle : string -> option string -> option string -> Exc pyval)
    (W : World) (clock : Clock) (cache : gmap string CacheEntry)
    (input_type : string) (value file_data : option string) :
  error_free cache ->
  error_free (snd (validate_input_with handle W clock cache input_type value file_data)).
Proof.
  intros Hfree. unfold validate_input_with.
  pose proof (get_from_cache_sub (now_lookup clock) cache
                (get_cache_key W input_type value file_data)) as Hsub.
  destruct (get_from_cache _ cache _) as [cached cache'] eqn:G. cbn [snd] in Hsub.
  assert (Hfree' : error_free cache').
  { intros k entry Hk. apply (Hfree k). now apply Hsub. }
  destruct (Py.truthy (default PNone cached)); [exact Hfree'|].
  destruct (stamped _ clock) as [[res has_error]|e] eqn:S; [|exact Hfree'].
  cbn [snd]. destruct has_error eqn:Herr; [exact Hfree'|].
  unfold stamped in S. destruct (handle _ _ _) as [r|]; [|discriminate].
  destruct r; try discriminate. cbn in S. injection S as <- Hkey.
  intros k entry. unfold save_to_cache. rewrite lookup_insert.
  destruct (decide (get_cache_key W input_type value file_data = k)).
  - intros H. injection H as <-. cbn [result]. eauto.
  - apply Hfree'.
Qed.

Example validate_input_caches_clean_result :
  snd (validate_input Examples.offline Examples.noon ∅ "vpa" (Some "shop@ybl") None)
    !! "vpa:shop@ybl"
  = Some {| result :=
              PDict [ ("input", PDict [("type", PStr "vpa"); ("value", PStr "shop@ybl")]);
                      ("verdict", PStr "OK");
                      ("risk_score", PFloat 0.1);
                      ("reasons", Py.strs ["✓ Valid VPA format"; "✓ Verified provider: PhonePe"]);
                      ("provider", PStr "PhonePe");
                      ("cached", PBool false);
                      ("response_time_ms", PInt 250) ];
            timestamp := 100250000 |}.
Proof. reflexivity. Qed.

Example validate_input_skips_error_result :
  validate_input Examples.offline Examples.noon ∅ "sms" (Some "hello") None
  = (Ok (PDict [ ("error", PStr "Invalid type"); ("cached", PBool false);
                 ("response_time_ms", PInt 250) ]), ∅).
Proof. reflexivity. Qed.

End EntryPoint.

(** ** stage2_dynamic/fallback_engine.py: the score and its levels *)

Section FallbackRiskFacts.

Import FallbackEngine.

Lemma clamp_range (risk : Q) :
  (0 <= py_max 0 (py_min 100 risk) <= 100)%Q.
Proof.
  destruct (py_max_spec 0 (py_min 100 risk)) as (H0 & _ & [E|E]).
  - split; [exact H0|]. rewrite E. discriminate.
  - split; [exact H0|]. rewrite E. apply py_min_le_l.
Qed.

(** X1.  Whatever its arguments, [fallback_risk] answers a score between 0
    and 100, and the level and the action say where the score lies: HIGH
    and BLOCK from 70 on, MEDIUM and CHALLENGE from 40 to below 70, LOW and
    ALLOW_WITH_LOG below 40. *)
Theorem fallback_risk_score_and_level
    (static_score : Q) (hard_rule_hits : Z) (tls_ok upi_in_url : bool)
    (whois_age_days : option Z) (in_blacklist : bool) :
  let r := fallback_risk static_score hard_rule_hits tls_ok upi_in_url
                         whois_age_days in_blacklist in
  (0 <= score r <= 100)%Q /\
  ((level r = "HIGH" /\ action r = "BLOCK" /\ (70 <= score r)%Q) \/
   (level r = "MEDIUM" /\ action r = "CHALLENGE" /\ (40 <= score r)%Q /\ (score r < 70)%Q) \/
   (level r = "LOW" /\ action r = "ALLOW_WITH_LOG" /\ (score r < 40)%Q)).
Proof.
  cbv zeta. unfold fallback_risk.
  destruct (hard_rule_hits =? 0)%Z; destruct in_blacklist;
    try (cbn [level score action];
         (split; [split; discriminate|left; repeat split; discriminate]));
    destruct tls_ok; cbn [negb]; destruct upi_in_url;
    match goal with
    | |- context [whois_step ?r ?rs ?w] =>
        destruct (whois_step r rs w) as [risk reasons]
    end;
    pose proof (clamp_range risk) as Hc;
    destruct (Qle_bool 70 (py_max 0 (py_min 100 risk))) eqn:E70;
    try (apply Qle_bool_iff in E70; cbn [level score action];
         (split; [exact Hc|left; auto]));
    apply Qle_bool_false in E70;
    destruct (Qle_bool 40 (py_max 0 (py_min 100 risk))) eqn:E40;
    try (apply Qle_bool_iff in E40; cbn [level score action];
         (split; [exact Hc|right; left; auto]));
    apply Qle_bool_false in E40; cbn [level score action];
    (split; [exact Hc|right; right; auto]).
Qed.

(** X2.  The rule hits count up to three: with three hits or more the
    score, the level and the action are those of exactly three hits. *)
Theorem fallback_risk_counts_three_hits
    (static_score : Q) (hard_rule_hits : Z) (tls_ok upi_in_url : bool)
    (whois_age_days : option Z) (in_blacklist : bool) :
  (3 <= hard_rule_hits)%Z ->
  let r := fallback_risk static_score hard_rule_hits tls_ok upi_in_url
                         whois_age_days in_blacklist in
  let r3 := fallback_risk static_score 3 tls_ok upi_in_url whois_age_days in_blacklist in
  score r = score r3 /\ level r = level r3 /\ action r = action r3.
Proof.
  intros H. cbv zeta. unfold fallback_risk.
  assert (E0 : (hard_rule_hits =? 0)%Z = false) by (apply Z.eqb_neq; lia).
  rewrite E0, (Z.min_r hard_rule_hits 3) by lia.
  change (3 =? 0)%Z with false. change (Z.min 3 3) with 3%Z. cbv iota.
  destruct in_blacklist; [repeat split|].
  destruct tls_ok; cbn [negb]; destruct upi_in_url;
    unfold whois_step;
    destruct whois_age_days as [d|];
    try destruct (d <? 7)%Z; try destruct (d <? 30)%Z; try destruct (d <? 180)%Z;
    match goal with
    | |- context [Qle_bool 70 ?s] =>
        destruct (Qle_bool 70 s); [repeat split|destruct (Qle_bool 40 s); repeat split]
    end.
Qed.

Lemma fallback_risk_counts_three_hits_witness :
  (3 <= 7)%Z /\
  score (fallback_risk 0.1 7 true false None false)
    = score (fallback_risk 0.1 3 true false None false) /\
  level (fallback_risk 0.1 7 true false None false) = "HIGH".
Proof.
  split; [lia|].
  destruct (fallback_risk_counts_three_hits 0.1 7 true false None false) as (Hs & Hl & _);
    [lia|].
  split; [exact Hs|]. rewrite Hl. reflexivity.
Defined.

End FallbackRiskFacts.

(** ** backend/orchestrator.py: the life of a cache entry *)

Section CacheFacts.

Import Orchestrator.

(** X3.  A result saved under a key is what a lookup of that key returns
    for 24 hours, the cache being left as it is; from 24 hours on the
    lookup returns nothing and removes the entry.  Lookups of other keys
    are not affected by the saving. *)
Theorem cache_entry_lives_24_hours
    (saved now : Z) (cache : gmap string CacheEntry) (key : string) (r : pyval) :
  let cache' := save_to_cache saved cache key r in
  ((now - saved < 24 * 3600 * 1000000)%Z ->
     get_from_cache now cache' key = (Some r, cache')) /\
  ((24 * 3600 * 1000000 <= now - saved)%Z ->
     get_from_cache now cache' key = (None, delete key cache)) /\
  (forall other, other <> key ->
     fst (get_from_cache now cache' other) = fst (get_from_cache now cache other)).
Proof.
  cbv zeta. unfold get_from_cache, save_to_cache. rewrite lookup_insert_eq.
  cbn [timestamp result]. change (hours CACHE_EXPIRY_HOURS) with (24 * 3600 * 1000000)%Z.
  split; [|split].
  - intros H. apply Z.ltb_lt in H. now rewrite H.
  - intros H. apply Z.ltb_ge in H. rewrite H. now rewrite delete_insert_eq.
  - intros other Hne. rewrite lookup_insert_ne by congruence.
    destruct (cache !! other) as [c|]; [|reflexivity].
    now destruct (now - timestamp c <? _)%Z.
Qed.

(** A call that misses the cache and whose result has no key ["error"]
    leaves that result under the key of the call. *)
Lemma validate_input_with_stores
    (handle : string -> option string -> option string -> Exc pyval)
    (W : World) (clock : Clock) (cache : gmap string CacheEntry)
    (input_type : string) (value file_data : option string) (res : pyval) :
  let key := get_cache_key W input_type value file_data in
  let out := validate_input_with handle W clock cache input_type value file_data in
  Py.truthy (default PNone (fst (get_from_cache (now_lookup clock) cache key))) = false ->
  fst out = Ok res ->
  Py.contains_key res "error" = Ok false ->
  exists d, res = PDict d /\ d <> [] /\
            snd out !! key = Some {| result := res; timestamp := now_save clock |}.
Proof.
  cbv zeta. unfold validate_input_with.
  destruct (get_from_cache _ cache _) as [cached cache'] eqn:G. cbn [fst].
  intros Hmiss. rewrite Hmiss.
  destruct (stamped _ clock) as [[res' has_error]|e] eqn:S; cbn [fst snd].
  - intros H Hkey. injection H as ->.
    apply stamped_inv in S as [Htruthy Hkey']. rewrite Hkey in Hkey'. injection Hkey' as <-.
    destruct res as [| | | | | |d]; try discriminate.
    exists d. split; [reflexivity|]. split.
    + intros ->. discriminate.
    + unfold save_to_cache. now rewrite lookup_insert_eq.
  - intros H Hkey. injection H as <-. discriminate.
Qed.

(** The fields of a result that comes from the cache. *)
Lemma spread_cached (d : list (string * pyval)) (t : pyval) :
  let d' := spread d [("cached", PBool true); ("response_time_ms", t)] in
  Py.assoc_get "cached" d' = Some (PBool true) /\
  Py.assoc_get "response_time_ms" d' = Some t /\
  (forall k, k <> "cached" -> k <> "response_time_ms" -> Py.assoc_get k d' = Py.assoc_get k d).
Proof.
  cbv zeta. unfold spread. cbn [fold_left fst snd]. split; [|split].
  - rewrite assoc_get_set_other by discriminate. apply assoc_get_set_same.
  - apply assoc_get_set_same.
  - intros k H1 H2. now rewrite !assoc_get_set_other.
Qed.

(** X4.  After a call of [validate_input] that missed the cache and gave
    a result without the key ["error"], every call within 24 hours whose
    arguments have the same cache key is answered from the cache: no
    handler runs, the cache is unchanged, and the answer is the stored
    result with [cached] set to [True] and a new [response_time_ms], all
    other fields being those of the first answer. *)
Theorem validate_input_repeat_is_cached
    (W : World) (clock1 clock2 : Clock) (cache : gmap string CacheEntry)
    (input_type : string) (value file_data : option string)
    (input_type2 : string) (value2 file_data2 : option string) (res : pyval) :
  let key := get_cache_key W input_type value file_data in
  let first := validate_input W clock1 cache input_type value file_data in
  let second := validate_input W clock2 (snd first) input_type2 value2 file_data2 in
  Py.truthy (default PNone (fst (get_from_cache (now_lookup clock1) cache key))) = false ->
  fst first = Ok res ->
  Py.contains_key res "error" = Ok false ->
  get_cache_key W input_type2 value2 file_data2 = key ->
  (now_lookup clock2 - now_save clock1 < 24 * 3600 * 1000000)%Z ->
  exists d d',
    res = PDict d /\
    second = (Ok (PDict d'), snd first) /\
    Py.assoc_get "cached" d' = Some (PBool true) /\
    Py.assoc_get "response_time_ms" d'
      = Some (millis (time_start clock2) (time_hit clock2)) /\
    (forall k, k <> "cached" -> k <> "response_time_ms" ->
               Py.assoc_get k d' = Py.assoc_get k d).
Proof.
  cbv zeta. intros Hmiss Hres Hkey Hsame Hfresh.
  destruct (validate_input_with_stores (route W) W clock1 cache input_type value file_data res
              Hmiss Hres Hkey) as (d & -> & Hne & Hstored).
  exists d. eexists. split; [reflexivity|].
  split.
  - unfold validate_input.
    apply (validate_input_with_hit (route W) W clock2 _ input_type2 value2 file_data2
             {| result := PDict d; timestamp := now_save clock1 |} d).
    + rewrite Hsame. exact Hstored.
    + exact Hfresh.
    + reflexivity.
    + exact Hne.
  - apply spread_cached.
Qed.

Lemma validate_input_repeat_is_cached_witness :
  let first := validate_input Examples.offline Examples.noon ∅ "vpa" (Some "shop@ybl") None in
  let later :=
    {| time_start := 200; now_lookup := 200000000; time_hit := 200.002;
       time_done := 200.5; now_save := 200500000 |} in
  exists d',
    validate_input Examples.offline later (snd first) "vpa" (Some "shop@ybl") None
      = (Ok (PDict d'), snd first) /\
    Py.assoc_get "cached" d' = Some (PBool true) /\
    Py.assoc_get "verdict" d' = Some (PStr "OK").
Proof.
  cbv zeta.
  destruct (validate_input_repeat_is_cached
              Examples.offline Examples.noon
              {| time_start := 200; now_lookup := 200000000; time_hit := 200.002;
                 time_done := 200.5; now_save := 200500000 |}
              ∅ "vpa" (Some "shop@ybl") None "vpa" (Some "shop@ybl") None
              (PDict [ ("input", PDict [("type", PStr "vpa"); ("value", PStr "shop@ybl")]);
                       ("verdict", PStr "OK");
                       ("risk_score", PFloat 0.1);
                       ("reasons",
                        Py.strs ["✓ Valid VPA format"; "✓ Verified provider: PhonePe"]);
                       ("provider", PStr "PhonePe");
                       ("cached", PBool false);
                       ("response_time_ms", PInt 250) ]))
    as (d & d' & Hd & Hsecond & Hcached & _ & Hother);
    [reflexivity|reflexivity|reflexivity|reflexivity|reflexivity|].
  exists d'. split; [exact Hsecond|]. split; [exact Hcached|].
  rewrite (Hother "verdict") by discriminate.
  injection Hd as <-. reflexivity.
Defined.

(** An input type other than [link], [vpa], [message] and [qr] is
    answered, on a cache miss, with the error [Invalid type]; the answer
    carries [cached] and [response_time_ms] like any other, and it is not
    stored. *)
Theorem validate_input_unknown_type
    (W : World) (clock : Clock) (cache : gmap string CacheEntry)
    (input_type : string) (value file_data : option string) :
  let key := get_cache_key W input_type value file_data in
  let looked := get_from_cache (now_lookup clock) cache key in
  input_type <> "link" -> input_type <> "vpa" ->
  input_type <> "message" -> input_type <> "qr" ->
  Py.truthy (default PNone (fst looked)) = false ->
  validate_input W clock cache input_type value file_data
  = (Ok (PDict [ ("error", PStr "Invalid type");
                 ("cached", PBool false);
                 ("response_time_ms", millis (time_start clock) (time_done clock)) ]),
     snd looked).
Proof.
  cbv zeta. intros H1 H2 H3 H4. unfold validate_input, validate_input_with.
  destruct (get_from_cache _ cache _) as [cached cache'] eqn:G. cbn [fst snd].
  intros Hmiss. rewrite Hmiss. unfold route.
  apply String.eqb_neq in H1, H2, H3, H4. rewrite H1, H2, H3, H4.
  reflexivity.
Qed.

Lemma validate_input_unknown_type_witness :
  "sms" <> "link" /\ "sms" <> "vpa" /\ "sms" <> "message" /\ "sms" <> "qr" /\
  validate_input Examples.offline Examples.noon ∅ "sms" (Some "hello") None
  = (Ok (PDict [ ("error", PStr "Invalid type");
                 ("cached", PBool false);
                 ("response_time_ms", PInt 250) ]), ∅).
Proof.
  repeat (split; [discriminate|]).
  rewrite (validate_input_unknown_type Examples.offline Examples.noon ∅ "sms" (Some "hello")
             None); try discriminate; reflexivity.
Defined.

End CacheFacts.

(** ** stage2_dynamic/stage2_validator.py: what Stage 2 can answer *)

Section Stage2Answers.

Import Stage2Validator HeadlessBrowser.

(** The verdict and the score of a Stage 2 answer. *)
Lemma validate_url_stage2_answers (W : World) (url : string) :
  exists d b v q,
    validate_url_stage2 W url = PDict d /\
    Py.assoc_get "success" d = Some (PBool b) /\
    Py.assoc_get "verdict" d = Some (PStr v) /\
    Py.assoc_get "score" d = Some (PFloat q) /\
    ((v = "OK" /\ q = 0.0%Q) \/ (v = "WARN" /\ q = 0.5%Q)) /\
    (LinkValidator.is_trusted_domain W url = false -> v = "WARN" /\ q = 0.5%Q).
Proof.
  unfold validate_url_stage2, scan_url_headless, LinkValidator.is_trusted_domain.
  destruct (urlparse_netloc W url) as [n|e]; cbn [exc_bind try_except].
  - destruct (is_trusted_domain _) eqn:T.
    + apply scanner_allowlist_included in T; [|apply lower_replace]. rewrite T.
      do 4 eexists. do 4 (split; [reflexivity|]). split; [left; now split|discriminate].
    + destruct (scan_probe W url) as [rd|v s f [m|]|msg].
      1-3: do 4 eexists; do 4 (split; [reflexivity|]); split; [right; now split|now split].
      cbn [try_except]. destruct (String.eqb msg "") eqn:E.
      * apply String.eqb_eq in E as ->.
        do 4 eexists; do 4 (split; [reflexivity|]); split; [right; now split|now split].
      * do 4 eexists. split; [cbn; rewrite E; reflexivity|].
        do 3 (split; [reflexivity|]); split; [right; now split|now split].
  - destruct (String.eqb e "") eqn:E.
    + apply String.eqb_eq in E as ->.
      do 4 eexists; do 4 (split; [reflexivity|]); split; [right; now split|now split].
    + do 4 eexists. split; [cbn; rewrite E; reflexivity|].
      do 3 (split; [reflexivity|]); split; [right; now split|now split].
Qed.

(** X5.  Whatever the page scan finds, Stage 2 answers OK with score 0.0
    or WARN with score 0.5, never BLOCK and never the score of the scan:
    [scan_url_headless] stores its score under ["score"] and
    [validate_url_stage2] reads ["risk_score"], with 0.5 as the default. *)
Theorem validate_url_stage2_never_blocks (W : World) (url : string) :
  exists v q,
    Py.item (validate_url_stage2 W url) "verdict" = Ok (PStr v) /\
    Py.item (validate_url_stage2 W url) "score" = Ok (PFloat q) /\
    ((v = "OK" /\ q = 0.0%Q) \/ (v = "WARN" /\ q = 0.5%Q)).
Proof.
  destruct (validate_url_stage2_answers W url) as (d & b & v & q & -> & _ & Hv & Hq & H & _).
  exists v, q. cbn [Py.item]. rewrite Hv, Hq. auto.
Qed.

End Stage2Answers.

(** ** backend/orchestrator.py: what the link path can answer *)

Section LinkAnswers.

Import Orchestrator.

Lemma triggers_stage2_inv (v : string) :
  triggers_stage2 v = true -> v = "WARN" \/ v = "BLOCK".
Proof.
  unfold triggers_stage2. intros H. apply orb_true_iff in H as [H|H];
    apply String.eqb_eq in H; auto.
Qed.

(** The link path in terms of Stage 1 alone. *)
Lemma validate_link_by_stage1 (W : World) (url : string) :
  exists v1 q1 rs b s2 reasons,
    Py.item (LinkValidator.validate_url W url) "verdict" = Ok (PStr v1) /\
    Py.item (LinkValidator.validate_url W url) "score" = Ok (PFloat q1) /\
    (v1 = "OK" \/ v1 = "WARN" \/ v1 = "BLOCK") /\
    validate_link W url
    = PDict [ ("input", PDict [("type", PStr "link"); ("value", PStr url)]);
              ("stage1", PDict [ ("verdict", PStr v1); ("score", PFloat q1);
                                 ("reasons", PList rs) ]);
              ("stage2", s2);
              ("final_verdict", PStr v1);
              ("risk_score",
               PFloat (if triggers_stage2 v1 && b then py_max q1 0.5 else q1));
              ("reasons", PList reasons) ] /\
    (triggers_stage2 v1 = false -> s2 = PNone) /\
    (triggers_stage2 v1 = true ->
     exists d2', s2 = PDict d2' /\ Py.assoc_get "score" d2' = Some (PFloat 0.5)).
Proof.
  destruct (validate_link_shape W url)
    as (v1 & q1 & rs & b & v2 & q2 & s2 & reasons & H1 & H2 & H3 & H4 & H5 & E & Hn & Hs).
  destruct (validate_url_fields W url)
    as (d1 & v1' & q1' & rs' & E1 & Hv1 & _ & _ & Hset & Htrusted).
  destruct (validate_url_stage2_answers W url)
    as (d2 & b' & v2' & q2' & E2 & _ & Hv2 & Hq2 & _ & Huntrusted).
  rewrite E1 in H1. cbn [Py.item] in H1. rewrite Hv1 in H1. injection H1 as ->.
  rewrite E2 in H4, H5. cbn [Py.item] in H4, H5. rewrite Hv2 in H4. rewrite Hq2 in H5.
  injection H4 as ->. injection H5 as ->.
  exists v1, q1, rs, b, s2, reasons.
  split; [rewrite E1; cbn [Py.item]; now rewrite Hv1|].
  split; [exact H2|]. split; [exact Hset|].
  split; [|split; assumption].
  rewrite E. destruct (triggers_stage2 v1) eqn:R; [|reflexivity].
  destruct (LinkValidator.is_trusted_domain W url) eqn:T.
  { rewrite (Htrusted eq_refl) in R. discriminate. }
  destruct (Huntrusted eq_refl) as [-> ->].
  destruct b; [|reflexivity]. cbn [andb].
  destruct (triggers_stage2_inv _ R) as [-> | ->]; reflexivity.
Qed.

(** X6.  The verdict of the link path is the verdict of Stage 1, for every
    URL and whatever Stage 2 finds; the risk score is the Stage 1 score,
    raised to 0.5 when it is lower and Stage 2 ran and reported success. *)
Theorem validate_link_verdict_is_stage1 (W : World) (url : string) :
  exists v1 q1,
    Py.item (LinkValidator.validate_url W url) "verdict" = Ok (PStr v1) /\
    Py.item (LinkValidator.validate_url W url) "score" = Ok (PFloat q1) /\
    Py.item (validate_link W url) "final_verdict" = Ok (PStr v1) /\
    (Py.item (validate_link W url) "risk_score" = Ok (PFloat q1) \/
     Py.item (validate_link W url) "risk_score" = Ok (PFloat (py_max q1 0.5))).
Proof.
  destruct (validate_link_by_stage1 W url)
    as (v1 & q1 & rs & b & s2 & reasons & H1 & H2 & _ & E & _).
  exists v1, q1. rewrite E. cbn [Py.item Py.assoc_get String.eqb Ascii.eqb Bool.eqb].
  repeat split; try assumption.
  destruct (triggers_stage2 v1 && b); auto.
Qed.

(** With a scan that reports BLOCK, the link path answers WARN. *)
Example validate_link_ignores_alarming_scan :
  Py.item (HeadlessBrowser.scan_url_headless alarming_scan "https://example.org/") "verdict"
    = Ok (PStr "BLOCK") /\
  Py.item (validate_link alarming_scan "https://example.org/") "final_verdict"
    = Ok (PStr "WARN") /\
  Py.item (validate_link alarming_scan "https://example.org/") "risk_score"
    = Ok (PFloat 0.5).
Proof. repeat split; reflexivity. Qed.

(** X7.  A link request that misses the cache is never answered with an
    error: the answer has a final verdict among OK, WARN and BLOCK, no key
    ["error"], and it is stored in the cache. *)
Theorem validate_input_link_never_fails
    (W : World) (clock : Clock) (cache : gmap string CacheEntry) (url : string) :
  let key := get_cache_key W "link" (Some url) None in
  let out := validate_input W clock cache "link" (Some url) None in
  Py.truthy (default PNone (fst (get_from_cache (now_lookup clock) cache key))) = false ->
  exists d v,
    fst out = Ok (PDict d) /\
    Py.assoc_get "final_verdict" d = Some (PStr v) /\
    (v = "OK" \/ v = "WARN" \/ v = "BLOCK") /\
    Py.has_key "error" d = false /\
    Py.assoc_get "cached" d = Some (PBool false) /\
    snd out !! key = Some {| result := PDict d; timestamp := now_save clock |}.
Proof.
  cbv zeta. unfold validate_input, validate_input_with.
  destruct (get_from_cache _ cache _) as [cached cache'] eqn:G. cbn [fst].
  intros Hmiss. rewrite Hmiss.
  destruct (validate_link_by_stage1 W url)
    as (v1 & q1 & rs & b & s2 & reasons & _ & _ & Hset & E & _).
  unfold route, stamped. cbn [String.eqb Ascii.eqb Bool.eqb]. rewrite E.
  cbn [exc_bind Py.set_item Py.assoc_set String.eqb Ascii.eqb Bool.eqb Py.contains_key
       Py.has_key Py.assoc_get fst snd].
  do 2 eexists. split; [reflexivity|]. split; [reflexivity|]. split; [exact Hset|].
  split; [reflexivity|]. split; [reflexivity|].
  unfold save_to_cache. now rewrite lookup_insert_eq.
Qed.

Lemma validate_input_link_never_fails_witness :
  exists d,
    fst (validate_input Examples.offline Examples.noon ∅ "link" (Some "https://example.org/")
           None) = Ok (PDict d) /\
    Py.has_key "error" d = false.
Proof.
  destruct (validate_input_link_never_fails Examples.offline Examples.noon ∅
              "https://example.org/") as (d & v & H & _ & _ & He & _); [reflexivity|].
  exists d. split; [exact H|exact He].
Defined.

(** A URL that [is_trusted_domain] accepts is answered OK with risk
    0.0 by the link path, whatever the models would say; Stage 2 does not
    run. *)
Theorem validate_link_trusted (W : World) (url : string) :
  LinkValidator.is_trusted_domain W url = true ->
  validate_link W url
  = PDict [ ("input", PDict [("type", PStr "link"); ("value", PStr url)]);
            ("stage1", PDict [ ("verdict", PStr "OK"); ("score", PFloat 0.0);
                               ("reasons", Py.strs ["✅ Trusted domain (whitelisted)"]) ]);
            ("stage2", PNone);
            ("final_verdict", PStr "OK");
            ("risk_score", PFloat 0.0);
            ("reasons", Py.strs ["✅ Trusted domain (whitelisted)"]) ].
Proof.
  intros H. unfold validate_link, validate_link_with.
  rewrite (validate_url_trusted W url H). reflexivity.
Qed.

Lemma validate_link_trusted_witness :
  LinkValidator.is_trusted_domain Examples.offline "https://www.onlinesbi.sbi/login" = true /\
  Py.item (validate_link Examples.offline "https://www.onlinesbi.sbi/login") "final_verdict"
    = Ok (PStr "OK") /\
  Py.item (validate_link Examples.offline "https://www.onlinesbi.sbi/login") "stage2"
    = Ok PNone.
Proof.
  split; [reflexivity|].
  rewrite (validate_link_trusted Examples.offline "https://www.onlinesbi.sbi/login");
    [split; reflexivity|reflexivity].
Defined.

End LinkAnswers.

(** ** backend/orchestrator.py: what the message path can answer *)

Section MessageAnswers.

Import Orchestrator.

Lemma inject_nat_le (k n : nat) : (k <= n)%nat -> (inject_Z (Z.of_nat k) <= inject_Z (Z.of_nat n))%Q.
Proof. intros H. rewrite <- Zle_Qle. lia. Qed.

(** The answer of the message path: the verdict is taken from the risk
    that the keywords, the URLs and the phone numbers add up to, the score
    is that risk cut at 1.0. *)
Lemma validate_message_with_result (link : string -> pyval) (message : string) :
  (forall u, exists d, link u = PDict d) ->
  exists risk_score reasons more,
    validate_message_with link (Some message)
    = Ok (PDict ([ ("input", PDict [("type", PStr "message"); ("value", PStr message)]);
                   ("verdict", PStr (verdict_of_risk risk_score));
                   ("risk_score", PFloat (py_min risk_score 1.0));
                   ("reasons", Py.strs reasons) ] ++ more)) /\
    (0.15 * inject_Z (Z.of_nat (length (filter (PyStr.contains (PyStr.lower message))
                                               suspicious_keywords)))
     <= risk_score)%Q.
Proof.
  intros Hlink. unfold validate_message_with.
  set (found := filter _ suspicious_keywords).
  set (start := match found with [] => _ | _ => _ end).
  assert (Hstart : (0.15 * inject_Z (Z.of_nat (length found)) <= risk start)%Q).
  { subst start. destruct found as [|kw kws]; cbn [risk]; [vm_compute; discriminate|lra]. }
  destruct (tally_urls_grow link Hlink (extracted_urls message) start)
    as (t & -> & Hle & _).
  cbn [exc_bind].
  destruct (Regex.findall PHONE message) as [|p ps].
  - exists (risk t). eexists.
    exists (match url_results t with [] => [] | found => [("extracted_urls", PList found)] end).
    split; [|lra]. now destruct (url_results t).
  - exists (risk t + 0.1)%Q. eexists.
    exists (match url_results t with [] => [] | found => [("extracted_urls", PList found)] end).
    split; [|lra]. now destruct (url_results t).
Qed.

Lemma verdict_of_risk_cases (risk_score : Q) :
  (verdict_of_risk risk_score = "BLOCK" /\ (0.7 <= risk_score)%Q) \/
  (verdict_of_risk risk_score = "WARN" /\ (0.3 <= risk_score)%Q /\ (risk_score < 0.7)%Q) \/
  (verdict_of_risk risk_score = "OK" /\ (risk_score < 0.3)%Q).
Proof.
  unfold verdict_of_risk.
  destruct (Qle_bool 0.7 risk_score) eqn:E7.
  - apply Qle_bool_iff in E7. auto.
  - apply Qle_bool_false in E7.
    destruct (Qle_bool 0.3 risk_score) eqn:E3.
    + apply Qle_bool_iff in E3. auto.
    + apply Qle_bool_false in E3. auto.
Qed.

(** X8.  Every message gets an answer from the message path: a verdict
    and a risk score between 0 and 1, with BLOCK exactly for the scores
    from 0.7 on, WARN for those from 0.3 to below 0.7, and OK below
    0.3. *)
Theorem validate_message_score_and_verdict (W : World) (message : string) :
  exists r v q,
    validate_message W (Some message) = Ok r /\
    Py.item r "verdict" = Ok (PStr v) /\
    Py.item r "risk_score" = Ok (PFloat q) /\
    (0 <= q)%Q /\ (q <= 1)%Q /\
    ((v = "BLOCK" /\ (0.7 <= q)%Q) \/
     (v = "WARN" /\ (0.3 <= q)%Q /\ (q < 0.7)%Q) \/
     (v = "OK" /\ (q < 0.3)%Q)).
Proof.
  destruct (validate_message_with_result (validate_link W) message (validate_link_is_dict W))
    as (risk_score & reasons & more & E & Hlow).
  unfold validate_message. rewrite E.
  exists (PDict ([ ("input", PDict [("type", PStr "message"); ("value", PStr message)]);
                   ("verdict", PStr (verdict_of_risk risk_score));
                   ("risk_score", PFloat (py_min risk_score 1.0));
                   ("reasons", Py.strs reasons) ] ++ more)),
         (verdict_of_risk risk_score), (py_min risk_score 1.0).
  split; [reflexivity|]. split; [reflexivity|]. split; [reflexivity|].
  pose proof (inject_nat_nonneg
                (length (filter (PyStr.contains (PyStr.lower message)) suspicious_keywords)))
    as Hn.
  assert (H0 : (0 <= risk_score)%Q) by lra.
  unfold py_min. destruct (Qlt_bool 1.0 risk_score) eqn:E1.
  - apply Qlt_bool_iff in E1.
    split; [lra|]. split; [lra|]. left.
    destruct (verdict_of_risk_cases risk_score) as [[-> _]|[(_ & _ & H)|[_ H]]];
      [split; [reflexivity|lra]|lra|lra].
  - unfold Qlt_bool in E1. apply negb_false_iff, Qle_bool_iff in E1.
    split; [exact H0|]. split; [lra|]. apply verdict_of_risk_cases.
Qed.

(** X9.  Two suspicious keywords are enough for WARN and five for BLOCK,
    whatever else the message holds: each keyword found adds 0.15 to the
    risk, and nothing is ever taken off. *)
Theorem validate_message_keyword_count (W : World) (message : string) :
  let found := filter (PyStr.contains (PyStr.lower message)) suspicious_keywords in
  exists r v,
    validate_message W (Some message) = Ok r /\
    Py.item r "verdict" = Ok (PStr v) /\
    ((2 <= length found)%nat -> v = "WARN" \/ v = "BLOCK") /\
    ((5 <= length found)%nat -> v = "BLOCK").
Proof.
  cbv zeta.
  destruct (validate_message_with_result (validate_link W) message (validate_link_is_dict W))
    as (risk_score & reasons & more & E & Hlow).
  unfold validate_message. rewrite E.
  eexists. exists (verdict_of_risk risk_score).
  split; [reflexivity|]. split; [reflexivity|]. split.
  - intros H. apply (inject_nat_le 2) in H. apply verdict_of_risk_flagged.
    change (inject_Z (Z.of_nat 2)) with 2%Q in H. lra.
  - intros H. apply (inject_nat_le 5) in H.
    change (inject_Z (Z.of_nat 5)) with 5%Q in H.
    destruct (verdict_of_risk_cases risk_score) as [[-> _]|[(_ & _ & H')|[_ H']]];
      [reflexivity|lra|lra].
Qed.

Example validate_message_five_keywords :
  Py.item
    (try_except
       (validate_message Examples.offline
          (Some "Urgent: your bank account is suspended, verify KYC"))
       (fun _ => PNone))
    "verdict"
  = Ok (PStr "BLOCK").
Proof. reflexivity. Qed.

End MessageAnswers.

(** ** qr_validation: the classes of a decoded text *)

Section QrClasses.

Import QrParser.

Lemma startswith_app (p s : string) :
  String.prefix p s = true -> exists rest, s = p +:+ rest.
Proof.
  revert s. induction p as [|a p IH]; intros s H.
  - now exists s.
  - destruct s as [|b s]; [discriminate|]. cbn in H.
    destruct (Ascii.ascii_dec a b) as [->|]; [|discriminate].
    destruct (IH s H) as [rest ->]. now exists rest.
Qed.

Ltac split_ifs :=
  repeat match goal with
         | |- context [if ?c then _ else _] => destruct c eqn:?
         end.

(** X10.  A decoded text is classified [url] exactly when it starts with
    [http://] or [https://]: the name of a payment app inside a web
    address does not make it a protected payment code, and nothing else
    is sent to the link path. *)
Theorem identify_url_iff (data : string) :
  identify_qr_content_type data = "url"
  <-> (PyStr.startswith data "http://" || PyStr.startswith data "https://") = true.
Proof.
  split.
  - unfold identify_qr_content_type.
    destruct (starts_any data ["00020101"; "00020201"]); [discriminate|].
    destruct (negb (PyStr.startswith data "http") && _); [discriminate|].
    destruct (starts_any data ["upi://"; "upi://pay"]); [discriminate|].
    destruct (starts_any data ["http://"; "https://"]) eqn:E.
    + intros _. unfold starts_any in E. cbn [existsb] in E.
      now rewrite orb_false_r in E.
    + split_ifs; discriminate.
  - intros H. apply orb_true_iff in H as [H|H]; apply startswith_app in H as [rest ->];
      destruct rest; reflexivity.
Qed.

(** X11.  The two tests for a protected payment code agree:
    [is_protected_payment_qr] of [qr_utils.py] holds exactly for the texts
    that [identify_qr_content_type] of [qr_parser.py] classifies
    [protected_payment]. *)
Theorem is_protected_payment_qr_agrees (data : string) :
  QrChecks.is_protected_payment_qr data = true
  <-> identify_qr_content_type data = "protected_payment".
Proof.
  unfold QrChecks.is_protected_payment_qr, identify_qr_content_type.
  destruct (starts_any data ["00020101"; "00020201"]); [tauto|].
  destruct (PyStr.startswith data "http") eqn:Hh; cbn [negb andb].
  - split; [discriminate|]. split_ifs; discriminate.
  - cbn [existsb].
    destruct (PyStr.contains (PyStr.lower data) "gpay");
      destruct (PyStr.contains (PyStr.lower data) "phonepe");
      destruct (PyStr.contains (PyStr.lower data) "paytmmp");
      destruct (PyStr.contains (PyStr.lower data) "paytmqr");
      destruct (PyStr.contains (PyStr.lower data) "bharatpe");
      destruct (PyStr.contains (PyStr.lower data) "bhim"); cbn [orb];
      try tauto.
    split; [discriminate|]. split_ifs; discriminate.
Qed.

End QrClasses.

(** ** backend/orchestrator.py: the VPA path *)

Section VpaPath.

Import Orchestrator QrVpaValidator.

(** The answer of the VPA path, field by field. *)
Lemma validate_vpa_answer (W : World) (vpa : string) :
  exists v q rs p,
    validate_vpa_format (unquote W vpa)
    = PDict [ ("verdict", PStr v); ("risk_score", PFloat q); ("reasons", PList rs);
              ("provider", p) ] /\
    validate_vpa W (Some vpa)
    = Ok (PDict [ ("input", PDict [("type", PStr "vpa"); ("value", PStr (unquote W vpa))]);
                  ("verdict", PStr v); ("risk_score", PFloat q); ("reasons", PList rs);
                  ("provider", p) ]) /\
    (v = "OK" \/ v = "WARN" \/ v = "BLOCK").
Proof.
  unfold validate_vpa, validate_vpa_format.
  destruct (Regex.matches VPA_FORMAT (unquote W vpa)); cbn [negb].
  - destruct (known_provider _ KNOWN_PROVIDERS);
      do 4 eexists; (split; [reflexivity|]); (split; [reflexivity|]); auto.
  - do 4 eexists; (split; [reflexivity|]); (split; [reflexivity|]); auto.
Qed.

(** X12.  The VPA path of the orchestrator answers every handle, and its
    answer is the one of [validate_vpa_format] on the unquoted handle with
    the field ["input"] put in front: the verdict, the score, the reasons
    and the provider are passed on unchanged. *)
Theorem validate_vpa_passes_on_the_format_check (W : World) (vpa : string) :
  exists r,
    validate_vpa W (Some vpa) = Ok r /\
    Py.item r "input" = Ok (PDict [("type", PStr "vpa"); ("value", PStr (unquote W vpa))]) /\
    (forall k, k <> "input" ->
               Py.item r k = Py.item (validate_vpa_format (unquote W vpa)) k).
Proof.
  destruct (validate_vpa_answer W vpa) as (v & q & rs & p & E1 & E2 & _).
  eexists. split; [exact E2|]. split; [reflexivity|].
  intros k Hk. rewrite E1. cbn [Py.item Py.assoc_get].
  apply String.eqb_neq in Hk. now rewrite Hk.
Qed.

End VpaPath.

(** ** backend/orchestrator.py: what the QR path can answer *)

Section QrAnswers.

Import Orchestrator QrParser.

(** What the parser hands to the QR path for a decoded text. *)
Lemma parse_qr_image_cases (W : World) (image decoded : string) :
  decode_qr W image = Some decoded ->
  decoded <> "" ->
  parse_qr_image W (Some image)
    = PDict [("type", PStr (identify_qr_content_type decoded)); ("data", PStr decoded)] \/
  (identify_qr_content_type decoded = "upi" /\
   exists vpa,
     QrChecks.extract_vpa_from_upi decoded = Some vpa /\
     parse_qr_image W (Some image)
     = PDict [("type", PStr "upi"); ("data", PStr decoded); ("vpa", PStr vpa)]).
Proof.
  intros Hdec Hne. unfold parse_qr_image, QrChecks.extract_vpa_from_upi.
  cbn [mbind option_bind]. rewrite Hdec.
  apply String.eqb_neq in Hne. rewrite Hne.
  destruct (String.eqb (identify_qr_content_type decoded) "upi") eqn:U; [|now left].
  apply String.eqb_eq in U. rewrite U.
  destruct (Regex.search PA_PARAM decoded) as [m|]; [|now left].
  right. split; [reflexivity|]. eexists. split; reflexivity.
Qed.

Lemma get_qr_description_verdict (qr_type data : string) :
  exists v q rs,
    QrUtils.get_qr_description qr_type data = (v, q, rs) /\ (v = "OK" \/ v = "WARN").
Proof.
  unfold QrUtils.get_qr_description, QrUtils.descriptions.
  cbn [QrUtils.lookup].
  repeat match goal with
         | |- context [if String.eqb qr_type ?k then _ else _] =>
             destruct (String.eqb qr_type k);
             [do 3 eexists; split; [reflexivity|auto]|]
         end.
  do 3 eexists; split; [reflexivity|auto].
Qed.

(** The answer of the QR path once the VPA path has answered. *)
Lemma qr_vpa_result_answer (input_value qr_type : string) (with_vpa : list (string * pyval))
    (input : pyval) (v : string) (q : Q) (rs : list pyval) (p : pyval) :
  (with_vpa = [] \/ exists x, with_vpa = [("vpa", x)]) ->
  (v = "OK" \/ v = "WARN" \/ v = "BLOCK") ->
  exists d,
    qr_vpa_result input_value qr_type with_vpa
      (PDict [ ("input", input); ("verdict", PStr v); ("risk_score", PFloat q);
               ("reasons", PList rs); ("provider", p) ])
      = Ok (PDict d) /\
    Py.assoc_get "verdict" d = Some (PStr v) /\
    (v = "OK" \/ v = "WARN" \/ v = "BLOCK") /\
    Py.assoc_get "risk_score" d = Some (PFloat q) /\
    Py.has_key "qr_type" d = true /\
    Py.has_key "error" d = false.
Proof.
  intros Hw Hv. unfold qr_vpa_result.
  cbn [exc_bind Py.get Py.assoc_get String.eqb Ascii.eqb Bool.eqb].
  destruct Hw as [->|[x ->]]; eexists; (split; [reflexivity|]);
    (split; [reflexivity|]); (split; [exact Hv|]); repeat split.
Qed.

(** X13.  The QR path answers every image.  When no text can be decoded
    the answer is the error [No QR code found in image] and nothing else;
    for every decoded text it is a dictionary without the key ["error"]
    that holds a verdict among OK, WARN and BLOCK, a risk score and the
    kind of the code. *)
Theorem validate_qr_answer (W : World) (file_data : option string) :
  ((file_data ≫= decode_qr W = None \/ file_data ≫= decode_qr W = Some "") ->
   validate_qr W file_data = PDict [("error", PStr "No QR code found in image")]) /\
  (forall decoded,
     file_data ≫= decode_qr W = Some decoded -> decoded <> "" ->
     exists d v q,
       validate_qr W file_data = PDict d /\
       Py.assoc_get "verdict" d = Some (PStr v) /\
       (v = "OK" \/ v = "WARN" \/ v = "BLOCK") /\
       Py.assoc_get "risk_score" d = Some (PFloat q) /\
       Py.has_key "qr_type" d = true /\
       Py.has_key "error" d = false).
Proof.
  split.
  - intros [H|H]; unfold validate_qr, parse_qr_image; rewrite H; reflexivity.
  - intros decoded Hdec Hne.
    destruct file_data as [image|]; [|discriminate]. cbn [mbind option_bind] in Hdec.
    unfold validate_qr.
    destruct (parse_qr_image_cases W image decoded Hdec Hne) as [->|(U & vpa & _ & ->)].
    + cbn [Py.truthy negb Py.contains_key Py.has_key Py.assoc_get String.eqb Ascii.eqb
           Bool.eqb exc_bind Py.get as_str].
      destruct (get_qr_description_verdict (identify_qr_content_type decoded) decoded)
        as (dv & dq & drs & -> & Hdv).
      destruct (String.eqb (identify_qr_content_type decoded) "url") eqn:T1.
      { destruct (validate_link_by_stage1 W decoded)
          as (v1 & q1 & rs & b & s2 & reasons & _ & _ & Hset & -> & Hn & Hs).
        unfold qr_url_result.
        cbn [exc_bind Py.get Py.assoc_get String.eqb Ascii.eqb Bool.eqb].
        destruct (triggers_stage2 v1) eqn:R.
        - destruct (Hs eq_refl) as (d2' & -> & Hscore).
          rewrite (truthy_of_key _ _ _ Hscore). cbn [Py.get]. rewrite Hscore.
          cbn [exc_bind or_lazy Py.truthy try_except].
          do 3 eexists. split; [reflexivity|]. split; [reflexivity|].
          split; [exact Hset|]. repeat split.
        - rewrite (Hn eq_refl).
          cbn [exc_bind or_lazy Py.truthy try_except Py.get Py.assoc_get String.eqb
               Ascii.eqb Bool.eqb].
          do 3 eexists. split; [reflexivity|]. split; [reflexivity|].
          split; [exact Hset|]. repeat split. }
      destruct (String.eqb (identify_qr_content_type decoded) "upi") eqn:T2.
      { cbn [exc_bind Py.get Py.assoc_get String.eqb Ascii.eqb Bool.eqb Py.truthy try_except].
        do 3 eexists. split; [reflexivity|]. split; [reflexivity|].
        split; [auto|]. repeat split. }
      destruct (String.eqb (identify_qr_content_type decoded) "vpa") eqn:T3.
      { destruct (validate_vpa_answer W decoded) as (v & q & rs & p & _ & -> & Hv).
        cbn [exc_bind].
        destruct (qr_vpa_result_answer decoded "Plain VPA QR" []
                    (PDict [("type", PStr "vpa"); ("value", PStr (unquote W decoded))])
                    v q rs p
                    (or_introl eq_refl) Hv) as (d & -> & H).
        cbn [try_except]. eauto. }
      cbn [try_except]. do 3 eexists. split; [reflexivity|]. split; [reflexivity|].
      split; [destruct Hdv as [->| ->]; auto|]. repeat split.
    + cbn [Py.truthy negb Py.contains_key Py.has_key Py.assoc_get String.eqb Ascii.eqb
           Bool.eqb exc_bind Py.get as_str].
      destruct (get_qr_description_verdict "upi" decoded) as (dv & dq & drs & -> & Hdv).
      destruct (String.eqb vpa "") eqn:V.
      * cbn [negb]. cbn [exc_bind try_except].
        do 3 eexists. split; [reflexivity|]. split; [reflexivity|].
        split; [auto|]. repeat split.
      * cbn [negb].
        destruct (validate_vpa_answer W (unquote W vpa)) as (v & q & rs & p & _ & -> & Hv).
        cbn [exc_bind].
        destruct (qr_vpa_result_answer "[UPI Payment QR]" "UPI Payment QR"
                    [("vpa", PStr (unquote W vpa))]
                    (PDict [("type", PStr "vpa");
                            ("value", PStr (unquote W (unquote W vpa)))])
                    v q rs p
                    (or_intror (ex_intro _ _ eq_refl)) Hv) as (d & -> & H).
        cbn [try_except]. eauto.
Qed.

(** X14.  A decoded text that does not start with [http] and holds the
    name of a payment app, in any case and at any place, is taken for an
    encrypted payment code: the QR path answers OK with risk 0.05 and
    hides the text.  This includes a [upi://] payment link, whose payee
    address is then not validated. *)
Theorem validate_qr_trusts_payment_app_names (W : World) (image decoded : string) :
  decode_qr W image = Some decoded ->
  PyStr.startswith decoded "http" = false ->
  existsb (PyStr.contains (PyStr.lower decoded))
          ["bhim"; "phonepe"; "paytmmp"; "paytmqr"; "bharatpe"; "gpay"] = true ->
  Py.item (validate_qr W (Some image)) "qr_type" = Ok (PStr "Protected Payment QR") /\
  Py.item (validate_qr W (Some image)) "verdict" = Ok (PStr "OK") /\
  Py.item (validate_qr W (Some image)) "risk_score" = Ok (PFloat 0.05) /\
  Py.item (validate_qr W (Some image)) "decoded" = Ok (PStr "[Encrypted Data]") /\
  Py.item (validate_qr W (Some image)) "vpa" = Raise "'vpa'".
Proof.
  intros Hdec Hh Hkw.
  assert (Hid : identify_qr_content_type decoded = "protected_payment").
  { unfold identify_qr_content_type. rewrite Hh, Hkw. cbn [negb andb].
    now destruct (starts_any decoded _). }
  assert (Hne : String.eqb decoded "" = false).
  { destruct decoded; [discriminate Hkw|reflexivity]. }
  unfold validate_qr, parse_qr_image. cbn [mbind option_bind]. rewrite Hdec, Hne, Hid.
  repeat split; reflexivity.
Qed.

Lemma validate_qr_trusts_payment_app_names_witness :
  decode_qr Examples.offline "upi://pay?pa=collector@gpay&am=4999"
    = Some "upi://pay?pa=collector@gpay&am=4999" /\
  PyStr.startswith "upi://pay?pa=collector@gpay&am=4999" "http" = false /\
  Py.item (validate_qr Examples.offline (Some "upi://pay?pa=collector@gpay&am=4999")) "verdict"
    = Ok (PStr "OK") /\
  Py.item (validate_qr Examples.offline (Some "upi://pay?pa=collector@gpay&am=4999"))
          "risk_score" = Ok (PFloat 0.05).
Proof.
  split; [reflexivity|]. split; [reflexivity|].
  destruct (validate_qr_trusts_payment_app_names Examples.offline
              "upi://pay?pa=collector@gpay&am=4999" "upi://pay?pa=collector@gpay&am=4999")
    as (_ & Hv & Hq & _); [reflexivity|reflexivity|reflexivity|].
  split; [exact Hv|exact Hq].
Defined.

End QrAnswers.

(** ** vpa_validation/vpa_reputation.py: the store over time *)

Section ReputationHistory.

Import VpaReputation.

Lemma scam_reports_snoc (k : string) (events : list (string * bool)) (e : string * bool) :
  scam_reports k (events ++ [e])
  = (scam_reports k events
     + (if String.eqb (PyStr.lower (fst e)) k && snd e then 1 else 0))%Z.
Proof.
  unfold scam_reports. rewrite List.filter_app, List.length_app. cbn [List.filter].
  destruct (String.eqb (PyStr.lower (fst e)) k && snd e); cbn [length]; lia.
Qed.

Lemma reputation_invariant_step (events : list (string * bool))
    (store : gmap string Reputation) (e : string * bool) :
  reputation_invariant events store ->
  reputation_invariant (events ++ [e]) (update_reputation store (fst e) (snd e)).
Proof.
  intros Inv k. rewrite scam_reports_snoc. specialize (Inv k).
  destruct (String.eqb_spec (PyStr.lower (fst e)) k) as [<-|Hne].
  - rewrite update_reputation_lookup. cbn [andb].
    split; [apply lower_idem|].
    set (before := default first_entry (store !! PyStr.lower (fst e))).
    assert (Hbefore :
              reports before = scam_reports (PyStr.lower (fst e)) events /\
              (0 < trust before)%Q /\ (trust before <= 1)%Q).
    { subst before. destruct (store !! PyStr.lower (fst e)) as [r|]; cbn [default].
      - tauto.
      - rewrite Inv. cbn. repeat split; discriminate. }
    destruct Hbefore as (Hr & H0 & H1). clearbody before. cbv zeta.
    destruct (snd e); cbn [scale_trust report_scam raise_trust reports trust].
    + split; [lia|]. split; lra.
    + split; [lia|]. unfold py_min.
      destruct (Qlt_bool _ _) eqn:E; [|split; lra].
      apply Qlt_bool_iff in E. split; lra.
  - rewrite update_reputation_frame by congruence. cbn [andb].
    destruct (store !! k); [|lia].
    destruct Inv as (Hk & Hr & Ht). repeat split; try tauto. lia.
Qed.

Lemma reputation_invariant_replay (events : list (string * bool)) :
  reputation_invariant events (replay events).
Proof.
  induction events as [|e events IH] using rev_ind.
  - intros k. reflexivity.
  - unfold replay. rewrite fold_left_app. cbn [fold_left].
    now apply reputation_invariant_step.
Qed.

(** X15.  After any series of updates from the empty store, every entry
    sits under a lowercase handle, its [reports] is the number of scam
    reports made for that handle in any spelling of upper and lower case,
    and its [trust] is above 0 and at most 1. *)
Theorem reputation_after_replay (events : list (string * bool)) (vpa : string)
    (r : Reputation) :
  replay events !! vpa = Some r ->
  PyStr.lower vpa = vpa /\
  reports r = scam_reports vpa events /\
  (0 < trust r)%Q /\ (trust r <= 1)%Q.
Proof.
  intros H. pose proof (reputation_invariant_replay events vpa) as Inv.
  now rewrite H in Inv.
Qed.

Lemma reputation_after_replay_witness :
  let events := [("Shop@YBL", true); ("shop@ybl", false); ("SHOP@ybl", true)] in
  let r := {| reports := 2; trust := (0.5 * 0.75 + 0.05) * 0.75 |} in
  replay events !! "shop@ybl" = Some r /\
  PyStr.lower "shop@ybl" = "shop@ybl" /\
  reports r = scam_reports "shop@ybl" events /\
  (0 < trust r)%Q /\ (trust r <= 1)%Q.
Proof.
  cbv zeta. split; [reflexivity|].
  apply (reputation_after_replay
           [("Shop@YBL", true); ("shop@ybl", false); ("SHOP@ybl", true)] "shop@ybl").
  reflexivity.
Defined.

End ReputationHistory.

(** ** qr_validation and backend/orchestrator.py: the payee of a UPI code *)

Section UpiPayee.

Import Orchestrator QrParser.

Lemma string_length_append (a b : string) :
  String.length (a +:+ b) = (String.length a + String.length b)%nat.
Proof.
  induction a as [|c a IH]; [reflexivity|].
  change (String c a +:+ b) with (String c (a +:+ b)). cbn [String.length]. now rewrite IH.
Qed.

Lemma substring_front (a b : string) :
  substring 0 (String.length a) (a +:+ b) = a.
Proof.
  induction a as [|c a IH].
  - cbn. now destruct b.
  - change (String c a +:+ b) with (String c (a +:+ b)). cbn. now rewrite IH.
Qed.

Lemma substring_all (a : string) : substring 0 (String.length a) a = a.
Proof. induction a as [|c a IH]; cbn; [reflexivity|now rewrite IH]. Qed.

(** A greedy repetition followed by nothing takes every character of the
    class and stops at the first one outside. *)
Lemma rep_takes_all (cls : ascii -> bool) (v rest : string) :
  Urllib.all_of cls v = true ->
  (rest = "" \/ exists c r, rest = String c r /\ cls c = false) ->
  forall lo prev,
    (lo <= String.length v)%nat ->
    Regex.rep cls lo None (fun _ s => Some s) prev (v +:+ rest) = Some rest.
Proof.
  intros Hv Hrest. induction v as [|c v IH]; intros lo prev Hlo.
  - cbn in Hlo. assert (lo = 0)%nat as -> by lia.
    change ("" +:+ rest) with rest.
    destruct Hrest as [->|(c & r & -> & Hc)]; [reflexivity|].
    cbn [Regex.rep]. now rewrite Hc.
  - cbn in Hv. apply andb_true_iff in Hv as [Hc Hv].
    change (String c v +:+ rest) with (String c (v +:+ rest)).
    cbn [Regex.rep]. rewrite Hc. cbn [andb Regex.room Regex.less option_map].
    rewrite (IH Hv); [reflexivity|]. cbn in Hlo. lia.
Qed.

Lemma no_amp_all (v : string) :
  PyStr.has_char v "&" = false ->
  Urllib.all_of (fun c => negb (Ascii.eqb c "&")) v = true.
Proof.
  induction v as [|c v IH]; [reflexivity|]. cbn [PyStr.has_char Urllib.all_of]. intros H.
  apply orb_false_iff in H as [Hc Hv]. rewrite Hc. now apply IH.
Qed.

(** The first [pa=] parameter of a payment link. *)
Lemma extract_vpa_from_upi_pay (v rest : string) :
  v <> "" ->
  PyStr.has_char v "&" = false ->
  (rest = "" \/ PyStr.startswith rest "&" = true) ->
  QrChecks.extract_vpa_from_upi ("upi://pay?pa=" +:+ v +:+ rest) = Some v.
Proof.
  intros Hne Hv Hrest.
  assert (Hrep : Regex.rep (fun c => negb (Ascii.eqb c "&")) 1 None (fun _ s => Some s)
                            (Some "="%char) (v +:+ rest)
                 = Some rest).
  { apply rep_takes_all.
    - now apply no_amp_all.
    - destruct Hrest as [->|H]; [now left|]. right.
      apply startswith_app in H as [r ->]. exists "&"%char, r. split; reflexivity.
    - destruct v; [congruence|cbn; lia]. }
  unfold QrChecks.extract_vpa_from_upi, Regex.search.
  change ("upi://pay?pa=" +:+ v +:+ rest)
    with (String "u" (String "p" (String "i" (String ":" (String "/" (String "/"
         (String "p" (String "a" (String "y" (String "?"
         (String "p" (String "a" (String "=" (v +:+ rest)))))))))))))).
  cbn [Regex.search_from Regex.match_at Regex.run PA_PARAM PyStr.drop_prefix Ascii.eqb
       Bool.eqb Regex.last_char].
  unfold Regex.match_at at 1.
  cbn [Regex.run PA_PARAM PyStr.drop_prefix Ascii.eqb Bool.eqb Regex.last_char].
  rewrite Hrep.
  cbn [String.length]. rewrite string_length_append.
  replace (S (S (S (String.length v + String.length rest))) - String.length rest)%nat
    with (S (S (S (String.length v)))) by lia.
  cbn [substring]. rewrite substring_front.
  cbn [String.length Nat.sub substring]. f_equal.
  replace (String.length v - 0)%nat with (String.length v) by lia.
  apply substring_all.
Qed.

(** X16.  For a payment link [upi://pay?pa=<payee>...] that is classified
    [upi], the QR path takes the text between [pa=] and the next [&] as
    the payee, reports it unquoted under ["vpa"], and answers with the
    verdict, the score and the reasons of [validate_vpa_format] on the
    payee unquoted twice: once by the QR path and once more by the VPA
    path. *)
Theorem validate_qr_upi_checks_the_payee (W : World) (image v rest : string) :
  let decoded := "upi://pay?pa=" +:+ v +:+ rest in
  decode_qr W image = Some decoded ->
  identify_qr_content_type decoded = "upi" ->
  v <> "" ->
  PyStr.has_char v "&" = false ->
  (rest = "" \/ PyStr.startswith rest "&" = true) ->
  Py.item (validate_qr W (Some image)) "vpa" = Ok (PStr (unquote W v)) /\
  (forall k, k = "verdict" \/ k = "risk_score" \/ k = "reasons" ->
             Py.item (validate_qr W (Some image)) k
             = Py.item (QrVpaValidator.validate_vpa_format (unquote W (unquote W v))) k).
Proof.
  cbv zeta. intros Hdec Hid Hne Hv Hrest.
  pose proof (extract_vpa_from_upi_pay v rest Hne Hv Hrest) as Hx.
  unfold QrChecks.extract_vpa_from_upi in Hx.
  unfold validate_qr, parse_qr_image. cbn [mbind option_bind]. rewrite Hdec, Hid.
  change (String.eqb ("upi://pay?pa=" +:+ v +:+ rest) "") with false.
  cbn [String.eqb Ascii.eqb Bool.eqb].
  destruct (Regex.search PA_PARAM ("upi://pay?pa=" +:+ v +:+ rest)) as [m|]; [|discriminate].
  injection Hx as ->.
  cbn [Py.assoc_set String.eqb Ascii.eqb Bool.eqb Py.truthy negb Py.contains_key Py.has_key
       Py.assoc_get exc_bind Py.get as_str].
  destruct (get_qr_description_verdict "upi" ("upi://pay?pa=" +:+ v +:+ rest))
    as (dv & dq & drs & -> & _).
  apply String.eqb_neq in Hne. rewrite Hne. cbn [negb exc_bind].
  destruct (validate_vpa_answer W (unquote W v)) as (v0 & q & rs & p & -> & -> & _).
  cbn [exc_bind]. unfold qr_vpa_result.
  cbn [exc_bind Py.get Py.assoc_get String.eqb Ascii.eqb Bool.eqb try_except app Py.item].
  split; [reflexivity|].
  intros k [->|[->| ->]]; reflexivity.
Qed.

Lemma validate_qr_upi_checks_the_payee_witness :
  decode_qr Examples.offline "upi://pay?pa=shop@ybl&pn=Shop" = Some "upi://pay?pa=shop@ybl&pn=Shop" /\
  identify_qr_content_type "upi://pay?pa=shop@ybl&pn=Shop" = "upi" /\
  Py.item (validate_qr Examples.offline (Some "upi://pay?pa=shop@ybl&pn=Shop")) "vpa"
    = Ok (PStr "shop@ybl") /\
  Py.item (validate_qr Examples.offline (Some "upi://pay?pa=shop@ybl&pn=Shop")) "verdict"
    = Ok (PStr "OK").
Proof.
  split; [reflexivity|]. split; [reflexivity|].
  destruct (validate_qr_upi_checks_the_payee Examples.offline
              "upi://pay?pa=shop@ybl&pn=Shop" "shop@ybl" "&pn=Shop") as [Hvpa Hk];
    [reflexivity|reflexivity|discriminate|reflexivity|right; reflexivity|].
  split; [exact Hvpa|]. rewrite (Hk "verdict") by auto. reflexivity.
Defined.

End UpiPayee.

(** ** stage2_dynamic/fallback_engine.py: from the URL to the report *)

Section FallbackUrlFacts.

Import FallbackUrl.

Lemma split_first_drops (c : ascii) (s : string) :
  PyStr.has_char (PyStr.split_first c s) c = false.
Proof.
  induction s as [|a s IH]; [reflexivity|]. cbn [PyStr.split_first].
  destruct (Ascii.eqb a c) eqn:E; [reflexivity|].
  cbn [PyStr.has_char]. now rewrite E.
Qed.

Lemma split_first_keeps_out (c x : ascii) (s : string) :
  PyStr.has_char s x = false -> PyStr.has_char (PyStr.split_first c s) x = false.
Proof.
  induction s as [|a s IH]; [reflexivity|]. cbn [PyStr.split_first PyStr.has_char].
  intros H. apply orb_false_iff in H as [Ha Hs].
  destruct (Ascii.eqb a c); [reflexivity|].
  cbn [PyStr.has_char]. rewrite Ha. now apply IH.
Qed.

Lemma lower_split_first (c : ascii) (s : string) :
  PyStr.lower s = s -> PyStr.lower (PyStr.split_first c s) = PyStr.split_first c s.
Proof.
  induction s as [|a s IH]; [reflexivity|]. cbn [PyStr.lower PyStr.split_first].
  intros H. injection H as Ha Hs.
  destruct (Ascii.eqb a c); [reflexivity|].
  cbn [PyStr.lower]. rewrite Ha. f_equal. now apply IH.
Qed.

Lemma lower_lstrip (s : string) :
  PyStr.lower s = s -> PyStr.lower (PyText.lstrip s) = PyText.lstrip s.
Proof.
  induction s as [|a s IH]; [reflexivity|]. cbn [PyText.lstrip].
  intros H. destruct (PyStr.is_space a); [|exact H].
  cbn [PyStr.lower] in H. injection H as _ Hs. now apply IH.
Qed.

Lemma lower_rstrip (s : string) :
  PyStr.lower s = s -> PyStr.lower (PyText.rstrip s) = PyText.rstrip s.
Proof.
  induction s as [|a s IH]; [reflexivity|]. cbn [PyText.rstrip PyStr.lower].
  intros H. injection H as Ha Hs. specialize (IH Hs).
  destruct (PyText.rstrip s) as [|b r].
  - destruct (PyStr.is_space a); [reflexivity|]. cbn [PyStr.lower]. now rewrite Ha.
  - cbn [PyStr.lower] in *. now rewrite Ha, IH.
Qed.

Lemma lower_drop_prefix (p s rest : string) :
  PyStr.lower s = s -> PyStr.drop_prefix p s = Some rest -> PyStr.lower rest = rest.
Proof.
  revert s. induction p as [|a p IH]; intros s Hs H; cbn in H.
  - now injection H as <-.
  - destruct s as [|b s]; [discriminate|].
    destruct (Ascii.eqb a b); [|discriminate].
    cbn [PyStr.lower] in Hs. injection Hs as _ Hs. exact (IH s Hs H).
Qed.

Lemma lower_after_sub (sep s rest : string) :
  PyStr.lower s = s -> PyText.after_sub sep s = Some rest -> PyStr.lower rest = rest.
Proof.
  induction s as [|a s IH]; intros Hs H; cbn [PyText.after_sub] in H.
  - destruct (PyStr.drop_prefix sep "") as [r|] eqn:D; [|discriminate].
    injection H as <-. exact (lower_drop_prefix _ _ _ Hs D).
  - destruct (PyStr.drop_prefix sep (String a s)) as [r|] eqn:D.
    + injection H as <-. exact (lower_drop_prefix _ _ _ Hs D).
    + cbn [PyStr.lower] in Hs. injection Hs as _ Hs. now apply IH.
Qed.

(** X17.  The host that [domain_from_url] cuts out of a URL holds no
    slash and no colon, and no capital letter: the scheme, the path and
    the port are gone. *)
Theorem domain_from_url_is_a_bare_host (url : string) :
  PyStr.has_char (domain_from_url url) "/" = false /\
  PyStr.has_char (domain_from_url url) ":" = false /\
  PyStr.lower (domain_from_url url) = domain_from_url url.
Proof.
  unfold domain_from_url.
  set (u0 := PyText.strip (PyStr.lower url)).
  assert (H0 : PyStr.lower u0 = u0).
  { subst u0. unfold PyText.strip. apply lower_rstrip, lower_lstrip, lower_idem. }
  set (u1 := if PyStr.contains u0 "://" then _ else u0).
  assert (H1 : PyStr.lower u1 = u1).
  { subst u1. destruct (PyStr.contains u0 "://"); [|exact H0].
    destruct (PyText.after_sub "://" u0) as [rest|] eqn:A; [|exact H0].
    exact (lower_after_sub _ _ _ H0 A). }
  clearbody u1.
  pose proof (split_first_drops "/" u1) as Hslash.
  destruct (PyStr.has_char (PyStr.split_first "/" u1) ":") eqn:C.
  - split; [now apply split_first_keeps_out|].
    split; [apply split_first_drops|]. now do 2 apply lower_split_first.
  - split; [exact Hslash|]. split; [exact C|]. now apply lower_split_first.
Qed.

Example domain_from_url_examples :
  domain_from_url "  HTTPS://Login.Example.COM:8443/pay?x=1 " = "login.example.com" /\
  domain_from_url "sbi.com/verify" = "sbi.com".
Proof. split; reflexivity. Qed.

Variable LOCAL_BL : list string.
Variable check_tls_ok : string -> bool.
Variable get_whois_age_days : string -> option Z.

(** X18.  A URL from which [domain_from_url] cuts a text that holds an
    entry of the blacklist as a part, be it the whole text or not, is
    reported HIGH with score 100 and action BLOCK by
    [evaluate_url_fallback], whatever the TLS handshake and the WHOIS
    lookup answer.  The text that is tested is what stands between [://]
    and the first [/] or [:]; it need not be the host of the URL, as
    user information in front of the host takes its place. *)
Theorem evaluate_url_fallback_blocks_listed_domains
    (url bad : string) (static_score : Q) (hard_rule_hits : Z) (upi_in_url : bool) :
  In bad LOCAL_BL ->
  bad <> "" ->
  PyStr.contains (domain_from_url url) bad = true ->
  let r := evaluate_url_fallback LOCAL_BL check_tls_ok get_whois_age_days
                                 url static_score hard_rule_hits upi_in_url in
  FallbackEngine.level r = "HIGH" /\
  FallbackEngine.score r = 100%Q /\
  FallbackEngine.action r = "BLOCK".
Proof.
  intros Hin Hne Hc. cbv zeta. unfold evaluate_url_fallback.
  assert (Hbl : check_blacklist LOCAL_BL url = true).
  { unfold check_blacklist. destruct (PyStr.mem _ LOCAL_BL); [reflexivity|].
    apply existsb_exists. exists bad. split; [exact Hin|].
    apply String.eqb_neq in Hne. now rewrite Hne, Hc. }
  rewrite Hbl. unfold FallbackEngine.fallback_risk.
  destruct (hard_rule_hits =? 0)%Z; repeat split.
Qed.

End FallbackUrlFacts.

Lemma evaluate_url_fallback_blocks_listed_domains_witness :
  In "evil.com" ["phish.example"; "evil.com"] /\
  "evil.com" <> "" /\
  PyStr.contains (FallbackUrl.domain_from_url "https://notevil.com/login") "evil.com" = true /\
  FallbackEngine.action
    (FallbackUrl.evaluate_url_fallback ["phish.example"; "evil.com"]
       (fun _ => true) (fun _ => Some 4000%Z) "https://notevil.com/login" 0.0 0 false)
  = "BLOCK".
Proof.
  split; [right; left; reflexivity|]. split; [discriminate|]. split; [reflexivity|].
  apply (evaluate_url_fallback_blocks_listed_domains ["phish.example"; "evil.com"]
           (fun _ => true) (fun _ => Some 4000%Z) "https://notevil.com/login" "evil.com"
           0.0 0 false);
    [right; left; reflexivity|discriminate|reflexivity].
Defined.

(** User information in front of the host takes its place: the host
    [evil.com] is on the blacklist, the text that is tested is
    [good.com], and the URL is let through. *)
Example evaluate_url_fallback_misses_host_behind_userinfo :
  let url := "http://good.com:80@evil.com/login" in
  FallbackUrl.domain_from_url url = "good.com" /\
  FallbackUrl.check_blacklist ["evil.com"] url = false /\
  FallbackEngine.action
    (FallbackUrl.evaluate_url_fallback ["evil.com"] (fun _ => true) (fun _ => Some 4000%Z)
       url 0.0 0 false)
  = "ALLOW_WITH_LOG".
Proof. repeat split; reflexivity. Qed.

(** ** cache_backends.py *)

Section CacheBackendFacts.

Import CacheBackend.

Variable dumps : pyval -> string.
Variable loads : string -> Exc pyval.

(** X19.  What [set] stores under a kind and a key is what [get] reads
    back, through [json.dumps] and [json.loads], as long as no more than
    [ttl_seconds] seconds have passed, the table being left as it is; one
    second later [get] answers [None] and deletes the row.  The row is
    found under every kind and key that spell the same [kind:key]. *)
Theorem cache_backend_round_trip
    (now now' : Z) (rows : gmap string Row) (kind key kind' key' : string) (value : pyval)
    (ttl_seconds : Z) :
  row_key kind' key' = row_key kind key ->
  let rows' := set dumps now rows kind key value ttl_seconds in
  ((now' - now <= ttl_seconds)%Z ->
     get loads now' rows' kind' key'
     = (try_except (loads (dumps value)) (fun _ => PNone), rows')) /\
  ((ttl_seconds < now' - now)%Z ->
     get loads now' rows' kind' key' = (PNone, delete (row_key kind key) rows)).
Proof.
  intros Hk. cbv zeta. unfold get, set. rewrite Hk, lookup_insert_eq.
  unfold expired. cbn [ttl ts value_json]. split; intros H.
  - apply Z.ltb_ge in H. now rewrite H.
  - apply Z.ltb_lt in H. rewrite H. now rewrite delete_insert_eq.
Qed.

End CacheBackendFacts.

Lemma cache_backend_round_trip_witness :
  CacheBackend.row_key "link:a" "b" = CacheBackend.row_key "link" "a:b" /\
  CacheBackend.get (fun s => Ok (PStr s)) 1060
    (CacheBackend.set (fun _ => "{}") 1000 ∅ "link" "a:b" (PDict []) 60) "link:a" "b"
  = (PStr "{}", CacheBackend.set (fun _ => "{}") 1000 ∅ "link" "a:b" (PDict []) 60).
Proof.
  split; [reflexivity|].
  apply (cache_backend_round_trip (fun _ => "{}") (fun s => Ok (PStr s)) 1000 1060 ∅
           "link" "a:b" "link:a" "b" (PDict []) 60); [reflexivity|lia].
Defined.

(** ** link_validation/link_orchestrator.py *)

Section LinkOrchestratorFacts.

Import LinkOrchestrator.

Lemma keyword_steps_grow (domain url_lower : string) (keywords : list string) :
  forall acc,
    (fst acc <= fst (fold_left (keyword_step domain url_lower) keywords acc))%Q.
Proof.
  induction keywords as [|k keywords IH]; intros acc; cbn [fold_left]; [lra|].
  apply Qle_trans with (y := fst (keyword_step domain url_lower acc k)); [|apply IH].
  unfold keyword_step. destruct (_ || _); cbn [fst]; lra.
Qed.

Lemma existsb_find_some {A : Type} (f : A -> bool) (l : list A) :
  existsb f l = true -> exists x, find f l = Some x.
Proof.
  intros H. apply existsb_find in H as (x & H & _). eauto.
Qed.

Lemma rule_score_flagged (domain url_lower : string) :
  existsb (PyStr.endswith domain) suspicious_tlds = true \/
  (existsb (PyStr.contains domain) bank_names = true /\
   existsb (PyStr.contains domain) official_domains = false) ->
  (0.3 <= fst (rule_score domain url_lower))%Q.
Proof.
  intros H. unfold rule_score.
  pose proof (keyword_steps_grow domain url_lower suspicious_keywords (0.0%Q, [])) as Hk.
  cbn [fst] in Hk.
  set (a1 := fold_left _ suspicious_keywords _) in *.
  set (a2 := if PyText.any_char PyStr.is_digit domain then _ else a1).
  assert (H2 : (0 <= fst a2)%Q).
  { subst a2. destruct (PyText.any_char _ _); cbn [fst]; lra. }
  clearbody a2. clear Hk a1.
  set (a3 := match find (PyStr.endswith domain) suspicious_tlds with
             | Some tld => _ | None => a2 end).
  assert (H3 : (0 <= fst a3)%Q /\
               (existsb (PyStr.endswith domain) suspicious_tlds = true -> (0.3 <= fst a3)%Q)).
  { subst a3. destruct (find _ suspicious_tlds) as [tld|] eqn:F; cbn [fst].
    - split; intros; lra.
    - split; [exact H2|]. intros E. apply existsb_find_some in E as [x E]. congruence. }
  clearbody a3. destruct H3 as [H3 H3'].
  destruct (find _ bank_names) as [bank|] eqn:F; cbn [fst].
  - destruct H as [H|_]; [specialize (H3' H)|]; lra.
  - destruct H as [H|[Hb Ho]]; [exact (H3' H)|].
    exfalso. rewrite Ho in F. cbn [negb] in F.
    apply existsb_exists in Hb as (bank & Hin & Hb).
    apply (find_none _ _ F) in Hin. rewrite Hb in Hin. discriminate.
Qed.

(** X20.  The rule-based fallback tests the network location of the URL,
    [urlparse(url).netloc] in lower case: the host together with the user
    information and the port, where the URL has them.  A URL whose network
    location ends in one of the listed top-level domains, or holds the
    name of a bank and none of the official bank domains, is answered
    WARN or BLOCK, never OK. *)
Theorem fallback_rule_based_flags (W : World) (url netloc : string) :
  urlparse_netloc W url = Ok netloc ->
  existsb (PyStr.endswith (PyStr.lower netloc)) suspicious_tlds = true \/
  (existsb (PyStr.contains (PyStr.lower netloc)) bank_names = true /\
   existsb (PyStr.contains (PyStr.lower netloc)) official_domains = false) ->
  exists d v,
    fallback_rule_based W url = Ok (PDict d) /\
    Py.assoc_get "verdict" d = Some (PStr v) /\
    (v = "WARN" \/ v = "BLOCK").
Proof.
  intros Hnet H. unfold fallback_rule_based. rewrite Hnet. cbn [exc_bind].
  pose proof (rule_score_flagged (PyStr.lower netloc) (PyStr.lower url) H) as Hs.
  destruct (rule_score _ _) as [score reasons]. cbn [fst] in Hs.
  do 2 eexists. split; [reflexivity|]. split; [reflexivity|].
  destruct (Qle_bool 0.7 score); [now right|].
  apply Qle_bool_iff in Hs. rewrite Hs. now left.
Qed.

Lemma fallback_rule_based_flags_witness :
  urlparse_netloc Examples.offline "http://sbi-rewards.example/claim"
    = Ok "sbi-rewards.example" /\
  exists d v,
    fallback_rule_based Examples.offline "http://sbi-rewards.example/claim" = Ok (PDict d) /\
    Py.assoc_get "verdict" d = Some (PStr v) /\
    (v = "WARN" \/ v = "BLOCK").
Proof.
  split; [reflexivity|].
  apply (fallback_rule_based_flags Examples.offline "http://sbi-rewards.example/claim"
           "sbi-rewards.example"); [reflexivity|right; split; reflexivity].
Defined.

(** A port after the host takes the place of its ending: the host of
    [http://evil.tk:8080/] ends in [.tk], its network location does not,
    and the answer is OK. *)
Example fallback_rule_based_port_hides_tld :
  urlparse_netloc Examples.offline "http://evil.tk:8080/" = Ok "evil.tk:8080" /\
  existsb (PyStr.endswith "evil.tk") suspicious_tlds = true /\
  existsb (PyStr.endswith "evil.tk:8080") suspicious_tlds = false /\
  Py.item (try_except (fallback_rule_based Examples.offline "http://evil.tk:8080/")
                      (fun _ => PNone)) "verdict" = Ok (PStr "OK") /\
  Py.item (try_except (fallback_rule_based Examples.offline "http://evil.tk:8080/")
                      (fun _ => PNone)) "score" = Ok (PFloat (Py.round2 0.2)).
Proof. repeat split; reflexivity. Qed.

(** X21.  A host that holds one of the twelve trusted names anywhere in
    its text is answered OK with score 0.0 by [static_score_for_url]; the
    models are not consulted. *)
Theorem static_score_for_url_trusts_parts_of_hosts
    (W : World) (stage1_run : string -> Stage1Run) (url netloc t : string) :
  urlparse_netloc W url = Ok netloc ->
  In t trusted ->
  PyStr.contains (PyStr.lower netloc) t = true ->
  static_score_for_url W stage1_run url
  = Ok (PDict [ ("verdict", PStr "OK"); ("score", PFloat 0.0);
                ("reasons", Py.strs ["Trusted domain (whitelisted)"]);
                ("url", PStr url) ]).
Proof.
  intros Hnet Hin Hc. unfold static_score_for_url. rewrite Hnet.
  assert (E : existsb (PyStr.contains (PyStr.lower netloc)) trusted = true).
  { apply existsb_exists. eauto. }
  now rewrite E.
Qed.

Lemma static_score_for_url_trusts_parts_of_hosts_witness :
  urlparse_netloc Examples.offline "http://paytm.com.kyc-update.tk/login"
    = Ok "paytm.com.kyc-update.tk" /\
  In "paytm.com" trusted /\
  PyStr.contains (PyStr.lower "paytm.com.kyc-update.tk") "paytm.com" = true /\
  exc_bind (static_score_for_url Examples.offline (fun _ => ArtifactsMissing "")
              "http://paytm.com.kyc-update.tk/login")
           (fun r => Py.item r "verdict")
  = Ok (PStr "OK").
Proof.
  split; [reflexivity|]. split; [cbn; tauto|]. split; [reflexivity|].
  rewrite (static_score_for_url_trusts_parts_of_hosts Examples.offline
             (fun _ => ArtifactsMissing "") "http://paytm.com.kyc-update.tk/login"
             "paytm.com.kyc-update.tk" "paytm.com");
    [reflexivity|reflexivity|cbn; tauto|reflexivity].
Defined.

(** X22.  [static_score_for_url] answers every URL and raises nothing:
    the answer is a dictionary whose verdict is OK, WARN, BLOCK or ERROR,
    and it holds the key ["error"] exactly when the verdict is ERROR. *)
Theorem static_score_for_url_answers
    (W : World) (stage1_run : string -> Stage1Run) (url : string) :
  exists d v,
    static_score_for_url W stage1_run url = Ok (PDict d) /\
    Py.assoc_get "verdict" d = Some (PStr v) /\
    (v = "OK" \/ v = "WARN" \/ v = "BLOCK" \/ v = "ERROR") /\
    (Py.has_key "error" d = true <-> v = "ERROR").
Proof.
  unfold static_score_for_url.
  destruct (urlparse_netloc W url) as [netloc|e] eqn:Hnet.
  - destruct (existsb _ trusted).
    + do 2 eexists. split; [reflexivity|]. split; [reflexivity|].
      split; [auto|]. split; discriminate.
    + destruct (stage1_run url) as [msg|e|cfg xgb_prob if_score].
      * unfold fallback_rule_based. rewrite Hnet. cbn [exc_bind].
        destruct (rule_score _ _) as [score reasons].
        do 2 eexists. split; [reflexivity|]. split; [reflexivity|].
        destruct (Qle_bool 0.7 score); [|destruct (Qle_bool 0.3 score)];
          (split; [auto|]); split; discriminate.
      * do 2 eexists. split; [reflexivity|]. split; [reflexivity|].
        split; [auto 6|]. split; reflexivity.
      * unfold combine_and_decide.
        destruct (Qle_bool (t_block cfg) _); [|destruct (Qle_bool _ (t_ok cfg))];
          do 2 eexists; (split; [reflexivity|]); (split; [reflexivity|]);
          (split; [auto|]); split; discriminate.
  - do 2 eexists. split; [reflexivity|]. split; [reflexivity|].
    split; [auto 6|]. split; reflexivity.
Qed.

End LinkOrchestratorFacts.

(** ** message_validation/msg_rules.py *)

Section MsgRulesFacts.

Import MsgRules.

Lemma inject_nat_succ (n : nat) :
  (inject_Z (Z.of_nat (S n)) == inject_Z (Z.of_nat n) + 1)%Q.
Proof. rewrite Nat2Z.inj_succ. unfold Z.succ. rewrite inject_Z_plus. reflexivity. Qed.

Lemma high_risk_steps (text_lower : string) (words : list string) :
  forall acc,
    (fst acc + 0.2 * inject_Z (Z.of_nat (length (List.filter (PyStr.contains text_lower) words)))
     <= fst (fold_left (high_risk_step text_lower) words acc))%Q.
Proof.
  induction words as [|w words IH]; intros acc; cbn [fold_left List.filter].
  - cbn [length]. change (inject_Z (Z.of_nat 0)) with 0%Q. lra.
  - specialize (IH (high_risk_step text_lower acc w)). unfold high_risk_step in *.
    destruct (PyStr.contains text_lower w); cbn [fst length] in *; [|exact IH].
    pose proof (inject_nat_succ (length (List.filter (PyStr.contains text_lower) words))).
    lra.
Qed.

(** The answer of [check_rules] for a dictionary of features. *)
Lemma check_rules_dict (text : string) (d : list (string * pyval)) :
  exists score rs,
    check_rules text (PDict d)
    = Ok (PDict [ ("is_suspicious", PBool (Qle_bool 0.4 (py_min score 1.0)));
                  ("fraud_score", PFloat (py_min score 1.0));
                  ("reasons", PList rs) ]) /\
    (0.2 * inject_Z (Z.of_nat (length (List.filter (PyStr.contains (PyStr.lower text))
                                                   high_risk)))
     + 0.1 * inject_Z (Z.of_nat (length (List.filter (PyStr.contains (PyStr.lower text))
                                                     urgency_words)))
     <= score)%Q.
Proof.
  unfold check_rules. cbn [Py.get exc_bind].
  pose proof (high_risk_steps (PyStr.lower text) high_risk (0.0%Q, [])) as H0.
  cbn [fst] in H0.
  set (n := inject_Z (Z.of_nat (length (List.filter _ high_risk)))) in *.
  set (a0 := fold_left _ high_risk _) in *. clearbody n a0.
  set (a1 := if Py.truthy _ then _ else a0).
  assert (H1 : (fst a0 <= fst a1)%Q).
  { subst a1. destruct (Py.truthy _); cbn [fst]; lra. }
  clearbody a1.
  set (a2 := if Py.truthy _ then _ else a1).
  assert (H2 : (fst a1 <= fst a2)%Q).
  { subst a2. destruct (Py.truthy _); cbn [fst]; lra. }
  clearbody a2.
  set (c := length (List.filter _ urgency_words)).
  set (a3 := if (0 <? c)%nat then _ else a2).
  assert (H3 : (fst a2 + 0.1 * inject_Z (Z.of_nat c) <= fst a3)%Q).
  { subst a3. destruct c as [|c']; cbn [Nat.ltb Nat.leb fst]; [|lra].
    change (inject_Z (Z.of_nat 0)) with 0%Q. lra. }
  clearbody a3 c.
  set (a4 := if _ && _ then _ else a3).
  assert (H4 : (fst a3 <= fst a4)%Q).
  { subst a4. destruct (_ && _); cbn [fst]; lra. }
  clearbody a4.
  exists (fst a4). eexists. split; [reflexivity|]. lra.
Qed.

Lemma check_rules_default (text : string) :
  check_rules text PNone = check_rules text (MsgUtils.extract_features text).
Proof. reflexivity. Qed.

Lemma count_positive {A : Type} (f : A -> bool) (l : list A) (x : A) :
  In x l -> f x = true -> (1 <= inject_Z (Z.of_nat (length (List.filter f l))))%Q.
Proof.
  intros Hin Hf.
  assert (H : In x (List.filter f l)) by (apply List.filter_In; auto).
  destruct (List.filter f l) as [|y ys]; [destruct H|].
  change 1%Q with (inject_Z 1). rewrite <- Zle_Qle. cbn [length]. lia.
Qed.

(** X23.  [check_rules] answers every text, with the features it
    extracts itself as with any dictionary passed for them: the fraud
    score lies between 0 and 1, and [is_suspicious] holds exactly when the
    score is at least 0.4.  Any other value passed for the features raises
    an exception. *)
Theorem check_rules_score_range (text : string) (features : pyval) :
  match features with
  | PNone | PDict _ =>
      exists q rs,
        check_rules text features
        = Ok (PDict [ ("is_suspicious", PBool (Qle_bool 0.4 q));
                      ("fraud_score", PFloat q);
                      ("reasons", PList rs) ]) /\
        (0 <= q)%Q /\ (q <= 1)%Q
  | _ => exists e, check_rules text features = Raise e
  end.
Proof.
  assert (Hd : forall d,
             exists q rs,
               check_rules text (PDict d)
               = Ok (PDict [ ("is_suspicious", PBool (Qle_bool 0.4 q));
                             ("fraud_score", PFloat q);
                             ("reasons", PList rs) ]) /\
               (0 <= q)%Q /\ (q <= 1)%Q).
  { intros d. destruct (check_rules_dict text d) as (score & rs & E & Hlow).
    exists (py_min score 1.0), rs. split; [exact E|].
    pose proof (inject_nat_nonneg
                  (length (List.filter (PyStr.contains (PyStr.lower text)) high_risk))).
    pose proof (inject_nat_nonneg
                  (length (List.filter (PyStr.contains (PyStr.lower text)) urgency_words))).
    unfold py_min. destruct (Qlt_bool 1.0 score) eqn:L.
    - split; discriminate.
    - unfold Qlt_bool in L. apply negb_false_iff, Qle_bool_iff in L. split; lra. }
  destruct features; try (eexists; reflexivity).
  - rewrite check_rules_default. apply Hd.
  - apply Hd.
Qed.

(** X24.  Two of the seven high-risk words make a text suspicious, and so
    does one of them together with two of the urgency words; [urgent] and
    [immediately] are on both lists, so that either alone puts the score
    at 0.3 or more. *)
Theorem check_rules_keywords (text : string) :
  let high := length (List.filter (PyStr.contains (PyStr.lower text)) high_risk) in
  let urgency := length (List.filter (PyStr.contains (PyStr.lower text)) urgency_words) in
  exists b q rs,
    check_rules text PNone
    = Ok (PDict [ ("is_suspicious", PBool b); ("fraud_score", PFloat q);
                  ("reasons", PList rs) ]) /\
    ((2 <= high)%nat -> b = true) /\
    ((1 <= high)%nat -> (2 <= urgency)%nat -> b = true) /\
    (PyStr.contains (PyStr.lower text) "urgent" = true \/
     PyStr.contains (PyStr.lower text) "immediately" = true -> (0.3 <= q)%Q).
Proof.
  cbv zeta. rewrite check_rules_default. unfold MsgUtils.extract_features.
  match goal with
  | |- context [check_rules text (PDict ?d)] =>
      destruct (check_rules_dict text d) as (score & rs & -> & Hlow)
  end.
  exists (Qle_bool 0.4 (py_min score 1.0)), (py_min score 1.0), rs.
  split; [reflexivity|].
  set (h := length (List.filter _ high_risk)) in *.
  set (u := length (List.filter _ urgency_words)) in *.
  assert (Hpos : forall w, PyStr.contains (PyStr.lower text) w = true ->
                           (In w high_risk -> (1 <= inject_Z (Z.of_nat h))%Q) /\
                           (In w urgency_words -> (1 <= inject_Z (Z.of_nat u))%Q)).
  { intros w Hw. split; intros Hin; now apply (count_positive _ _ w). }
  clearbody h u.
  pose proof (inject_nat_nonneg h) as Hh0. pose proof (inject_nat_nonneg u) as Hu0.
  assert (Hmin : forall t, (t <= 1)%Q -> (t <= score)%Q -> (t <= py_min score 1.0)%Q).
  { intros t Ht1 Ht. unfold py_min. destruct (Qlt_bool 1.0 score); [lra|exact Ht]. }
  split; [|split].
  - intros H. apply Qle_bool_iff, Hmin; [discriminate|].
    assert (Hq : (2 <= inject_Z (Z.of_nat h))%Q).
    { change 2%Q with (inject_Z 2). rewrite <- Zle_Qle. lia. }
    lra.
  - intros H1 H2. apply Qle_bool_iff, Hmin; [discriminate|].
    assert (Hq1 : (1 <= inject_Z (Z.of_nat h))%Q).
    { change 1%Q with (inject_Z 1). rewrite <- Zle_Qle. lia. }
    assert (Hq2 : (2 <= inject_Z (Z.of_nat u))%Q).
    { change 2%Q with (inject_Z 2). rewrite <- Zle_Qle. lia. }
    lra.
  - intros H. apply Hmin; [discriminate|].
    assert (Hq : (1 <= inject_Z (Z.of_nat h))%Q /\ (1 <= inject_Z (Z.of_nat u))%Q).
    { destruct H as [H|H]; apply Hpos in H; (split; apply H; cbn; tauto). }
    lra.
Qed.

Example check_rules_urgent :
  exc_bind (check_rules "Urgent notice" PNone) (fun r => Py.item r "fraud_score")
  = Ok (PFloat (0.0 + 0.2 + 0.1 * 1)).
Proof. reflexivity. Qed.

End MsgRulesFacts.

(** ** backend/app.py: the replies of [/validate] *)

Section AppFacts.

Import Orchestrator App.

Lemma respond_cases (out : Exc pyval) :
  match respond out with
  | Json content => exists d, out = Ok (PDict d) /\ content = PDict d /\ Py.has_key "error" d = false
  | HttpError status _ => status = 500%Z
  end.
Proof.
  unfold respond. destruct out as [result|e]; [|reflexivity].
  destruct result; try reflexivity. cbn [Py.contains_key Py.item]. unfold Py.has_key.
  destruct (Py.assoc_get "error" d) eqn:E; cbv beta iota; [reflexivity|].
  exists d. now rewrite E.
Qed.

(** X25.  The handler of [/validate] replies with a JSON document without
    the key ["error"], or with the status 400 or 500.  The status is 400
    exactly when the input is missing, which is the file for the type [qr]
    and the value for every other type, and then the cache is not
    touched. *)
Theorem validate_replies (W : World) (clock : Clock) (cache : gmap string CacheEntry)
    (type : string) (value file : option string) :
  let lacking := if String.eqb type "qr" then
                   match file with None => true | Some _ => false end
                 else missing value in
  match fst (validate W clock cache type value file) with
  | Json content =>
      lacking = false /\ exists d, content = PDict d /\ Py.has_key "error" d = false
  | HttpError status _ =>
      (status = 400%Z /\ lacking = true /\
       snd (validate W clock cache type value file) = cache) \/
      (status = 500%Z /\ lacking = false)
  end.
Proof.
  cbv zeta. unfold validate.
  destruct (String.eqb type "qr").
  - destruct file as [file_data|]; [|left; auto]. cbn [fst snd].
    pose proof (respond_cases (fst (validate_input W clock cache "qr" None (Some file_data))))
      as H.
    destruct (respond _); [|auto].
    destruct H as (d & _ & -> & H). eauto.
  - destruct (missing value); [left; auto|]. cbn [fst snd].
    pose proof (respond_cases (fst (validate_input W clock cache type value None))) as H.
    destruct (respond _); [|auto].
    destruct H as (d & _ & -> & H). eauto.
Qed.

(** The call of a handler that misses the cache, as the entry point
    returns it. *)
Lemma validate_input_miss_path
    (W : World) (clock : Clock) (cache : gmap string CacheEntry)
    (input_type : string) (value file_data : option string) :
  Py.truthy (default PNone
               (fst (get_from_cache (now_lookup clock) cache
                       (get_cache_key W input_type value file_data)))) = false ->
  fst (validate_input W clock cache input_type value file_data)
  = Ok (match stamped (route W input_type value file_data) clock with
        | Ok (result, _) => result
        | Raise e => PDict [("error", PStr e)]
        end).
Proof.
  unfold validate_input, validate_input_with.
  destruct (get_from_cache _ cache _) as [cached cache'] eqn:G. cbn [fst].
  intros Hmiss. rewrite Hmiss.
  now destruct (stamped _ clock) as [[res has_error]|e].
Qed.

(** X26.  What the orchestrator answers with an error, the handler turns
    into the status 500 with the text of the error as detail.  On a cache
    miss this is the reply to an input type that is not one of the four,
    with the detail [Invalid type], and to an image in which no QR code is
    found, with the detail [No QR code found in image]. *)
Theorem validate_turns_errors_into_500
    (W : World) (clock : Clock) (cache : gmap string CacheEntry)
    (type : string) (value file : option string) :
  Py.truthy (default PNone
               (fst (get_from_cache (now_lookup clock) cache
                       (get_cache_key W type (if String.eqb type "qr" then None else value)
                                      (if String.eqb type "qr" then file else None)))))
    = false ->
  (type <> "link" -> type <> "vpa" -> type <> "message" -> type <> "qr" ->
   missing value = false ->
   fst (validate W clock cache type value file) = HttpError 500 (PStr "Invalid type")) /\
  (forall image,
     type = "qr" -> file = Some image ->
     decode_qr W image = None \/ decode_qr W image = Some "" ->
     fst (validate W clock cache type value file)
     = HttpError 500 (PStr "No QR code found in image")).
Proof.
  intros Hmiss. split.
  - intros H1 H2 H3 H4 Hv. unfold validate.
    apply String.eqb_neq in H1, H2, H3, H4. rewrite H4 in Hmiss |- *. rewrite Hv.
    cbn [fst]. rewrite (validate_input_miss_path _ _ _ _ _ _ Hmiss).
    unfold route. rewrite H1, H2, H3, H4. reflexivity.
  - intros image -> -> Hdec. unfold validate. cbn [String.eqb Ascii.eqb Bool.eqb fst] in *.
    rewrite (validate_input_miss_path _ _ _ _ _ _ Hmiss).
    unfold route. cbn [String.eqb Ascii.eqb Bool.eqb].
    assert (E : validate_qr W (Some image)
                = PDict [("error", PStr "No QR code found in image")]).
    { unfold validate_qr, QrParser.parse_qr_image. cbn [mbind option_bind].
      destruct Hdec as [-> | ->]; reflexivity. }
    rewrite E. reflexivity.
Qed.

Lemma validate_turns_errors_into_500_witness :
  fst (validate Examples.offline Examples.noon ∅ "upi" (Some "shop@ybl") None)
    = HttpError 500 (PStr "Invalid type") /\
  fst (validate {| urlparse_netloc := Urllib.netloc; unquote := fun s => s;
                   md5_hex := fun s => s; py_str := fun _ => "";
                   stage1_probe := fun _ => ModelsMissing;
                   scan_probe := fun _ => ScanFailed "";
                   decode_qr := fun _ => None; link_without_url := PNone |}
                Examples.noon ∅ "qr" None (Some "not an image"))
    = HttpError 500 (PStr "No QR code found in image").
Proof.
  split.
  - apply (validate_turns_errors_into_500 Examples.offline Examples.noon ∅ "upi"
             (Some "shop@ybl") None); try discriminate; reflexivity.
  - refine (proj2 (validate_turns_errors_into_500 _ Examples.noon ∅ "qr" None
                     (Some "not an image") _) "not an image" _ _ _);
      try reflexivity. now left.
Defined.

(** A link with a value that misses the cache is answered with a
    JSON document that holds a final verdict among OK, WARN and BLOCK: the
    link path gives no error. *)
Theorem validate_link_request_gets_a_verdict
    (W : World) (clock : Clock) (cache : gmap string CacheEntry) (url : string) :
  url <> "" ->
  Py.truthy (default PNone
               (fst (get_from_cache (now_lookup clock) cache
                       (get_cache_key W "link" (Some url) None)))) = false ->
  exists d v,
    fst (validate W clock cache "link" (Some url) None) = Json (PDict d) /\
    Py.assoc_get "final_verdict" d = Some (PStr v) /\
    (v = "OK" \/ v = "WARN" \/ v = "BLOCK").
Proof.
  intros Hne Hmiss. unfold validate. cbn [String.eqb Ascii.eqb Bool.eqb missing].
  apply String.eqb_neq in Hne. rewrite Hne. cbn [fst].
  rewrite (validate_input_miss_path _ _ _ _ _ _ Hmiss).
  destruct (validate_link_by_stage1 W url)
    as (v1 & q1 & rs & b & s2 & reasons & _ & _ & Hset & E & _).
  unfold route, stamped. cbn [String.eqb Ascii.eqb Bool.eqb]. rewrite E.
  cbn [exc_bind Py.set_item Py.assoc_set String.eqb Ascii.eqb Bool.eqb Py.contains_key
       Py.has_key Py.assoc_get respond].
  do 2 eexists. split; [reflexivity|]. split; [reflexivity|exact Hset].
Qed.

Lemma validate_link_request_gets_a_verdict_witness :
  "https://example.org/" <> "" /\
  exists d v,
    fst (validate Examples.offline Examples.noon ∅ "link" (Some "https://example.org/") None)
      = Json (PDict d) /\
    Py.assoc_get "final_verdict" d = Some (PStr v) /\
    (v = "OK" \/ v = "WARN" \/ v = "BLOCK").
Proof.
  split; [discriminate|].
  apply (validate_link_request_gets_a_verdict Examples.offline Examples.noon ∅
           "https://example.org/"); [discriminate|reflexivity].
Defined.

End AppFacts.

(** ** Repetitions and marks *)

(** What a repetition that succeeds has taken. *)
Lemma rep_inv {A : Type} (cls : ascii -> bool) (k : option ascii -> string -> option A)
    (s : string) :
  forall lo hi prev r,
    Regex.rep cls lo hi k prev s = Some r ->
    exists prev' front back,
      s = front +:+ back /\
      Urllib.all_of cls front = true /\
      (lo <= String.length front)%nat /\
      (forall h, hi = Some h -> (String.length front <= h)%nat) /\
      k prev' back = Some r.
Proof.
  induction s as [|c s IH]; intros lo hi prev r H; cbn [Regex.rep] in H.
  - destruct lo; [|discriminate]. exists prev, EmptyString, EmptyString.
    repeat split; auto. intros h _. cbn. lia.
  - assert (Hstop : match lo with O => k prev (String c s) | S _ => None end = Some r ->
                    exists prev' front back,
                      String c s = front +:+ back /\
                      Urllib.all_of cls front = true /\
                      (lo <= String.length front)%nat /\
                      (forall h, hi = Some h -> (String.length front <= h)%nat) /\
                      k prev' back = Some r).
    { destruct lo; [|discriminate]. intros Hk.
      exists prev, EmptyString, (String c s). repeat split; auto. intros h _. cbn. lia. }
    destruct (cls c && Regex.room hi) eqn:Hc; [|auto].
    destruct (Regex.rep cls (Nat.pred lo) (Regex.less hi) k (Some c) s) as [r'|] eqn:E;
      [|auto].
    injection H as ->. apply andb_true_iff in Hc as [Hc Hroom].
    destruct (IH _ _ _ _ E) as (prev' & front & back & -> & Hall & Hlo & Hhi & Hk).
    exists prev', (String c front), back. split; [reflexivity|].
    split; [cbn; now rewrite Hc|]. split; [cbn; lia|]. split; [|exact Hk].
    intros h ->. destruct h as [|h]; [discriminate|].
    specialize (Hhi h eq_refl). cbn. lia.
Qed.

Lemma noted_inv (here : string) (found : option (list string * string))
    (marks : list string) (rest : string) :
  RegexGroups.noted here found = Some (marks, rest) ->
  exists marks', marks = here :: marks' /\ found = Some (marks', rest).
Proof.
  destruct found as [[m r]|]; [|discriminate]. cbn. intros H. injection H as <- <-. eauto.
Qed.

Lemma between_front (front back : string) :
  RegexGroups.between (front +:+ back) back = front.
Proof.
  unfold RegexGroups.between. rewrite string_length_append.
  replace (String.length front + String.length back - String.length back)%nat
    with (String.length front) by lia.
  apply substring_front.
Qed.

(** ** Stripped texts *)

Lemma lstrip_head (s : string) (c : ascii) (r : string) :
  PyText.lstrip s = String c r -> PyStr.is_space c = false.
Proof.
  induction s as [|a s IH]; [discriminate|]. cbn [PyText.lstrip].
  destruct (PyStr.is_space a) eqn:E; [exact IH|]. intros H. now injection H as <- _.
Qed.

Lemma rstrip_head (s : string) (c : ascii) (r : string) :
  PyText.rstrip s = String c r -> exists s', s = String c s'.
Proof.
  destruct s as [|a s]; [discriminate|]. cbn [PyText.rstrip].
  destruct (PyText.rstrip s).
  - destruct (PyStr.is_space a); [discriminate|]. intros H. injection H as <- _. eauto.
  - intros H. injection H as <- _. eauto.
Qed.

Lemma strip_head (s : string) (c : ascii) (r : string) :
  PyText.strip s = String c r -> PyStr.is_space c = false.
Proof.
  unfold PyText.strip. intros H. apply rstrip_head in H as [s' H].
  now apply lstrip_head in H.
Qed.

Lemma rstrip_tail (s : string) :
  forall x t,
    PyText.rstrip s = x +:+ t -> Urllib.all_of PyStr.is_space t = true -> t = "".
Proof.
  induction s as [|a s IH]; intros x t H Ht.
  - destruct x; [|discriminate]. now destruct t.
  - cbn [PyText.rstrip] in H. destruct (PyText.rstrip s) as [|b r] eqn:R.
    + destruct (PyStr.is_space a) eqn:Ha.
      * destruct x; [|discriminate]. now destruct t.
      * destruct x as [|a' x].
        -- change ("" +:+ t) with t in H. subst t. cbn in Ht. now rewrite Ha in Ht.
        -- change (String a' x +:+ t) with (String a' (x +:+ t)) in H.
           injection H as _ H. destruct x; [|discriminate]. now destruct t.
    + destruct x as [|a' x].
      * change ("" +:+ t) with t in H. subst t. cbn in Ht.
        apply andb_true_iff in Ht as [_ Ht].
        specialize (IH "" (String b r) eq_refl Ht). discriminate.
      * change (String a' x +:+ t) with (String a' (x +:+ t)) in H.
        injection H as _ H. exact (IH x t H Ht).
Qed.

Lemma strip_tail (s x t : string) :
  PyText.strip s = x +:+ t -> Urllib.all_of PyStr.is_space t = true -> t = "".
Proof. unfold PyText.strip. apply rstrip_tail. Qed.

Lemma all_of_app (p : ascii -> bool) (a b : string) :
  Urllib.all_of p (a +:+ b) = Urllib.all_of p a && Urllib.all_of p b.
Proof.
  induction a as [|c a IH]; [reflexivity|].
  change (String c a +:+ b) with (String c (a +:+ b)). cbn. now rewrite IH, andb_assoc.
Qed.

Lemma string_append_assoc (a b c : string) : (a +:+ b) +:+ c = a +:+ (b +:+ c).
Proof.
  induction a as [|x a IH]; [reflexivity|].
  change (String x a +:+ b) with (String x (a +:+ b)).
  change (String x (a +:+ b) +:+ c) with (String x ((a +:+ b) +:+ c)).
  now rewrite IH.
Qed.

Lemma append_nil_r (s : string) : s +:+ "" = s.
Proof.
  induction s as [|c s IH]; [reflexivity|].
  change (String c s +:+ "") with (String c (s +:+ "")). now rewrite IH.
Qed.

(** ** vpa_validation/vpa_utils.py *)

Section VpaHandlesFacts.

Import VpaHandles.

(** The two groups of a match of [VPA_RE]. *)
Lemma VPA_RE_groups (s lp prov : string) :
  RegexGroups.match2 VPA_RE s = Some (lp, prov) ->
  exists ws tail,
    s = ws +:+ lp +:+ "@" +:+ prov +:+ tail /\
    Urllib.all_of PyStr.is_space ws = true /\
    Urllib.all_of PyStr.is_space tail = true /\
    Urllib.all_of QrVpaValidator.vpa_char lp = true /\
    (2 <= String.length lp <= 64)%nat /\
    Urllib.all_of PyStr.is_alnum prov = true /\
    (2 <= String.length prov <= 64)%nat.
Proof.
  unfold RegexGroups.match2, VPA_RE. cbn [RegexGroups.run].
  destruct (Regex.rep _ _ _ _ _ _) as [[marks rest]|] eqn:R0; [|discriminate].
  apply rep_inv in R0 as (p0 & ws & s1 & -> & Hws & _ & _ & R1).
  apply noted_inv in R1 as (m1 & -> & R1).
  apply rep_inv in R1 as (p1 & lp' & s2 & -> & Hlp & Hlp2 & Hlp64 & R2).
  apply noted_inv in R2 as (m2 & -> & R2).
  cbn [RegexGroups.run] in R2.
  destruct (PyStr.drop_prefix "@" s2) as [s3|] eqn:D; [|discriminate].
  apply drop_prefix_app in D as ->.
  apply noted_inv in R2 as (m3 & -> & R3).
  apply rep_inv in R3 as (p3 & prov' & s4 & -> & Hprov & Hprov2 & Hprov64 & R4).
  apply noted_inv in R4 as (m4 & -> & R4).
  apply rep_inv in R4 as (p4 & ws' & s5 & -> & Hws' & _ & _ & R5).
  cbn [RegexGroups.run] in R5.
  destruct (String.eqb s5 "" || String.eqb s5 (String Regex.newline "")) eqn:E5;
    [|discriminate].
  injection R5 as <- <-.
  intros H. injection H as <- <-. rewrite !between_front.
  exists ws, (ws' +:+ s5). split; [reflexivity|]. split; [exact Hws|].
  split.
  { rewrite all_of_app, Hws'. apply orb_true_iff in E5 as [E|E];
      apply String.eqb_eq in E; subst s5; reflexivity. }
  split; [exact Hlp|]. split; [split; [exact Hlp2|now apply Hlp64]|].
  split; [exact Hprov|]. split; [exact Hprov2|now apply Hprov64].
Qed.

(** X27.  What [parse_vpa] accepts: the stripped handle is the local part,
    an [@] and the provider, the provider being returned in lower case;
    the local part has 2 to 64 letters, digits, dots, hyphens and
    underscores, and the provider 2 to 64 letters and digits. *)
Theorem parse_vpa_sound (vpa lp prov : string) :
  parse_vpa (Some vpa) = Some (lp, prov) ->
  exists provider,
    PyText.strip vpa = lp +:+ "@" +:+ provider /\
    prov = PyStr.lower provider /\
    Urllib.all_of QrVpaValidator.vpa_char lp = true /\
    (2 <= String.length lp <= 64)%nat /\
    Urllib.all_of PyStr.is_alnum provider = true /\
    (2 <= String.length provider <= 64)%nat.
Proof.
  unfold parse_vpa.
  destruct (RegexGroups.match2 VPA_RE (PyText.strip vpa)) as [[lp' prov']|] eqn:M;
    [|discriminate].
  intros H. injection H as <- <-.
  apply VPA_RE_groups in M as (ws & tail & E & Hws & Htail & Hlp & Hlen & Hprov & Hplen).
  assert (ws = "") as ->.
  { destruct ws as [|c ws]; [reflexivity|].
    change (String c ws +:+ ?x) with (String c (ws +:+ x)) in E.
    apply strip_head in E. cbn in Hws. now rewrite E in Hws. }
  change ("" +:+ ?x) with x in E.
  assert (tail = "") as ->.
  { apply (strip_tail vpa (lp' +:+ "@" +:+ prov') tail); [|exact Htail].
    rewrite E. now rewrite !string_append_assoc. }
  rewrite append_nil_r in E. exists prov'. auto 10.
Qed.

Lemma parse_vpa_sound_witness :
  parse_vpa (Some "  John.Doe@OkAxis ") = Some ("John.Doe", "okaxis") /\
  exists provider,
    PyText.strip "  John.Doe@OkAxis " = "John.Doe" +:+ "@" +:+ provider /\
    "okaxis" = PyStr.lower provider /\
    Urllib.all_of QrVpaValidator.vpa_char "John.Doe" = true /\
    (2 <= String.length "John.Doe" <= 64)%nat /\
    Urllib.all_of PyStr.is_alnum provider = true /\
    (2 <= String.length provider <= 64)%nat.
Proof.
  split; [reflexivity|].
  apply (parse_vpa_sound "  John.Doe@OkAxis " "John.Doe" "okaxis"). reflexivity.
Defined.

(** X28.  [vpa_format_score] is 0.0 exactly for the handles that
    [looks_like_vpa] rejects; for the others it is 1.0 less 0.25 for a
    local part of fewer than three characters, less 0.2 for more than a
    quarter of punctuation and less 0.2 for fewer than three letters in
    ten, which leaves at least 0.35. *)
Theorem vpa_format_score_values (vpa : option string) :
  (looks_like_vpa vpa = false -> vpa_format_score vpa = 0.0%Q) /\
  (looks_like_vpa vpa = true ->
   (0.35 <= vpa_format_score vpa)%Q /\ (vpa_format_score vpa <= 1)%Q).
Proof.
  unfold looks_like_vpa, vpa_format_score.
  destruct (parse_vpa vpa) as [[lp prov]|]; split; try discriminate; [|reflexivity].
  intros _.
  destruct (String.length lp <? 3)%nat; destruct (Qlt_bool 0.25 _); destruct (Qlt_bool _ 0.3);
    split; vm_compute; discriminate.
Qed.

End VpaHandlesFacts.

(** ** vpa_validation/vpa_validator.py *)

Section VpaValidationFacts.

Import VpaValidation.

(** A repetition without upper bound takes a whole text of its class up
    to the end. *)
Lemma rep_to_the_end (cls : ascii -> bool) (v : string) :
  Urllib.all_of cls v = true ->
  forall lo prev,
    (lo <= String.length v)%nat ->
    Regex.rep cls lo None (Regex.run [Regex.EndAnchor]) prev v = Some "".
Proof.
  intros Hv. induction v as [|c v IH]; intros lo prev Hlo.
  - cbn in Hlo. assert (lo = 0)%nat as -> by lia. reflexivity.
  - cbn in Hv. apply andb_true_iff in Hv as [Hc Hv].
    cbn [Regex.rep]. rewrite Hc. cbn [andb Regex.room Regex.less option_map].
    rewrite (IH Hv); [reflexivity|]. cbn in Hlo. lia.
Qed.

(** The two groups of a match of [VPA_PARTS]. *)
Lemma VPA_PARTS_groups (s username provider : string) :
  RegexGroups.match2 VPA_PARTS s = Some (username, provider) ->
  (1 <= String.length username)%nat /\
  PyStr.has_char username "@" = false /\
  (1 <= String.length provider)%nat /\
  Urllib.all_of provider_char provider = true.
Proof.
  unfold RegexGroups.match2, VPA_PARTS. cbn [RegexGroups.run].
  destruct (RegexGroups.noted s _) as [[marks rest]|] eqn:R0; [|discriminate].
  apply noted_inv in R0 as (m1 & -> & R1).
  apply rep_inv in R1 as (p1 & u & s2 & -> & Hu & Hu1 & _ & R2).
  apply noted_inv in R2 as (m2 & -> & R2).
  cbn [RegexGroups.run] in R2.
  destruct (PyStr.drop_prefix "@" s2) as [s3|] eqn:D; [|discriminate].
  apply drop_prefix_app in D as ->.
  apply noted_inv in R2 as (m3 & -> & R3).
  apply rep_inv in R3 as (p3 & p & s4 & -> & Hp & Hp1 & _ & R4).
  apply noted_inv in R4 as (m4 & -> & R4).
  cbn [RegexGroups.run] in R4.
  destruct (String.eqb s4 "" || _); [|discriminate].
  injection R4 as <- <-.
  intros H. injection H as <- <-. rewrite !between_front.
  split; [exact Hu1|]. split; [|split; assumption].
  clear -Hu. induction u as [|c u IH]; [reflexivity|].
  cbn in Hu. apply andb_true_iff in Hu as [Hc Hu].
  cbn [PyStr.has_char]. apply negb_true_iff in Hc. rewrite Hc. now apply IH.
Qed.

Variable log2 : Q -> Q.

(** X29.  [validate_vpa] never gives the reason [provider_malformed]: the
    provider it tests has passed the same class of characters when the
    handle was parsed.  So a handle is valid exactly when it parses and
    its username has three characters or more, whatever the entropy. *)
Theorem validate_vpa_provider_is_never_malformed (handle : string) :
  let r := validate_vpa log2 handle in
  ~ In "provider_malformed" (reasons r) /\
  (valid r = true <->
   exists username provider,
     parse_vpa handle = Some (username, provider) /\ (3 <= String.length username)%nat).
Proof.
  cbv zeta. unfold validate_vpa.
  destruct (parse_vpa handle) as [[username provider]|] eqn:P.
  - unfold parse_vpa in P. apply VPA_PARTS_groups in P as (_ & _ & Hp1 & Hp).
    assert (Hok : Regex.matches PROVIDER_OK provider = true).
    { unfold Regex.matches.
      change (Regex.run PROVIDER_OK None provider)
        with (Regex.rep provider_char 1 None (Regex.run [Regex.EndAnchor]) None provider).
      now rewrite (rep_to_the_end provider_char provider Hp 1 None Hp1). }
    rewrite Hok. cbn [negb reasons valid]. rewrite !app_nil_r.
    destruct (String.length username <? 3)%nat eqn:L3;
      destruct (64 <? String.length username)%nat;
      destruct (negb (Regex.matches USERNAME_OK username));
      destruct (Qlt_bool (_username_entropy log2 username) 1.2);
      cbn [app existsb PyStr.mem hard_reasons String.eqb Ascii.eqb Bool.eqb orb negb In];
      (split; [intros H; repeat destruct H as [H|H]; try discriminate; assumption|]);
      (split;
       [ intros H; try discriminate H; exists username, provider; (split; [reflexivity|]);
         apply Nat.ltb_ge in L3; exact L3
       | intros (u & p & E & H); injection E as <- <-;
         try reflexivity; apply Nat.ltb_lt in L3; lia ]).
  - cbn [reasons valid]. split.
    + intros [H|[]]. discriminate.
    + split; [discriminate|]. intros (u & p & E & _). discriminate.
Qed.

End VpaValidationFacts.

Example validate_vpa_short_username :
  VpaValidation.valid (VpaValidation.validate_vpa (fun _ => 0%Q) " AB@OkAxis ") = false /\
  VpaValidation.reasons (VpaValidation.validate_vpa (fun _ => 0%Q) " AB@OkAxis ")
    = ["username_too_short"; "low_username_entropy"] /\
  VpaValidation.provider (VpaValidation.validate_vpa (fun _ => 0%Q) " AB@OkAxis ")
    = Some "okaxis".
Proof. repeat split; reflexivity. Qed.
